(** * pyFSRS: the experiment orchestration core, embedded in Rocq

    A shallow embedding of the parts of pyFSRS that carry the scan
    logic: the helper functions of [core/FSRSutils.py], the property
    cell [ModProp] and the experiment base class of
    [core/FSRSModule.py], the accumulator of [xFSRS/FSRSAcquire.py], the
    camera driver loop of [Devices/PIXIS100.py], the scan thread of
    [xFSRS/FSRSScan2.py] and the exit path of [pyFSRS.py].

    Conventions.  Python floats are modelled by exact rationals [Q],
    and in the arithmetic of the stage settings, where the rounding
    decides how many points a scan has, by the rationals that are
    doubles, rounded as the machine rounds them; Python integers by
    [Z]; Python strings by [string]; a call that may raise returns a
    [Res].  A wx widget bound to a property, the plot
    windows, [print] and the files written are external and not part of
    the model.  What a thread does to its devices and to the controller
    is recorded as a trace of events; the devices answer as functions of
    that trace.  The stop flag of a thread is given by the number of the
    first poll that finds it set.  Loops of the source whose bound is
    not a structural argument run on fuel; the theorems about them give
    the fuel that is enough. *)

From Stdlib Require Import ZArith QArith Qabs Qround Qminmax List String Ascii Bool
  Lia Arith DecimalString Permutation.
From Stdlib Require DecimalZ DecimalPos.
Import ListNotations.

Local Open Scope Z_scope.

(* ===================================================================== *)
(** ** Python values and built-ins *)
(* ===================================================================== *)

Module Py.

(** The values that reach the modelled functions. *)
Inductive PyVal : Type :=
| PyNone
| PyBool (b : bool)
| PyInt (z : Z)
| PyFloat (q : Q)
| PyStr (s : string).

(** The exceptions the modelled code raises, and the one way in which
    the code leaves what the model follows.  A message is kept without
    the value that the code formats into it. *)
Inductive PyExc : Type :=
| ValueError (msg : string)
| TypeError
| IndexError
| ZeroDivisionError
| OverflowError
| NotFinite.      (* no exception: a float has become an infinity, with
                     which the code goes on and which the rationals of
                     the model do not follow *)

(** Result of a call that may raise. *)
Inductive Res (A : Type) : Type :=
| Ok (a : A)
| Raise (e : PyExc).
Arguments Ok {A} a.
Arguments Raise {A} e.

Definition bind {A B} (r : Res A) (k : A -> Res B) : Res B :=
  match r with
  | Ok a => k a
  | Raise e => Raise e
  end.

Definition raises {A} (r : Res A) : Prop :=
  exists e, r = Raise e.

(** [a < b] on floats, as a boolean. *)
Definition Qltb (a b : Q) : bool := negb (Qle_bool b a).

(** [int(x)] on a float: truncation towards zero. *)
Definition int_of_float (x : Q) : Z := Z.quot (Qnum x) (Zpos (Qden x)).

(** [str(n)] on an integer: decimal digits, a leading minus sign. *)
Definition str_int (n : Z) : string := NilZero.string_of_int (Z.to_int n).

(** Numeric view of a value: [bool] is a subtype of [int]. *)
Definition num (v : PyVal) : option Q :=
  match v with
  | PyBool b => Some (if b then 1%Q else 0%Q)
  | PyInt z => Some (inject_Z z)
  | PyFloat q => Some q
  | PyNone | PyStr _ => None
  end.

(** [v == n] for an integer literal [n]. *)
Definition eq_int (v : PyVal) (n : Z) : bool :=
  match num v with
  | Some q => Qeq_bool q (inject_Z n)
  | None => false
  end.

(** [v < n] for an integer [n], with the ordering of Python 2 between
    unlike types: [None] is below every number, a string above. *)
Definition lt_int (v : PyVal) (n : Z) : bool :=
  match v with
  | PyNone => true
  | PyStr _ => false
  | _ => match num v with
         | Some q => Qltb q (inject_Z n)
         | None => false
         end
  end.

(** [v > n] for an integer [n]. *)
Definition gt_int (v : PyVal) (n : Z) : bool :=
  match v with
  | PyNone => false
  | PyStr _ => true
  | _ => match num v with
         | Some q => Qltb (inject_Z n) q
         | None => false
         end
  end.

(** [v >= n] for an integer [n]. *)
Definition ge_int (v : PyVal) (n : Z) : bool := negb (lt_int v n).

(** Truth value of an object. *)
Definition truthy (v : PyVal) : bool :=
  match v with
  | PyNone => false
  | PyBool b => b
  | PyInt z => negb (z =? 0)
  | PyFloat q => negb (Qeq_bool q 0)
  | PyStr s => negb (String.eqb s "")
  end.

(** Characters accepted by [int(s)] around and inside the literal. *)
Definition is_space (c : ascii) : bool :=
  let n := nat_of_ascii c in
  ((n =? 32) || ((9 <=? n) && (n <=? 13)))%nat.

Definition digit_of (c : ascii) : option Z :=
  let n := nat_of_ascii c in
  if ((48 <=? n) && (n <=? 57))%nat then Some (Z.of_nat (n - 48)) else None.

Fixpoint lstrip (s : string) : string :=
  match s with
  | String c s' => if is_space c then lstrip s' else s
  | EmptyString => EmptyString
  end.

(** Digits read so far in [acc]; trailing white space is allowed. *)
Fixpoint parse_digits (s : string) (acc : Z) : option Z :=
  match s with
  | EmptyString => Some acc
  | String c s' =>
      match digit_of c with
      | Some d => parse_digits s' (10 * acc + d)
      | None => if String.eqb (lstrip s) "" then Some acc else None
      end
  end.

(** [int(s)] on a string, base ten: optional sign, at least one digit. *)
Definition int_of_string (s : string) : option Z :=
  let body (t : string) :=
    match t with
    | String c _ => match digit_of c with
                    | Some _ => parse_digits t 0
                    | None => None
                    end
    | EmptyString => None
    end in
  match lstrip s with
  | String "-"%char t => option_map Z.opp (body t)
  | String "+"%char t => body t
  | t => body t
  end.

(** [int(v)]: [None] where Python raises. *)
Definition py_int (v : PyVal) : option Z :=
  match v with
  | PyNone => None
  | PyBool b => Some (if b then 1 else 0)
  | PyInt z => Some z
  | PyFloat q => Some (int_of_float q)
  | PyStr s => int_of_string s
  end.

(** Integer floor division of Python 2 on ints. *)
Definition floordiv (a b : Z) : Res Z :=
  if b =? 0 then Raise ZeroDivisionError else Ok (a / b).

End Py.

(* ===================================================================== *)
(** ** Doubles *)
(* ===================================================================== *)

(** Where the rounding of a float decides what the code does, the
    rational that models a finite double is rounded as IEEE 754 rounds
    it.  The two zeros are not told apart. *)
Module Float64.

(** [n / d] rounded to the nearest integer, ties to the even one, for
    [0 <= n] and [0 < d]. *)
Definition round_half_even (n d : Z) : Z :=
  let q := n / d in
  match (2 * (n mod d) ?= d) with
  | Lt => q
  | Gt => q + 1
  | Eq => if Z.even q then q else q + 1
  end.

(** [floor (log2 (n / d))] for positive [n] and [d]. *)
Definition ilog2 (n d : Z) : Z :=
  let e := Z.log2 n - Z.log2 d in
  let below := if 0 <=? e then n <? d * 2 ^ e else n * 2 ^ (- e) <? d in
  if below then e - 1 else e.

(** [n / d] in units of [base ^ k], to the nearest unit. *)
Definition nearest (n d base k : Z) : Z :=
  if 0 <=? k then round_half_even n (d * base ^ k)
  else round_half_even (n * base ^ (- k)) d.

(** [sign * m * base ^ k] as a fraction in lowest terms. *)
Definition scaled (sign m base k : Z) : Q :=
  if 0 <=? k then inject_Z (sign * m * base ^ k)
  else Qred (Qmake (sign * m) (Z.to_pos (base ^ (- k)))).

(** The largest double. *)
Definition max_float : Q := inject_Z ((2 ^ 53 - 1) * 2 ^ 971).

(** [x] rounded to the nearest double, ties to the even significand: 53
    bits, in units of [2 ^ -1074] below [2 ^ -1022].  [None] where the
    rounded value is beyond the largest double, which is where the
    arithmetic of the machine gives an infinity. *)
Definition fl (x : Q) : option Q :=
  let n := Z.abs (Qnum x) in
  let d := Zpos (Qden x) in
  if n =? 0 then Some 0%Q
  else
    let k := Z.max (ilog2 n d - 52) (-1074) in
    let m := nearest n d 2 k in
    if (0 <=? k) && (2 ^ 1024 <=? m * 2 ^ k) then None
    else Some (scaled (Z.sgn (Qnum x)) m 2 k).

(** The largest [e'] from [e] on with [10 ^ e' <= n / d]. *)
Fixpoint raise_exp (fuel : nat) (n d : Z) (e : Z) : Z :=
  match fuel with
  | O => e
  | S fuel' =>
      let reached := if 0 <=? e + 1 then d * 10 ^ (e + 1) <=? n
                     else d <=? n * 10 ^ (- (e + 1)) in
      if reached then raise_exp fuel' n d (e + 1) else e
  end.

(** [floor (log10 (n / d))] for a positive double [n / d]: the doubles
    lie between [10 ^ -324] and [10 ^ 309]. *)
Definition ilog10 (n d : Z) : Z := raise_exp 800 n d (-400).

(** The number that [str(x)] of Python 2 prints for a float: [x] to
    twelve significant decimal digits ([%.12g]), ties to even. *)
Definition str12 (x : Q) : Q :=
  let n := Z.abs (Qnum x) in
  let d := Zpos (Qden x) in
  if n =? 0 then 0%Q
  else
    let k := ilog10 n d - 11 in
    scaled (Z.sgn (Qnum x)) (nearest n d 10 k) 10 k.

(** [float(str(x))]: the double read back from the twelve digits. *)
Definition float_of_str (x : Q) : option Q := fl (str12 x).

(** The double that a decimal literal stands for. *)
Definition double (x : Q) : Q :=
  match fl x with
  | Some y => y
  | None => x
  end.

End Float64.

(* ===================================================================== *)
(** ** core/FSRSutils.py *)
(* ===================================================================== *)

Module FSRSutils.
Import Py.

(** [formatFSRSFilename(type, basename, step, set, shutter)]. *)
Definition formatFSRSFilename
    (type : Z) (basename : string) (step : Q) (set : Z) (shutter : Z) : string :=
  let name := (basename ++ "_")%string in
  let name :=
    if Qltb 0 step then (name ++ "p")%string
    else if Qltb step 0 then (name ++ "m")%string
    else if Qeq_bool step 0 && ((shutter =? 1) || (type =? 1)) then (name ++ "m")%string
    else name in
  let name := (name ++ str_int (Z.abs (int_of_float step)))%string in
  let name :=
    if type =? 0 then
      if shutter =? 0 then (name ++ "gr")%string else (name ++ "exc")%string
    else (name ++ "_")%string in
  (name ++ str_int set)%string.

(** The naming convention as the specification words it:
    a sign letter, the absolute delay, a state tag, the set index. *)
Definition spec_sign (type : Z) (step : Q) (shutter : Z) : string :=
  if Qltb 0 step then "p"
  else if Qltb step 0 then "m"
  else if (shutter =? 1) || (type =? 1) then "m"
  else "".

Definition spec_tag (type : Z) (shutter : Z) : string :=
  if (type =? 0) && (shutter =? 0) then "gr"
  else if (type =? 0) && (shutter =? 1) then "exc"
  else "_".

Definition spec_filename
    (type : Z) (basename : string) (step : Q) (set : Z) (shutter : Z) : string :=
  (basename ++ "_" ++ spec_sign type step shutter
     ++ str_int (Z.abs (int_of_float step))
     ++ spec_tag type shutter ++ str_int set)%string.


(** *** Stage settings and scan points *)

(** The stage controls of [appendStageParameters] after [float(...)] of
    the text fields, which hold finite numbers: mode 0 is linear, 1
    logarithmic, anything else "from file". *)
Record StageSettings : Type := {
  mode : Z;
  from : Q;
  till : Q;
  step : Q;          (* step size (linear) or number of steps (log) *)
  step_label : string;
  random : bool;
  use_file : string
}.

(** A float that the code goes on to use: the model follows it while
    it is finite. *)
Definition finite (x : option Q) : Res Q :=
  match x with
  | Some q => Ok q
  | None => Raise NotFinite
  end.

(** [int(x)] on a float that may be an infinity, where Python raises. *)
Definition int_of (x : option Q) : Res Z :=
  match x with
  | Some q => Ok (int_of_float q)
  | None => Raise OverflowError
  end.

(** The arithmetic of doubles; an infinity stays one in the sums,
    products and quotients below, whose other operand is finite and
    whose divisor is not zero. *)
Definition fadd (a b : option Q) : option Q :=
  match a, b with
  | Some x, Some y => Float64.fl (x + y)
  | _, _ => None
  end.

Definition fsub (a b : option Q) : option Q :=
  match a, b with
  | Some x, Some y => Float64.fl (x - y)
  | _, _ => None
  end.

Definition fmul (a b : option Q) : option Q :=
  match a, b with
  | Some x, Some y => Float64.fl (x * y)
  | _, _ => None
  end.

Definition fdiv (a b : option Q) : option Q :=
  match a, b with
  | Some x, Some y => Float64.fl (x / y)
  | _, _ => None
  end.

Definition fabs (a : option Q) : option Q := option_map Qabs a.

(** An integer as a float. *)
Definition float_of_int (n : Z) : option Q := Float64.fl (inject_Z n).

(** [max(2, int(abs(stop - start) / abs(steps) + 1))]: float division
    raises on a zero step, and [int] raises on an infinity. *)
Definition linear_count (start stop steps : Q) : Res Z :=
  if Qeq_bool (Qabs steps) 0 then Raise ZeroDivisionError
  else
    bind (int_of (fadd (fdiv (fabs (fsub (Some stop) (Some start)))
                             (Some (Qabs steps)))
                       (Some 1%Q)))
         (fun n => Ok (Z.max 2 n)).

(** What a text field gives back after [setValue(str(x))]: [str] of
    Python 2 keeps twelve digits of a float. *)
Definition stored (x : option Q) : Res Q :=
  match x with
  | Some q => finite (Float64.float_of_str q)
  | None => Raise NotFinite
  end.

(** Replace the last element of a non-empty list. *)
Definition set_last {A} (l : list A) (x : A) : list A :=
  match l with
  | [] => []
  | _ => removelast l ++ [x]
  end.

(** All the elements of a list of floats, when all are finite. *)
Fixpoint all_finite (l : list (option Q)) : Res (list Q) :=
  match l with
  | [] => Ok []
  | x :: l' =>
      bind (finite x) (fun q =>
      bind (all_finite l') (fun qs => Ok (q :: qs)))
  end.

(** [x == 0] on a float. *)
Definition is_zero (x : option Q) : bool :=
  match x with
  | Some q => Qeq_bool q 0
  | None => false
  end.

(** [np.linspace(start, stop, num)] of numpy 1.14, the end point
    included: [y = arange(0, num)], then [y * step] with
    [step = (stop - start) / (num - 1)], or [y / (num - 1) * delta]
    when that step is zero, then [y += start] and [y[-1] = stop]. *)
Definition linspace (start stop : Q) (num : nat) : Res (list Q) :=
  let div := float_of_int (Z.of_nat num - 1) in
  let delta := fsub (Some stop) (Some start) in
  let scale (yi : option Q) :=
    if (1 <? num)%nat then
      let step := fdiv delta div in
      if is_zero step then fmul (fdiv yi div) delta else fmul yi step
    else fmul yi delta in
  let y := map (fun i => fadd (scale (float_of_int (Z.of_nat i))) (Some start))
               (seq 0 num) in
  all_finite (if (1 <? num)%nat then set_last y (Some stop) else y).

(** In-place update of one cell; out of range leaves the list. *)
Fixpoint upd {A} (l : list A) (i : nat) (x : A) : list A :=
  match l, i with
  | [], _ => []
  | _ :: t, O => x :: t
  | h :: t, S i' => h :: upd t i' x
  end.

Definition swap {A} (l : list A) (i j : nat) : list A :=
  match nth_error l i, nth_error l j with
  | Some a, Some b => upd (upd l i b) j a
  | _, _ => l
  end.

(** [np.random.shuffle]: for [i] from the last index down to 1, swap
    cell [i] with a cell drawn from [0..i]; [rnd] supplies the draws. *)
Fixpoint shuffle_from {A} (rnd : nat -> nat) (i : nat) (l : list A) : list A :=
  match i with
  | O => l
  | S i' => shuffle_from rnd i' (swap l i (rnd i mod S i)%nat)
  end.

Definition shuffle {A} (rnd : nat -> nat) (l : list A) : list A :=
  shuffle_from rnd (List.length l - 1) l.

Section ScanPoints.
(** numpy functions outside rational arithmetic, and the file system. *)
Variable pow10_log10 : Q -> Q.               (* 10 ** nan_to_num(log10 x) *)
Variable logspace : Q -> Q -> Q -> list Q.   (* logspace(log10 a, log10 b, n) *)
(** [np.loadtxt(file, unpack=True)], an array given by its rows: no
    row for an empty array, the one row [v] for an array [v] of one
    dimension (a file of one column, or of one line), and two or more
    rows, the columns of the file, for an array of two dimensions. *)
Variable loadtxt : string -> list (list Q).
Variable rnd : nat -> nat.                   (* draws of the shuffle *)

(** [onAxisRangeChange(self, event)]: the settings after the handler,
    as the next [float(...)] of the text fields reads them.  [start]
    and [stop] of the logarithmic mode are floats of numpy, whose
    [str] (numpy 1.14) reads back unchanged. *)
Definition onAxisRangeChange (s : StageSettings) : Res StageSettings :=
  if mode s =? 1 then
    bind (stored (Some (Qabs (step s)))) (fun steps =>
    Ok {| mode := mode s;
          from := pow10_log10 (from s);
          till := pow10_log10 (till s);
          step := steps;
          step_label := "# of Steps";
          random := random s;
          use_file := use_file s |})
  else if mode s =? 0 then
    bind (linear_count (from s) (till s) (step s)) (fun N =>
    let stop := fadd (fmul (float_of_int (N - 1)) (Some (step s)))
                     (Some (from s)) in
    bind (stored (Some (from s))) (fun start =>
    bind (stored stop) (fun stop =>
    bind (stored (Some (step s))) (fun steps =>
    Ok {| mode := mode s;
          from := start;
          till := stop;
          step := steps;
          step_label := "Step Size (fs)";
          random := random s;
          use_file := use_file s |}))))
  else
    bind (stored (Some (from s))) (fun start =>
    bind (stored (Some (till s))) (fun stop =>
    bind (stored (Some (step s))) (fun steps =>
    Ok {| mode := mode s;
          from := start;
          till := stop;
          step := steps;
          step_label := step_label s;
          random := random s;
          use_file := use_file s |}))).

(** [prepareScanPoints(self)]. *)
Definition prepareScanPoints (s : StageSettings) : Res (list Q) :=
  let shuffled (points : list Q) :=
    if random s then shuffle rnd points else points in
  if mode s =? 1 then
    Ok (shuffled (logspace (from s) (till s) (step s)))
  else if mode s =? 0 then
    bind (linear_count (from s) (till s) (step s)) (fun N =>
    bind (linspace (from s) (till s) (Z.to_nat N)) (fun points =>
      Ok (shuffled points)))
  else
    let points :=
      if negb (String.eqb (use_file s) "") then
        match loadtxt (use_file s) with
        | [] => []
        | [v] => v                (* one dimension: taken whole *)
        | col :: _ => col         (* several columns: points[0] *)
        end
      else [] in
    Ok (shuffled points).
End ScanPoints.

End FSRSutils.

(* ===================================================================== *)
(** ** core/FSRSModule.py: the property cell *)
(* ===================================================================== *)

Module ModProp.
Import Py.

Inductive PropType : Type :=
| label | input | choice | button | checkbox | toggle | file | progress | spin.

Definition PropType_eqb (a b : PropType) : bool :=
  match a, b with
  | label, label | input, input | choice, choice | button, button
  | checkbox, checkbox | toggle, toggle | file, file
  | progress, progress | spin, spin => true
  | _, _ => false
  end.

(** A property without its widget. *)
Record t : Type := {
  plabel : string;
  type : PropType;
  value : PyVal;
  choices : list string
}.

Definition with_value (p : t) (v : PyVal) : t :=
  {| plabel := plabel p; type := type p; value := v; choices := choices p |}.

(** [(not val and val)]: the operand that decides the conjunction,
    taken as a condition. *)
Definition not_val_and_val (val : PyVal) : bool :=
  if negb (truthy val) then truthy val else false.

(** The ["... %d" % (len, val)] of the choice message needs a number. *)
Definition choice_error (val : PyVal) : PyExc :=
  match val with
  | PyNone | PyStr _ => TypeError
  | _ => ValueError "Invalid value for property type choice! Index out of range"
  end.

(** [ModProp.setValue(val)], for a property with no widget attached. *)
Definition setValue (p : t) (val : PyVal) : Res t :=
  if (PropType_eqb (type p) checkbox || PropType_eqb (type p) toggle)
     && ((negb (eq_int val 0) && negb (eq_int val 1)) || not_val_and_val val)
  then Raise (ValueError "Invalid value for property type checkbox")
  else if PropType_eqb (type p) choice && negb (eq_int val 0)
          && (lt_int val 0 || ge_int val (Z.of_nat (List.length (choices p))))
  then Raise (choice_error val)
  else if PropType_eqb (type p) progress && (lt_int val 0 || gt_int val 100)
  then Raise (ValueError "Invalid value for property type progress (0..100)")
  else if PropType_eqb (type p) spin then
    match py_int val with
    | Some z => Ok (with_value p (PyInt z))
    | None => Raise (ValueError "Invalid value for property type spin: must be integer!")
    end
  else Ok (with_value p val).

(** [ModProp.setChoices(ch)]. *)
Definition setChoices (p : t) (ch : list string) : t :=
  {| plabel := plabel p; type := type p; value := PyInt 0; choices := ch |}.

(** The conditions of the specification, in its words. *)
Definition index_in_range (p : t) (val : PyVal) : bool :=
  ge_int val 0 && lt_int val (Z.of_nat (List.length (choices p))).

Definition boolean_like (val : PyVal) : bool :=
  eq_int val 0 || eq_int val 1.

Definition in_0_100 (val : PyVal) : bool :=
  ge_int val 0 && negb (gt_int val 100).

Definition int_coercible (val : PyVal) : bool :=
  match py_int val with Some _ => true | None => false end.

Definition spec_invalid (p : t) (val : PyVal) : bool :=
  match type p with
  | choice => negb (index_in_range p val)
  | checkbox | toggle => negb (boolean_like val)
  | progress => negb (in_0_100 val)
  | spin => negb (int_coercible val)
  | _ => false
  end.

(** What [setValue] rejects: the conditions of the specification, with
    the choice index 0 accepted whatever the list of choices. *)
Definition rejects (p : t) (val : PyVal) : bool :=
  match type p with
  | choice => negb (eq_int val 0) && negb (index_in_range p val)
  | checkbox | toggle => negb (boolean_like val)
  | progress => negb (in_0_100 val)
  | spin => negb (int_coercible val)
  | _ => false
  end.

(** The value [setValue] stores when it accepts [val]. *)
Definition stored (p : t) (val : PyVal) : PyVal :=
  match type p, py_int val with
  | spin, Some z => PyInt z
  | _, _ => val
  end.

End ModProp.

(* ===================================================================== *)
(** ** core/FSRSModule.py: the experiment base class *)
(* ===================================================================== *)

Module Experiment.
Import Py.

Section WithArgs.
(** The keyword arguments a measurement thread is created with. *)
Variable Args : Type.

(** A [threading.Thread] object of the process: its arguments, whether
    it is alive, and its [canQuit] event. *)
Record Thread : Type := {
  args : Args;
  alive : bool;
  canQuit_set : bool
}.

(** The fields of [Experiment] and the threads created so far; a
    thread handle is the index of the thread in [threads].  The start
    button is the label its widget shows, [None] when the module has
    no such property or no widget. *)
Record t : Type := {
  scanThread : option nat;
  running : bool;
  btnOldLabel : string;
  start_button : option string;
  others_frozen : bool;
  threads : list Thread
}.

Definition init (button : option string) : t :=
  {| scanThread := None; running := false; btnOldLabel := "";
     start_button := button; others_frozen := false; threads := [] |}.

Definition is_alive (s : t) (h : nat) : bool :=
  match nth_error (threads s) h with
  | Some th => alive th
  | None => false
  end.

Definition map_thread (f : Thread -> Thread) (h : nat) (l : list Thread) : list Thread :=
  match nth_error l h with
  | Some th => FSRSutils.upd l h (f th)
  | None => l
  end.

Definition set_canQuit (th : Thread) : Thread :=
  {| args := args th; alive := alive th; canQuit_set := true |}.

(** The thread has left [run]. *)
Definition terminated (th : Thread) : Thread :=
  {| args := args th; alive := false; canQuit_set := canQuit_set th |}.

(** [Experiment.start(thread, **argv)]. *)
Definition start (s : t) (argv : Args) : t :=
  match scanThread s with
  | Some _ => s
  | None =>
      let (old, btn) :=
        match start_button s with
        | Some lbl => (lbl, Some "STOP"%string)
        | None => (btnOldLabel s, None)
        end in
      {| scanThread := Some (List.length (threads s));
         running := running s;
         btnOldLabel := old;
         start_button := btn;
         others_frozen := others_frozen s;
         threads := threads s ++ [{| args := argv; alive := true; canQuit_set := false |}] |}
  end.

(** [ExperimentThread.stop] through [Experiment.stop]. *)
Definition stop (s : t) : t :=
  match scanThread s with
  | Some h =>
      {| scanThread := scanThread s; running := running s;
         btnOldLabel := btnOldLabel s; start_button := start_button s;
         others_frozen := others_frozen s;
         threads := map_thread set_canQuit h (threads s) |}
  | None => s
  end.

(** [Experiment.onStarted]. *)
Definition onStarted (s : t) : t :=
  {| scanThread := scanThread s; running := true;
     btnOldLabel := btnOldLabel s; start_button := start_button s;
     others_frozen := true; threads := threads s |}.

(** [Experiment.onFinished]: the handle is released in the branch
    that joins a thread still alive. *)
Definition onFinished (s : t) : t :=
  let (handle, pool) :=
    match scanThread s with
    | Some h =>
        if is_alive s h
        then (None, map_thread terminated h (threads s))
        else (scanThread s, threads s)
    | None => (scanThread s, threads s)
    end in
  {| scanThread := handle; running := false;
     btnOldLabel := btnOldLabel s;
     start_button := match start_button s with
                     | Some _ => Some (btnOldLabel s)
                     | None => None
                     end;
     others_frozen := false; threads := pool |}.

(** [Experiment.canQuit]: [yes] is the user's answer to the message
    box.  The result is the returned object, [PyNone] where the
    function falls off its end. *)
Definition canQuit (s : t) (yes : bool) : PyVal * t :=
  match scanThread s with
  | None => (PyBool true, s)
  | Some h =>
      if is_alive s h then
        if yes then
          (PyBool true,
           {| scanThread := scanThread s; running := running s;
              btnOldLabel := btnOldLabel s; start_button := start_button s;
              others_frozen := others_frozen s;
              threads := map_thread terminated h
                           (map_thread set_canQuit h (threads s)) |})
        else (PyNone, s)
      else (PyBool false, s)
  end.

(** [Experiment.shutdown]. *)
Definition shutdown (s : t) : t :=
  match scanThread s with
  | Some h =>
      if is_alive s h then
        {| scanThread := scanThread s; running := running s;
           btnOldLabel := btnOldLabel s; start_button := start_button s;
           others_frozen := others_frozen s;
           threads := map_thread terminated h
                        (map_thread set_canQuit h (threads s)) |}
      else s
  | None => s
  end.

(** A thread returns from [run] on its own. *)
Definition thread_exit (s : t) (h : nat) : t :=
  {| scanThread := scanThread s; running := running s;
     btnOldLabel := btnOldLabel s; start_button := start_button s;
     others_frozen := others_frozen s;
     threads := map_thread terminated h (threads s) |}.

(** What can happen to an experiment module, in any order. *)
Inductive Op : Type :=
| OpStart (argv : Args)
| OpStop
| OpOnStarted
| OpOnFinished
| OpCanQuit (yes : bool)
| OpShutdown
| OpThreadExit (h : nat).

Definition exec (s : t) (o : Op) : t :=
  match o with
  | OpStart argv => start s argv
  | OpStop => stop s
  | OpOnStarted => onStarted s
  | OpOnFinished => onFinished s
  | OpCanQuit yes => snd (canQuit s yes)
  | OpShutdown => shutdown s
  | OpThreadExit h => thread_exit s h
  end.

Definition run (s : t) (ops : list Op) : t := fold_left exec ops s.

Definition alive_count (s : t) : nat :=
  List.length (filter alive (threads s)).

(** Every thread alive is the one the handle names. *)
Definition handle_owns_alive (s : t) : Prop :=
  forall j, is_alive s j = true -> scanThread s = Some j.

(** The handle names a thread that is no longer alive, among [n]
    thread objects. *)
Definition stale (s : t) (h : nat) (n : nat) : Prop :=
  scanThread s = Some h /\ is_alive s h = false
  /\ List.length (threads s) = n.

End WithArgs.

Arguments args {Args} _.
Arguments alive {Args} _.
Arguments canQuit_set {Args} _.
Arguments scanThread {Args} _.
Arguments running {Args} _.
Arguments btnOldLabel {Args} _.
Arguments start_button {Args} _.
Arguments others_frozen {Args} _.
Arguments threads {Args} _.
Arguments init {Args} _.
Arguments is_alive {Args} _ _.
Arguments start {Args} _ _.
Arguments stop {Args} _.
Arguments onStarted {Args} _.
Arguments onFinished {Args} _.
Arguments canQuit {Args} _ _.
Arguments shutdown {Args} _.
Arguments thread_exit {Args} _ _.
Arguments exec {Args} _ _.
Arguments run {Args} _ _.
Arguments alive_count {Args} _.
Arguments handle_owns_alive {Args} _.
Arguments stale {Args} _ _ _.
Arguments OpStart {Args} _.
Arguments OpStop {Args}.
Arguments OpOnStarted {Args}.
Arguments OpOnFinished {Args}.
Arguments OpCanQuit {Args} _.
Arguments OpShutdown {Args}.
Arguments OpThreadExit {Args} _.

End Experiment.

(* ===================================================================== *)
(** ** available_modules/xFSRS/FSRSAcquire.py: the accumulator *)
(* ===================================================================== *)

Module FSRSAcquire.
Import Py.

(** A numpy array of rows; [np.array([A, B, C])] has three rows. *)
Definition Array : Type := list (list Q).

(** Element-wise binary operation on rows and on arrays of one shape. *)
Fixpoint zipWith {A B C} (f : A -> B -> C) (a : list A) (b : list B) : list C :=
  match a, b with
  | x :: a', y :: b' => f x y :: zipWith f a' b'
  | _, _ => []
  end.

Definition arr_add (a b : Array) : Array := zipWith (zipWith Qplus) a b.
Definition arr_sub (a b : Array) : Array := zipWith (zipWith Qminus) a b.
Definition arr_div (a : Array) (n : Q) : Array :=
  map (map (fun x => (x / n)%Q)) a.

(** The fields [onUpdate] works on. *)
Record t : Type := {
  N : Z;
  data : Array;
  intdata : list Array;
  mode : Z;
  sets : Z;
  progress : ModProp.t
}.

Section Transform.
(** [-np.log] and [-np.log10], outside rational arithmetic. *)
Variable neg_log : Q -> Q.
Variable neg_log10 : Q -> Q.

(** The mode-dependent transform of the ratio channel. *)
Definition transform (mode : Z) (A : list Q) : list Q :=
  if mode =? 0 then map neg_log A
  else if mode =? 1 then map neg_log10 A
  else A.

(** [FSRSAcquire.onStart], the part that resets the accumulator. *)
Definition reset (s : t) : Res t :=
  bind (ModProp.setValue (progress s) (PyInt 0)) (fun p =>
    Ok {| N := 0; data := []; intdata := []; mode := mode s;
          sets := sets s; progress := p |}).

(** [FSRSAcquire.onUpdate(val)]. *)
Definition onUpdate (s : t) (val : list Q * list Q * list Q) : Res t :=
  let '(A, B, C) := val in
  let A := transform (mode s) A in
  let x : Array := [A; B; C] in
  let n := N s + 1 in
  let d :=
    if n =? 1 then x
    else arr_add (data s) (arr_div (arr_sub x (data s)) (inject_Z n)) in
  bind (floordiv (n * 100) (sets s)) (fun pr =>
  bind (ModProp.setValue (progress s) (PyInt pr)) (fun p =>
    Ok {| N := n; data := d; intdata := intdata s ++ [x];
          mode := mode s; sets := sets s; progress := p |})).

(** The updates of one acquisition, in order. *)
Fixpoint onUpdates (s : t) (vals : list (list Q * list Q * list Q)) : Res t :=
  match vals with
  | [] => Ok s
  | v :: vs => bind (onUpdate s v) (fun s' => onUpdates s' vs)
  end.

(** The per-set result that enters the accumulator. *)
Definition result_of (mode : Z) (val : list Q * list Q * list Q) : Array :=
  let '(A, B, C) := val in [transform mode A; B; C].
End Transform.

(** Cell of an array, 0 outside. *)
Definition cell (a : Array) (r c : nat) : Q := nth c (nth r a []) 0%Q.

(** One-pass arithmetic mean of a sequence of numbers. *)
Definition mean (xs : list Q) : Q :=
  (fold_right Qplus 0 xs / inject_Z (Z.of_nat (List.length xs)))%Q.

(** A frame of the camera has three channels of [w] pixels. *)
Definition frame_width (w : nat) (val : list Q * list Q * list Q) : Prop :=
  let '(A, B, C) := val in
  List.length A = w /\ List.length B = w /\ List.length C = w.

(** Three rows of [w] cells. *)
Definition shaped (w : nat) (a : Array) : Prop :=
  List.length a = 3%nat
  /\ forall r, (r < 3)%nat -> List.length (nth r a []) = w.

(** Sum of a sequence of numbers. *)
Definition total (xs : list Q) : Q := fold_right Qplus 0%Q xs.

End FSRSAcquire.

(* ===================================================================== *)
(** ** The cooperative stop flag *)
(* ===================================================================== *)

Module Flag.

(** A [threading.Event] that the controller may set and nobody clears,
    as the polling thread sees it: [Some c] when the first [c] polls
    find it clear and every later one finds it set, [None] when it is
    never set. *)
Definition t : Type := option nat.

(** [isSet()] at the poll number [polls] (counted from 0). *)
Definition isSet (f : t) (polls : nat) : bool :=
  match f with
  | Some c => (c <=? polls)%nat
  | None => false
  end.

End Flag.

(* ===================================================================== *)
(** ** available_modules/Devices/PIXIS100.py: reading frames *)
(* ===================================================================== *)

Module PIXIS100.
Import Py.

(** A frame is one read-out row of the sensor. *)
Definition Frame : Type := list Q.

(** A float of a numpy array: a number, or what numpy leaves where
    Python raises. *)
Inductive Reading : Type :=
| Value (q : Q)
| NaN
| Inf (positive : bool).

Definition Row : Type := list Reading.

(** The returned array [[C, A, B]]. *)
Definition Triple : Type := (Row * Row * Row)%type.

(** What the driver state amounts to for this function: how many
    bursts were requested and how often the flag was polled. *)
Record State : Type := {
  reads : nat;
  polls : nat
}.

Definition ones (w : nat) : Triple :=
  (repeat (Value 1) w, repeat (Value 1) w, repeat (Value 1) w).

(** [data[k::2]]. *)
Fixpoint every_other (k : nat) (l : list Frame) : list Frame :=
  match l with
  | [] => []
  | x :: l' =>
      match k with
      | O => x :: every_other 1 l'
      | S k' => every_other k' l'
      end
  end.

(** [np.nanmean(rows, axis=0)] on rows of width [w] that hold numbers:
    the mean of every column, and NaN for every column when there is
    no row. *)
Definition nanmean (w : nat) (rows : list Frame) : Row :=
  map (fun c =>
         match rows with
         | [] => NaN
         | _ => Value (fold_right Qplus 0 (map (fun r => nth c r 0%Q) rows)
                       / inject_Z (Z.of_nat (List.length rows)))%Q
         end)
      (seq 0 w).

(** [a / b] on floats of numpy; a zero divisor is taken as [+0.0]. *)
Definition np_divide (a b : Reading) : Reading :=
  match a, b with
  | NaN, _ | _, NaN => NaN
  | Value x, Value y =>
      if Qeq_bool y 0 then
        if Qeq_bool x 0 then NaN else Inf (Qltb 0 x)
      else Value (x / y)%Q
  | Value _, Inf _ => Value 0
  | Inf _, Inf _ => NaN
  | Inf p, Value y => Inf (if Qltb y 0 then negb p else p)
  end.

(** [np.nan_to_num]: 0 for NaN, the largest double with its sign for
    an infinity. *)
Definition nan_to_num (r : Reading) : Reading :=
  match r with
  | Value q => Value q
  | NaN => Value 0
  | Inf true => Value Float64.max_float
  | Inf false => Value (- Float64.max_float)%Q
  end.

Definition int_of_bool (b : bool) : nat := if b then 1%nat else 0%nat.

(** The chopped and unchopped averages and their ratio:
    [A = np.flipud(np.nanmean(data[int(not flip)::2, :], axis=0))],
    [B] likewise with [int(flip)], [C = np.nan_to_num(A / B)]. *)
Definition split_average (w : nat) (flip : bool) (frames : list Frame) : Triple :=
  let A := rev (nanmean w (every_other (int_of_bool (negb flip)) frames)) in
  let B := rev (nanmean w (every_other (int_of_bool flip) frames)) in
  let C := map nan_to_num (FSRSAcquire.zipWith np_divide A B) in
  (C, A, B).

Section Driver.
Variable w : nat.                            (* sensor width, ROIS[0] *)
(** [cam.readNFrames(n)] at the i-th request: the list of regions of
    interest, each a list of frames; empty when the read failed. *)
Variable cam_readNFrames : nat -> nat -> list (list Frame).
Variable flip : bool.                        (* "Flip Phase" as bool *)

(** The body of one attempt up to the two exits: the frames kept
    after the settle frames are dropped, when the burst is full. *)
Definition attempt_data (n : nat) (i : nat) : option (list Frame) :=
  match cam_readNFrames i (n + 20) with
  | [] => None
  | roi :: _ =>
      if (n + 20 <=? List.length roi)%nat then Some (skipn 20 roi) else None
  end.

(** The loop [while data == []] with [attempt] attempts made so far.
    [None] only when the fuel runs out. *)
Fixpoint read_loop (fuel : nat) (n : nat) (canQuit : option Flag.t)
    (attempt : nat) (st : State) : option (Triple * State) :=
  match fuel with
  | O => None
  | S fuel' =>
      let attempt := S attempt in
      let data := attempt_data n (reads st) in
      let st := {| reads := S (reads st); polls := polls st |} in
      let after_poll (k : State -> option (Triple * State)) :=
        match canQuit with
        | Some f =>
            let st' := {| reads := reads st; polls := S (polls st) |} in
            if Flag.isSet f (polls st) then Some (ones w, st') else k st'
        | None => k st
        end in
      after_poll (fun st =>
        if (5 <? attempt)%nat then Some (ones w, st)
        else
          match data with
          | None => read_loop fuel' n canQuit attempt st
          | Some frames => Some (split_average w flip frames, st)
          end)
  end.

(** [PIXIS100.readNframes(N, canQuit)]. *)
Definition readNframes (fuel : nat) (n : nat) (canQuit : option Flag.t)
    (st : State) : option (Triple * State) :=
  read_loop fuel n canQuit 0 st.

(** *** The contract in the words of the specification *)

(** What the [i]-th request for [n] frames and the 20 settle frames
    delivers for the first region of interest, and whether that is a
    full burst. *)
Definition burst (n i : nat) : list Frame :=
  hd [] (cam_readNFrames i (n + 20)).

Definition full (n i : nat) : bool :=
  (n + 20 <=? List.length (burst n i))%nat.
End Driver.

(** The frames of a burst that belong to one chopping parity: those
    whose number, counted from 0, is [20 + p] or exceeds it by an even
    number.  The 20 leading frames belong to neither parity. *)
Definition parity_frames (p : nat) (roi : list Frame) : list Frame :=
  map snd
      (filter (fun jf => ((20 + p <=? fst jf) && Nat.even (fst jf - (20 + p)))%nat)
              (combine (seq 0 (List.length roi)) roi)).

(** The mean of pixel [c] over some frames: their sum divided by their
    number; there is none when there is no frame. *)
Definition pixel_mean (c : nat) (frames : list Frame) : Reading :=
  match frames with
  | [] => NaN
  | _ => Value (fold_right Qplus 0 (map (fun f => nth c f 0%Q) frames)
                / inject_Z (Z.of_nat (List.length frames)))%Q
  end.

(** A driver for trying the function out: the first request fails, the
    second delivers 20 settle frames and two frames of two pixels. *)
Definition late_driver (i n : nat) : list (list Frame) :=
  match i with
  | 1%nat => [repeat [9%Q; 9%Q] 20 ++ [[2%Q; 4%Q]; [1%Q; 2%Q]]]
  | _ => []
  end.

End PIXIS100.

(* ===================================================================== *)
(** ** available_modules/xFSRS/FSRSScan2.py *)
(* ===================================================================== *)

Module FSRSScan2.
Import Py.

(** [l[i]] with Python's negative indices. *)
Definition py_nth {A} (l : list A) (i : Z) : Res A :=
  let j := if i <? 0 then i + Z.of_nat (List.length l) else i in
  if j <? 0 then Raise IndexError
  else match nth_error l (Z.to_nat j) with
       | Some x => Ok x
       | None => Raise IndexError
       end.

(** [np.amax] and [np.amin]: no value on an empty array. *)
Definition amax (l : list Q) : Res Q :=
  match l with
  | [] => Raise (ValueError "zero-size array to reduction operation maximum which has no identity")
  | x :: l' => Ok (fold_left Qmax l' x)
  end.

Definition amin (l : list Q) : Res Q :=
  match l with
  | [] => Raise (ValueError "zero-size array to reduction operation minimum which has no identity")
  | x :: l' => Ok (fold_left Qmin l' x)
  end.

(** The keyword arguments of [ScanThread]; devices go by name. *)
Record Args : Type := {
  a_type : Z;
  a_ccd : string;
  a_axis : string;
  a_shutter : string;
  a_frames : Z;
  a_points : list Q;
  a_sets : Z;
  a_reference : option string
}.

(** *** The scan thread *)

(** The reference input as the thread uses it: the value of its
    "wait" property when it has one.  Every device of the repository
    declares that property with type [input], for which [setValue]
    checks nothing. *)
Record Reference : Type := {
  wait : option PyVal
}.

Section Thread.
Variable Val : Type.                          (* what a camera returns *)

(** What the thread does to the outside, in order. *)
Inductive Event : Type :=
| EvStarted                                   (* CallAfter(onStarted) *)
| EvUpdate (val : Val) (grexc : Z) (step : Q) (set : Z)
| EvFinished (summary : option (list Q * list Q))
| EvSleep (seconds : Q)
| EvShutter (v : Z)                           (* shutter.write(v) *)
| EvAxisPos                                   (* axis.pos() *)
| EvAxisGoto (p : Q)                          (* axis.goto(p) *)
| EvCcdRead (frames : Z)                      (* ccd.readNframes *)
| EvRefRead                                   (* reference.read() *)
| EvRefSetWait (v : PyVal).                   (* wait.setValue(v) *)

(** The devices answer as a function of what happened before. *)
Variable axis_pos : list Event -> Q.
Variable ccd_readNframes : list Event -> Z -> Val.
Variable ccd_polls : list Event -> nat.       (* polls inside the camera *)
Variable ref_read : list Event -> Q.

(** Thread-local state. *)
Record St : Type := {
  trace : list Event;
  polls : nat;
  reference_data : list Q
}.

(** How a piece of the routine ends. *)
Inductive Out (A : Type) : Type :=
| Fin (a : A) (st : St)
| Exc (e : PyExc) (st : St)
| NoFuel.
Arguments Fin {A} a st.
Arguments Exc {A} e st.
Arguments NoFuel {A}.

Definition act (A : Type) : Type := St -> Out A.

Definition ret {A} (a : A) : act A := fun st => Fin a st.

Definition seq_ {A B} (m : act A) (k : A -> act B) : act B :=
  fun st =>
    match m st with
    | Fin a st' => k a st'
    | Exc e st' => Exc e st'
    | NoFuel => NoFuel
    end.

Notation "x <- m ;; k" := (seq_ m (fun x => k))
  (at level 61, m at next level, right associativity).
Notation "m ;;; k" := (seq_ m (fun _ => k))
  (at level 61, right associativity).

Definition lift {A} (r : Res A) : act A :=
  fun st => match r with Ok a => Fin a st | Raise e => Exc e st end.

(** The notifications of one kind in a trace. *)
Definition is_finished (e : Event) : bool :=
  match e with EvFinished _ => true | _ => false end.

Definition finished_count (tr : list Event) : nat :=
  List.length (filter is_finished tr).

(** An action returns, with a result and a state that satisfy [Q]. *)
Definition returns {A} (m : act A) (st : St) (Q : A -> St -> Prop) : Prop :=
  exists a st', m st = Fin a st' /\ Q a st'.

(** The three ways the thread state changes. *)
Definition push (e : Event) (st : St) : St :=
  {| trace := trace st ++ [e]; polls := polls st;
     reference_data := reference_data st |}.

Definition polled (k : nat) (st : St) : St :=
  {| trace := trace st; polls := (polls st + k)%nat;
     reference_data := reference_data st |}.

Definition set_reference_data (d : list Q) (st : St) : St :=
  {| trace := trace st; polls := polls st; reference_data := d |}.

Definition emit (e : Event) : act unit :=
  fun st => Fin tt (push e st).

Section Run.
Variable canQuit : Flag.t.
Variable type : Z.
Variable frames : Z.
Variable points : list Q.
Variable sets : Z.
Variable reference : option Reference.

Definition stagerange : Q := 1670000.
Definition maxtranslationTime : Q := 30.

(** [self.canQuit.isSet()]. *)
Definition isSet : act bool :=
  fun st => Fin (Flag.isSet canQuit (polls st)) (polled 1 st).

Definition axis_pos_call : act Q :=
  fun st => Fin (axis_pos (trace st)) (push EvAxisPos st).

Definition ccd_call : act Val :=
  fun st => Fin (ccd_readNframes (trace st) frames)
                (polled (ccd_polls (trace st)) (push (EvCcdRead frames) st)).

(** [reference_data[cpoint] = reference_data[cpoint] + self.reference.read()]:
    the cell is read, then the device, then the cell is written. *)
Definition add_reference (cpoint : nat) : act unit :=
  fun st =>
    match nth_error (reference_data st) cpoint with
    | Some r =>
        let x := ref_read (trace st) in
        Fin tt (set_reference_data
                  (FSRSutils.upd (reference_data st) cpoint (r + x)%Q)
                  (push EvRefRead st))
    | None => Exc IndexError st
    end.

Definition travel (interval : Q) : Q :=
  (0.1 + interval / stagerange * maxtranslationTime)%Q.

Definition len : Z := Z.of_nat (List.length points).

(** [cpoint % len(self.points)]. *)
Definition wrap (cpoint : nat) : act Z :=
  lift (if len =? 0 then Raise ZeroDivisionError
        else Ok (Z.of_nat cpoint mod len)).

(** The body of [if self.canQuit.isSet() == 0:] in the loop over the
    points; its value is the new [cpoint]. *)
Definition read_point (cset : Z) (cpoint : nat) : act nat :=
  val <- ccd_call ;;
  match reference with
  | Some _ => add_reference cpoint
  | None => ret tt
  end ;;;
  p <- lift (py_nth points (Z.of_nat cpoint)) ;;
  emit (EvUpdate val 1 p cset) ;;;
  emit (EvSleep 0.2) ;;;
  ret (S cpoint).

(** "move to next point". *)
Definition move_next (cpoint : nat) : act unit :=
  i <- wrap cpoint ;;
  a <- lift (py_nth points i) ;;
  b <- lift (py_nth points (i - 1)) ;;
  emit (EvAxisGoto a) ;;;
  emit (EvSleep (travel (Qabs (a - b)))).

(** The [while] over the points of one set. *)
Fixpoint points_loop (fuel : nat) (cset : Z) (cpoint : nat) : act nat :=
  match fuel with
  | O => fun _ => NoFuel
  | S fuel' =>
      if (cpoint <? List.length points)%nat then
        q <- isSet ;;
        if q then ret cpoint
        else
          q' <- isSet ;;
          cpoint' <- (if q' then ret cpoint else read_point cset cpoint) ;;
          move_next cpoint' ;;;
          points_loop fuel' cset cpoint'
      else ret cpoint
  end.

(** "move to first point" and the ground state spectrum of a set. *)
Definition begin_set (cset : Z) : act unit :=
  posx <- axis_pos_call ;;
  p0 <- lift (py_nth points 0) ;;
  emit (EvAxisGoto p0) ;;;
  emit (EvSleep (travel (Qabs (p0 - posx)))) ;;;
  if type =? 0 then
    emit (EvShutter 0) ;;;
    q' <- isSet ;;
    (if q' then ret tt
     else val <- ccd_call ;; emit (EvUpdate val 0 0 cset)) ;;;
    emit (EvShutter 1)
  else ret tt.

(** The [while] over the sets. *)
Fixpoint sets_loop (fuel : nat) (cset : Z) : act Z :=
  match fuel with
  | O => fun _ => NoFuel
  | S fuel' =>
      q <- isSet ;;
      if negb q && (cset <? sets) then
        begin_set cset ;;;
        points_loop (S fuel') cset 0 ;;;
        sets_loop fuel' (cset + 1)
      else ret cset
  end.

(** [run] up to "enter main loop"; its value is [maxinterval]. *)
Definition before_loop : act Q :=
  emit EvStarted ;;;
  (fun st => Fin tt (set_reference_data (repeat 0%Q (List.length points)) st)) ;;;
  hi <- lift (amax points) ;;
  lo <- lift (amin points) ;;
  match reference with
  | Some {| wait := Some _ |} => emit (EvRefSetWait (PyStr "0"))
  | _ => ret tt
  end ;;;
  emit (EvSleep 0.5) ;;;
  (if 0 <? type then emit (EvShutter 1) else ret tt) ;;;
  ret (hi - lo)%Q.

(** [run] from "return axis" on. *)
Definition after_loop (maxinterval : Q) (cset : Z) : act unit :=
  p0 <- lift (py_nth points 0) ;;
  emit (EvAxisGoto p0) ;;;
  emit (EvSleep (travel maxinterval)) ;;;
  emit (EvShutter 0) ;;;
  match reference with
  | Some r =>
      (fun st =>
         Fin tt (set_reference_data
                   (if 0 <? cset
                    then map (fun x => (x / inject_Z cset)%Q) (reference_data st)
                    else reference_data st) st)) ;;;
      match wait r with
      | Some old_wait_time => emit (EvRefSetWait old_wait_time)
      | None => ret tt
      end ;;;
      (fun st => emit (EvFinished (Some (points, reference_data st))) st)
  | None => emit (EvFinished None)
  end.

(** [ScanThread.run]. *)
Definition run (fuel : nat) : act unit :=
  maxinterval <- before_loop ;;
  cset <- sets_loop fuel 0 ;;
  after_loop maxinterval cset.

(** No notification sent so far that the scan has finished, and the reference
    array as long as the list of points. *)
Definition pending (st : St) : Prop :=
  finished_count (trace st) = O
  /\ List.length (reference_data st) = List.length points.

(** The flag is set by now. *)
Definition cancelled (st : St) : Prop :=
  Flag.isSet canQuit (polls st) = true.

(** The closing moves of the thread: the axis sent to [p0], the
    shutter closed, the wait time restored where there is one, one
    notification. *)
Definition closing (p0 : Q) (tail : list Event) : Prop :=
  exists (pause : Q) (summary : option (list Q * list Q)),
    tail = [EvAxisGoto p0; EvSleep pause; EvShutter 0; EvFinished summary]
    \/ exists old_wait_time : PyVal,
         tail = [EvAxisGoto p0; EvSleep pause; EvShutter 0;
                 EvRefSetWait old_wait_time; EvFinished summary].

Definition st0 : St := {| trace := []; polls := 0; reference_data := [] |}.
End Run.

End Thread.

Arguments Fin {Val A} a st.
Arguments Exc {Val A} e st.
Arguments NoFuel {Val A}.
Arguments trace {Val} _.
Arguments polls {Val} _.
Arguments reference_data {Val} _.
Arguments EvStarted {Val}.
Arguments EvUpdate {Val} _ _ _ _.
Arguments EvFinished {Val} _.
Arguments EvSleep {Val} _.
Arguments EvShutter {Val} _.
Arguments EvAxisPos {Val}.
Arguments EvAxisGoto {Val} _.
Arguments EvCcdRead {Val} _.
Arguments EvRefRead {Val}.
Arguments EvRefSetWait {Val} _.
Arguments st0 {Val}.
Arguments finished_count {Val} _.
Arguments returns {Val A} _ _ _.
Arguments act _ _ : clear implicits.
Arguments ret {Val A} _ _.
Arguments seq_ {Val A B} _ _ _.
Arguments lift {Val A} _ _.
Arguments emit {Val} _ _.
Arguments isSet {Val} _ _.
Arguments axis_pos_call {Val} _ _.
Arguments ccd_call {Val} _ _ _ _.
Arguments add_reference {Val} _ _ _.
Arguments wrap {Val} _ _ _.
Arguments read_point {Val} _ _ _ _ _ _ _ _ _.
Arguments move_next {Val} _ _ _.
Arguments points_loop {Val} _ _ _ _ _ _ _ _ _ _ _.
Arguments begin_set {Val} _ _ _ _ _ _ _ _ _.
Arguments sets_loop {Val} _ _ _ _ _ _ _ _ _ _ _ _ _.
Arguments before_loop {Val} _ _ _ _.
Arguments after_loop {Val} _ _ _ _ _.
Arguments run {Val} _ _ _ _ _ _ _ _ _ _ _ _.
Arguments pending {Val} _ _.
Arguments cancelled {Val} _ _.
Arguments closing {Val} _ _.
Arguments push {Val} _ _.
Arguments polled {Val} _ _.
Arguments set_reference_data {Val} _ _.
Arguments is_finished {Val} _.

(** *** The experiment module *)

(** The fields and property values [onStart] reads and writes.  The
    plot window and the progress iterator belong to the user interface
    and are left out, except for the check of [np.linspace] on the
    number of progress samples. *)
Record t : Type := {
  exp : Experiment.t Args;
  cameras : list string;
  axes : list string;
  shutters : list string;
  inputs : list string;
  p_camera : Z;
  p_type : Z;
  p_frames : Z;
  p_axis : Z;
  p_shutter : Z;
  p_take_ref : Z;
  p_sets : Z;
  stage : FSRSutils.StageSettings;
  p_progress : ModProp.t;
  Nsteps : Z;
  Nsets : Z
}.

Section OnStart.
Variable logspace : Q -> Q -> Q -> list Q.
Variable loadtxt : string -> list (list Q).
Variable rnd : nat -> nat.

(** [self.inputs[v - 1] if v >= 1 else None] for the value [v] of
    "Take Ref.". *)
Definition take_reference (m : t) : Res (option string) :=
  if 1 <=? p_take_ref m
  then bind (py_nth (inputs m) (p_take_ref m - 1)) (fun r => Ok (Some r))
  else Ok None.

(** [FSRSScan2.onStart]. *)
Definition onStart (m : t) : Res t :=
  if Experiment.running (exp m) then
    Ok {| exp := Experiment.stop (exp m);
          cameras := cameras m; axes := axes m; shutters := shutters m;
          inputs := inputs m; p_camera := p_camera m; p_type := p_type m;
          p_frames := p_frames m; p_axis := p_axis m;
          p_shutter := p_shutter m; p_take_ref := p_take_ref m;
          p_sets := p_sets m; stage := stage m;
          p_progress := p_progress m; Nsteps := Nsteps m; Nsets := Nsets m |}
  else
    let s_type := p_type m in
    bind (py_nth (cameras m) (p_camera m)) (fun s_ccd =>
    bind (py_nth (axes m) (p_axis m)) (fun s_axis =>
    bind (py_nth (shutters m) (p_shutter m)) (fun s_shutter =>
    let s_frames := p_frames m in
    bind (take_reference m) (fun s_ref =>
    bind (FSRSutils.prepareScanPoints logspace loadtxt rnd (stage m)) (fun s_points =>
    let s_sets := p_sets m in
    bind (if Z.of_nat (List.length s_points) * s_sets <? 0
          then Raise (ValueError "Number of samples must be non-negative")
          else Ok tt) (fun _ =>
    bind (ModProp.setValue (p_progress m) (PyInt 0)) (fun pr =>
    Ok {| exp := Experiment.start (exp m)
                   {| a_type := s_type; a_ccd := s_ccd; a_axis := s_axis;
                      a_shutter := s_shutter; a_frames := s_frames;
                      a_points := s_points; a_sets := s_sets;
                      a_reference := s_ref |};
          cameras := cameras m; axes := axes m; shutters := shutters m;
          inputs := inputs m; p_camera := p_camera m; p_type := p_type m;
          p_frames := p_frames m; p_axis := p_axis m;
          p_shutter := p_shutter m; p_take_ref := p_take_ref m;
          p_sets := p_sets m; stage := stage m;
          p_progress := pr;
          Nsteps := Z.of_nat (List.length s_points) + 1;
          Nsets := s_sets |}))))))).
End OnStart.

(** A module as the application builds it, idle, with one camera, one
    axis and one shutter, set to take its points from a file while no
    file is chosen. *)
Definition no_file_chosen : t :=
  {| exp := Experiment.init (Some "Scan"%string);
     cameras := ["PIXIS100"%string];
     axes := ["Dummy Axis"%string];
     shutters := ["Dummy Shutter"%string];
     inputs := ["PIXIS100"%string];
     p_camera := 0; p_type := 0; p_frames := 2000; p_axis := 0;
     p_shutter := 0; p_take_ref := 0; p_sets := 1;
     stage :=
       {| FSRSutils.mode := 2; FSRSutils.from := -500; FSRSutils.till := 2500;
          FSRSutils.step := 20; FSRSutils.step_label := "Step Size (fs)";
          FSRSutils.random := false; FSRSutils.use_file := "" |};
     p_progress :=
       {| ModProp.plabel := "Progress"; ModProp.type := ModProp.progress;
          ModProp.value := PyInt 0; ModProp.choices := [] |};
     Nsteps := 0; Nsets := 0 |}.

End FSRSScan2.

(* ===================================================================== *)
(** ** pyFSRS.py: leaving the application *)
(* ===================================================================== *)

Module App.

Section Modules.
(** Whatever a module keeps: connections, positions, a scan thread. *)
Variable MState : Type.

(** A loaded module: its state, the [shutdown] method of its class,
    and how often that method has run. *)
Record Module : Type := {
  name : string;
  state : MState;
  shutdown_method : MState -> MState;
  shutdown_calls : nat
}.

(** The call [m.shutdown()]. *)
Definition call_shutdown (m : Module) : Module :=
  {| name := name m;
     state := shutdown_method m (state m);
     shutdown_method := shutdown_method m;
     shutdown_calls := S (shutdown_calls m) |}.

(** The attribute [m.shutdown]: a bound method, a call not yet made. *)
Definition attr_shutdown (m : Module) : unit -> Module :=
  fun _ => call_shutdown m.

(** An expression statement evaluates its expression and drops the
    value; the object it was read from is as before. *)
Definition expr_stmt {V : Type} (v : V) (m : Module) : Module := m.

Record t : Type := {
  modules : list Module;
  destroyed : bool
}.

(** [pyFSRS.onExitApp(event)]. *)
Definition onExitApp (a : t) : t :=
  {| modules :=
       if (0 <? List.length (modules a))%nat
       then map (fun m => expr_stmt (attr_shutdown m) m) (modules a)
       else modules a;
     destroyed := true |}.

(** The exit path its docstring describes: every hook is called. *)
Definition exit_calling_shutdown (a : t) : t :=
  {| modules := map call_shutdown (modules a); destroyed := true |}.
End Modules.

Arguments name {MState} _.
Arguments state {MState} _.
Arguments shutdown_method {MState} _.
Arguments shutdown_calls {MState} _.
Arguments call_shutdown {MState} _.
Arguments modules {MState} _.
Arguments destroyed {MState} _.
Arguments onExitApp {MState} _.
Arguments exit_calling_shutdown {MState} _.

End App.

(* ===================================================================== *)
(** ** core/FSRSModule.py: the module base class *)
(* ===================================================================== *)

Module Registry.
Import Py.

(** [str.lower()] on ASCII letters. *)
Definition lower_char (c : ascii) : ascii :=
  let n := nat_of_ascii c in
  if ((65 <=? n) && (n <=? 90))%nat then ascii_of_nat (n + 32) else c.

Fixpoint lower (s : string) : string :=
  match s with
  | EmptyString => EmptyString
  | String c s' => String (lower_char c) (lower s')
  end.

(** [s.find(sub)]: the first position of [sub] in [s], or -1. *)
Definition find (s sub : string) : Z :=
  match String.index 0 sub s with
  | Some n => Z.of_nat n
  | None => -1
  end.

(** The fields of [FSRSModule]; [propindex] is the dictionary from
    looked-up labels to positions, latest entry first. *)
Record t : Type := {
  name : string;
  type : string;
  properties : list ModProp.t;
  propindex : list (string * nat)
}.

Definition with_properties (m : t) (ps : list ModProp.t) : t :=
  {| name := name m; type := type m; properties := ps;
     propindex := propindex m |}.

Definition remember (m : t) (label : string) (i : nat) : t :=
  {| name := name m; type := type m; properties := properties m;
     propindex := (label, i) :: propindex m |}.

(** [self.propindex[label]] when [label in self.propindex]. *)
Fixpoint memo (idx : list (string * nat)) (label : string) : option nat :=
  match idx with
  | [] => None
  | (k, i) :: idx' => if String.eqb k label then Some i else memo idx' label
  end.

(** [properties[i].getLabel().lower().find(label.lower()) != -1]. *)
Definition matches (label : string) (p : ModProp.t) : bool :=
  negb (find (lower (ModProp.plabel p)) (lower label) =? -1).

(** The [for] loop of the two look-ups from position [i] on. *)
Fixpoint first_match (label : string) (ps : list ModProp.t) (i : nat)
    : option (nat * ModProp.t) :=
  match ps with
  | [] => None
  | p :: ps' =>
      if matches label p then Some (i, p) else first_match label ps' (S i)
  end.

(** An object handed to [addProperty] or [setProperty]:
    [type(prop).__name__] and the property it carries.  The code is
    Python 2 and [class ModProp():] names no base class, so the type of
    an instance of [ModProp] is the type [instance] of every old-style
    instance. *)
Record Object : Type := {
  type_name : string;
  fields : ModProp.t
}.

Definition ModProp_instance (p : ModProp.t) : Object :=
  {| type_name := "instance"; fields := p |}.

(** [if type(prop).__name__ != "ModProp": raise ValueError(...)]. *)
Definition check_ModProp (prop : Object) : Res unit :=
  if negb (String.eqb (type_name prop) "ModProp")
  then Raise (ValueError "Property must be an instance of 'ModProp'.")
  else Ok tt.

(** [FSRSModule.addProperty(prop)]: the id and the module. *)
Definition addProperty (m : t) (prop : Object) : Res (Z * t) :=
  bind (check_ModProp prop) (fun _ =>
  Ok (Z.of_nat (List.length (properties m)),
      with_properties m (properties m ++ [fields prop]))).

(** [FSRSModule.setProperty(id, prop)]. *)
Definition setProperty (m : t) (id : Z) (prop : Object) : Res t :=
  bind (check_ModProp prop) (fun _ =>
  if (id <? 0) || (Z.of_nat (List.length (properties m)) <? id)
  then Raise (ValueError "Index out of range")
  else
    match nth_error (properties m) (Z.to_nat id) with
    | Some _ =>
        Ok (with_properties m
              (FSRSutils.upd (properties m) (Z.to_nat id) (fields prop)))
    | None => Raise IndexError
    end).

(** [FSRSModule.getProperty(id)]. *)
Definition getProperty (m : t) (id : Z) : Res ModProp.t :=
  if (id <? 0) || (Z.of_nat (List.length (properties m)) <? id)
  then Raise (ValueError "Index out of range")
  else FSRSScan2.py_nth (properties m) id.

(** [FSRSModule.getPropertyByLabel(label)]: the result and the module
    with its dictionary. *)
Definition getPropertyByLabel (m : t) (label : string) : Res ModProp.t * t :=
  match memo (propindex m) label with
  | Some i => (FSRSScan2.py_nth (properties m) (Z.of_nat i), m)
  | None =>
      match first_match label (properties m) 0 with
      | Some (i, p) => (Ok p, remember m label i)
      | None => (Raise (ValueError "Property label not found"), m)
      end
  end.

(** [FSRSModule.hasProperty(label)]. *)
Definition hasProperty (m : t) (label : string) : bool * t :=
  match memo (propindex m) label with
  | Some _ => (true, m)
  | None =>
      match first_match label (properties m) 0 with
      | Some (i, _) => (true, remember m label i)
      | None => (false, m)
      end
  end.

(** Every remembered position is a position of the list. *)
Definition memo_in_range (m : t) : Prop :=
  forall k i, In (k, i) (propindex m) -> (i < List.length (properties m))%nat.

(** A module object as [initialize] sees it: its identity and name. *)
Record Obj : Type := {
  oid : nat;
  oname : string
}.

(** [FSRSModule.initialize(others)]: the loop with [count] so far. *)
Fixpoint count_before (self : Obj) (others : list Obj) (count : Z) : Z :=
  match others with
  | [] => count
  | m :: rest =>
      if (oid m =? oid self)%nat then count
      else if String.eqb (oname m) (oname self)
           then count_before self rest (count + 1)
           else count_before self rest count
  end.

Definition initialize (self : Obj) (others : list Obj) : Z :=
  count_before self others 0.

(** [pyFSRS.initializeModules] for modules that keep the base class
    [initialize]: each module with the count it is given. *)
Definition initializeModules (modules : list Obj) : list (Obj * Z) :=
  map (fun m => (m, initialize m modules)) modules.

(** The modules of name [n] in a list. *)
Definition same_name_count (n : string) (l : list Obj) : Z :=
  Z.of_nat (List.length (filter (fun x => String.eqb (oname x) n) l)).

(** The dummy sensor as its constructor builds it. *)
Definition dummy_sensor : t :=
  {| name := "Dummy Sensor"; type := "input";
     properties :=
       [ {| ModProp.plabel := "Amplitude"; ModProp.type := ModProp.input;
            ModProp.value := PyStr "0.0"; ModProp.choices := [] |};
         {| ModProp.plabel := "Offset"; ModProp.type := ModProp.input;
            ModProp.value := PyStr "0.0"; ModProp.choices := [] |};
         {| ModProp.plabel := "Wait Time (s)"; ModProp.type := ModProp.input;
            ModProp.value := PyStr "0"; ModProp.choices := [] |};
         {| ModProp.plabel := "Function"; ModProp.type := ModProp.choice;
            ModProp.value := PyInt 0;
            ModProp.choices := ["Rosenbrock"; "Parabola"; "Ackley"]%string |} ];
     propindex := [] |}.

End Registry.

(* ===================================================================== *)
(** ** pyFSRS.py: the close request *)
(* ===================================================================== *)

Module PyFSRS.
Import Py.

Section Frame.
Variable Args : Type.

(** What a loaded module is for the close request: an experiment with
    its scan thread, or a module that keeps the [canQuit] and
    [shutdown] of the base class. *)
Inductive ModState : Type :=
| Plain
| Exp (e : Experiment.t Args).

(** [m.canQuit()]; [yes] answers the message box. *)
Definition canQuit_state (st : ModState) (yes : bool) : PyVal * ModState :=
  match st with
  | Plain => (PyBool true, Plain)
  | Exp e => (fst (Experiment.canQuit e yes), Exp (snd (Experiment.canQuit e yes)))
  end.

(** [m.shutdown()]. *)
Definition shutdown_state (st : ModState) : ModState :=
  match st with
  | Plain => Plain
  | Exp e => Exp (Experiment.shutdown e)
  end.

Definition with_state (m : App.Module ModState) (st : ModState)
    : App.Module ModState :=
  {| App.name := App.name m; App.state := st;
     App.shutdown_method := App.shutdown_method m;
     App.shutdown_calls := App.shutdown_calls m |}.

(** The loop [veto = veto | (not m.canQuit())] from the module at
    position [i] on; [yes i] answers the message box of module [i]. *)
Fixpoint ask_all (yes : nat -> bool) (i : nat)
    (ms : list (App.Module ModState)) (veto : bool)
    : bool * list (App.Module ModState) :=
  match ms with
  | [] => (veto, [])
  | m :: rest =>
      let r := canQuit_state (App.state m) (yes i) in
      let next := ask_all yes (S i) rest (veto || negb (truthy (fst r))) in
      (fst next, with_state m (snd r) :: snd next)
  end.

(** [pyFSRS.onQuit(event)]; [can_veto] is [event.CanVeto()]. *)
Definition onQuit (can_veto : bool) (yes : nat -> bool) (f : App.t ModState)
    : App.t ModState :=
  if can_veto && (0 <? List.length (App.modules f))%nat then
    let asked := ask_all yes 0 (App.modules f) false in
    let f' := {| App.modules := snd asked; App.destroyed := App.destroyed f |} in
    if fst asked then f' else App.onExitApp f'
  else App.onExitApp f.

(** Close requests one after the other, each with its answers. *)
Fixpoint close_requests (answers : list (nat -> bool)) (f : App.t ModState)
    : App.t ModState :=
  match answers with
  | [] => f
  | yes :: rest => close_requests rest (onQuit true yes f)
  end.

(** The module lets the application go: it has no scan thread handle,
    or its thread is alive and the user agrees to stop it. *)
Definition lets_go (st : ModState) (yes : bool) : bool :=
  match st with
  | Plain => true
  | Exp e =>
      match Experiment.scanThread e with
      | None => true
      | Some h => Experiment.is_alive e h && yes
      end
  end.

Fixpoint all_let_go (yes : nat -> bool) (i : nat)
    (ms : list (App.Module ModState)) : bool :=
  match ms with
  | [] => true
  | m :: rest => lets_go (App.state m) (yes i) && all_let_go yes (S i) rest
  end.

(** Some experiment holds the handle of a thread that is dead. *)
Definition holds_stale (ms : list (App.Module ModState)) : Prop :=
  exists m e h n,
    In m ms /\ App.state m = Exp e /\ Experiment.stale e h n.

End Frame.

Arguments Plain {Args}.
Arguments Exp {Args} e.
Arguments canQuit_state {Args} _ _.
Arguments shutdown_state {Args} _.
Arguments with_state {Args} _ _.
Arguments ask_all {Args} _ _ _ _.
Arguments onQuit {Args} _ _ _.
Arguments close_requests {Args} _ _.
Arguments lets_go {Args} _ _.
Arguments all_let_go {Args} _ _ _.
Arguments holds_stale {Args} _.

End PyFSRS.

(* ===================================================================== *)
(** ** available_modules/xFSRS/FSRSAcquire.py: thread and module *)
(* ===================================================================== *)

Module AcquireThread.
Import Py.

Section Thread.
Variable Val : Type.                          (* what the camera returns *)

(** What the thread does to the outside, in order. *)
Inductive Event : Type :=
| EvStarted                                   (* CallAfter(onStarted) *)
| EvSleep (seconds : Q)
| EvCcdRead (frames : Z)                      (* ccd.readNframes *)
| EvUpdate (val : Val)                        (* CallAfter(onUpdate, val) *)
| EvFinished.                                 (* CallAfter(onFinished) *)

Variable ccd_readNframes : list Event -> Z -> Val.
Variable ccd_polls : list Event -> nat.       (* polls inside the camera *)

Record St : Type := {
  trace : list Event;
  polls : nat
}.

Variable canQuit : Flag.t.
Variable frames : Z.

(** The [while] loop with [left] sets to go ([cset < self.sets] holds
    exactly when [left] is not 0). *)
Fixpoint sets_loop (left : nat) (st : St) : St :=
  let q := Flag.isSet canQuit (polls st) in
  let st := {| trace := trace st; polls := S (polls st) |} in
  if q then st
  else
    match left with
    | O => st
    | S left' =>
        let val := ccd_readNframes (trace st) frames in
        let st := {| trace := trace st ++ [EvCcdRead frames];
                     polls := (polls st + ccd_polls (trace st))%nat |} in
        let st := {| trace := trace st ++ [EvUpdate val]; polls := polls st |} in
        sets_loop left' st
    end.

(** [AcquireThread.run]. *)
Definition run (sets : Z) : St :=
  let st := {| trace := [EvStarted; EvSleep 0.1]; polls := 0 |} in
  let st := sets_loop (Z.to_nat sets) st in
  {| trace := trace st ++ [EvFinished]; polls := polls st |}.

(** The values sent to [onUpdate], in order. *)
Fixpoint updates (tr : list Event) : list Val :=
  match tr with
  | [] => []
  | EvUpdate v :: tr' => v :: updates tr'
  | _ :: tr' => updates tr'
  end.

(** One read and the update that carries its value. *)
Definition rounds (vals : list Val) : list Event :=
  flat_map (fun v => [EvCcdRead frames; EvUpdate v]) vals.

End Thread.

Arguments EvStarted {Val}.
Arguments EvSleep {Val} _.
Arguments EvCcdRead {Val} _.
Arguments EvUpdate {Val} _.
Arguments EvFinished {Val}.
Arguments trace {Val} _.
Arguments polls {Val} _.
Arguments sets_loop {Val} _ _ _ _ _ _.
Arguments run {Val} _ _ _ _ _.
Arguments updates {Val} _.
Arguments rounds {Val} _ _.

End AcquireThread.

Module AcquireModule.
Import Py.

(** The keyword arguments of [AcquireThread]. *)
Record Args : Type := {
  a_ccd : string;
  a_frames : Z;
  a_sets : Z
}.

(** The fields of the [FSRSAcquire] module: the accumulator, the
    experiment, the cameras by name and the values of its properties. *)
Record t : Type := {
  acc : FSRSAcquire.t;
  exp : Experiment.t Args;
  cameras : list string;
  p_camera : Z;
  p_frames : Z
}.

Definition with_acc_exp (m : t) (a : FSRSAcquire.t) (e : Experiment.t Args) : t :=
  {| acc := a; exp := e; cameras := cameras m; p_camera := p_camera m;
     p_frames := p_frames m |}.

(** [FSRSAcquire.onStart]. *)
Definition onStart (m : t) : Res t :=
  if Experiment.running (exp m) then
    Ok (with_acc_exp m (acc m) (Experiment.stop (exp m)))
  else
    bind (ModProp.setValue (FSRSAcquire.progress (acc m)) (PyInt 0)) (fun p =>
    let a := {| FSRSAcquire.N := 0; FSRSAcquire.data := [];
                FSRSAcquire.intdata := [];
                FSRSAcquire.mode := FSRSAcquire.mode (acc m);
                FSRSAcquire.sets := FSRSAcquire.sets (acc m);
                FSRSAcquire.progress := p |} in
    bind (FSRSScan2.py_nth (cameras m) (p_camera m)) (fun ccd =>
    Ok (with_acc_exp m a
          (Experiment.start (exp m)
             {| a_ccd := ccd; a_frames := p_frames m;
                a_sets := FSRSAcquire.sets (acc m) |})))).

(** [A, B, C = self.data]: the array must have three rows. *)
Definition unpack3 (data : FSRSAcquire.Array) : Res (list Q * list Q * list Q) :=
  match data with
  | [A; B; C] => Ok (A, B, C)
  | [] | [_] | [_; _] => Raise (ValueError "need more values to unpack")
  | _ => Raise (ValueError "too many values to unpack")
  end.

(** [FSRSAcquire.onFinished]: the module after the call of the base
    class, and the three lines handed to the plot window or the
    exception of the unpacking. *)
Definition onFinished (m : t) : t * Res (list Q * list Q * list Q) :=
  let m' := with_acc_exp m (acc m) (Experiment.onFinished (exp m)) in
  (m', unpack3 (FSRSAcquire.data (acc m))).

End AcquireModule.

(* ===================================================================== *)
(** * [PIXIS100.read]: the band integral (Devices/PIXIS100.py) *)

Module PIXIS100Band.
Import Py.

(** A slice bound [i] of a sequence of length [n]: a negative bound
    counts from the end, and both ends are clipped to the sequence. *)
Definition clip (n i : Z) : Z :=
  if i <? 0 then Z.max (i + n) 0 else Z.min i n.

(** [l[start:stop]]. *)
Definition py_slice {A : Type} (l : list A) (start stop : Z) : list A :=
  let n := Z.of_nat (List.length l) in
  let a := clip n start in
  let b := clip n stop in
  if a <? b then firstn (Z.to_nat (b - a)) (skipn (Z.to_nat a) l) else [].

(** The floats of numpy, as [readNframes] returns them. *)
Abbreviation Reading := PIXIS100.Reading (only parsing).
Abbreviation Value := PIXIS100.Value (only parsing).
Abbreviation NaN := PIXIS100.NaN (only parsing).
Abbreviation Inf := PIXIS100.Inf (only parsing).

(** [a + b] on floats of numpy. *)
Definition np_add (a b : Reading) : Reading :=
  match a, b with
  | PIXIS100.NaN, _ | _, PIXIS100.NaN => NaN
  | PIXIS100.Value x, PIXIS100.Value y => Value (x + y)%Q
  | PIXIS100.Inf p, PIXIS100.Inf q => if Bool.eqb p q then Inf p else NaN
  | PIXIS100.Inf p, PIXIS100.Value _ => Inf p
  | PIXIS100.Value _, PIXIS100.Inf q => Inf q
  end.

(** [np.sum]. *)
Definition np_sum (l : PIXIS100.Row) : Reading :=
  fold_right np_add (Value 0%Q) l.

(** The lines after the call of [readNframes]: [c] is the first row it
    returned, [vmin] and [vmax] the values of the two band properties.
    The division is one of numpy, which warns where Python raises. *)
Definition band (c : PIXIS100.Row) (vmin vmax : Z) : Reading :=
  let i1 := vmin in
  let i2 := vmax in
  let '(i1, i2) := if i2 <? i1 then (i2, i1) else (i1, i2) in
  PIXIS100.np_divide (np_sum (py_slice c i2 i1)) (Value (inject_Z (i2 - i1))).

Section Driver.
Variable w : nat.
Variable cam_readNFrames : nat -> nat -> list (list PIXIS100.Frame).
Variable flip : bool.

(** [PIXIS100.read()], with [n] the number of frames of the property
    and no stop flag handed to [readNframes]. *)
Definition read (fuel : nat) (n : nat) (vmin vmax : Z) (st : PIXIS100.State)
    : option (Reading * PIXIS100.State) :=
  match PIXIS100.readNframes w cam_readNFrames flip fuel n None st with
  | None => None
  | Some ((c, _, _), st') => Some (band c vmin vmax, st')
  end.
End Driver.

End PIXIS100Band.

(* ===================================================================== *)
(** * More of [ModProp]: type and info (core/FSRSModule.py) *)

Module ModPropMore.
Import Py.

(** The names [setType] accepts. *)
Definition type_of_string (s : string) : option ModProp.PropType :=
  if String.eqb s "label" then Some ModProp.label
  else if String.eqb s "input" then Some ModProp.input
  else if String.eqb s "choice" then Some ModProp.choice
  else if String.eqb s "button" then Some ModProp.button
  else if String.eqb s "checkbox" then Some ModProp.checkbox
  else if String.eqb s "toggle" then Some ModProp.toggle
  else if String.eqb s "file" then Some ModProp.file
  else if String.eqb s "progress" then Some ModProp.progress
  else if String.eqb s "spin" then Some ModProp.spin
  else None.

(** [ModProp.setType(val)]. *)
Definition setType (p : ModProp.t) (val : string) : Res ModProp.t :=
  match type_of_string val with
  | None => Raise (ValueError "Not a valid property type!")
  | Some ty =>
      Ok {| ModProp.plabel := ModProp.plabel p; ModProp.type := ty;
            ModProp.value := ModProp.value p;
            ModProp.choices := ModProp.choices p |}
  end.

(** [ModProp.setLabel(txt)], no label window attached. *)
Definition setLabel (p : ModProp.t) (txt : string) : ModProp.t :=
  {| ModProp.plabel := txt; ModProp.type := ModProp.type p;
     ModProp.value := ModProp.value p; ModProp.choices := ModProp.choices p |}.

(** The info field: a string, or the pair of limits of a spin. *)
Inductive Info : Type :=
| InfoStr (s : string)
| InfoRange (lo hi : Z).

Definition info_in (info : Info) (allowed : list string) : bool :=
  match info with
  | InfoStr s => existsb (String.eqb s) allowed
  | InfoRange _ _ => false
  end.

(** [ModProp.setInfo(info)] for a property with no widget: the new
    info field, the property itself being left as it is. *)
Definition setInfo (p : ModProp.t) (info : Info) : Res Info :=
  match ModProp.type p with
  | ModProp.file =>
      if info_in info ["open"; "save"; "path"]%string then Ok info
      else Raise (ValueError "Info property has to be one of ['open', 'save', 'path'] for type 'file'.")
  | ModProp.input =>
      if info_in info ["float"; "int"; ""%string]%string then Ok info
      else Raise (ValueError "Info property has to be one of ['float', 'int', ''] for type 'input'.")
  | _ => Ok info
  end.

End ModPropMore.

(* ===================================================================== *)
(** * The shutter on a digital line (Devices/NIShutter.py) *)

Module NIShutter.
Import Py.

(** The fields of the module the functions below use.  [sent] lists the
    bytes handed to [WriteDigitalU8], oldest first. *)
Record t : Type := {
  lastState : Z;
  slope : Z;
  isOpened : option bool;                (* set by [write] only *)
  channel : Z;                           (* value of "Channel" *)
  p_slope : ModProp.t;                   (* "Slope" *)
  control : ModProp.t;                   (* "Control" *)
  control_info : ModPropMore.Info;
  sent : list Z
}.

(** [1 << c]. *)
Definition shl1 (c : Z) : Res Z :=
  if c <? 0 then Raise (ValueError "negative shift count")
  else Ok (Z.shiftl 1 c).

(** [bool(n)] on an integer. *)
Definition bool_of_int (n : Z) : bool := negb (n =? 0).

(** [value == b] for a boolean [b]. *)
Definition eq_bool (value : PyVal) (b : bool) : bool :=
  eq_int value (if b then 1 else 0).

(** [NIShutter.updateToggleButton()]. *)
Definition updateToggleButton (s : t) : Res t :=
  bind (shl1 (channel s)) (fun channelBitmask =>
  let opened :=
    Z.land (lastState s) channelBitmask =? Z.land (slope s) channelBitmask in
  let txt := if opened then "PRESS TO CLOSE"%string else "PRESS TO OPEN"%string in
  bind (ModPropMore.setInfo (control s) (ModPropMore.InfoStr txt)) (fun info =>
  bind (ModProp.setValue (control s) (PyInt (if opened then 1 else 0))) (fun c =>
  Ok {| lastState := lastState s; slope := slope s; isOpened := isOpened s;
        channel := channel s; p_slope := p_slope s; control := c;
        control_info := info; sent := sent s |}))).

(** [np.array(x, dtype=daq.uInt8)] on an integer: the conversion keeps
    the low eight bits. *)
Definition uInt8 (x : Z) : Z := x mod 256.

(** [NIShutter.write(value)]. *)
Definition write (s : t) (value : PyVal) : Res t :=
  let writeArray := lastState s in
  bind (shl1 (channel s)) (fun channelBitmask =>
  let slope_b := bool_of_int (Z.land (slope s) channelBitmask) in
  let writeArray :=
    if eq_bool value slope_b then Z.lor writeArray channelBitmask
    else Z.land writeArray (Z.lnot channelBitmask) in
  updateToggleButton
    {| lastState := writeArray; slope := slope s;
       isOpened := Some (truthy value);
       channel := channel s; p_slope := p_slope s; control := control s;
       control_info := control_info s;
       sent := sent s ++ [uInt8 writeArray] |}).

(** [NIShutter.onToggle(event)]. *)
Definition onToggle (s : t) : Res t := write s (ModProp.value (control s)).

(** [NIShutter.onChangeSlope(event)]. *)
Definition onChangeSlope (s : t) : Res t :=
  bind (shl1 (channel s)) (fun channelBitmask =>
  let sl := ModProp.value (p_slope s) in
  let slope' :=
    if truthy sl then Z.lor (slope s) channelBitmask
    else Z.land (slope s) (Z.lnot channelBitmask) in
  onToggle
    {| lastState := lastState s; slope := slope'; isOpened := isOpened s;
       channel := channel s; p_slope := p_slope s; control := control s;
       control_info := control_info s; sent := sent s |}).

(** [NIShutter.onChangeChannel(event)]. *)
Definition onChangeChannel (s : t) : Res t :=
  bind (shl1 (channel s)) (fun channelBitmask =>
  let sl := bool_of_int (Z.land (slope s) channelBitmask) in
  bind (ModProp.setValue (p_slope s) (PyBool sl)) (fun p =>
  updateToggleButton
    {| lastState := lastState s; slope := slope s; isOpened := isOpened s;
       channel := channel s; p_slope := p; control := control s;
       control_info := control_info s; sent := sent s |})).

(** The module as [__init__] leaves it. *)
Definition init : t :=
  {| lastState := 0; slope := 255; isOpened := None; channel := 0;
     p_slope := {| ModProp.plabel := "Slope"; ModProp.type := ModProp.choice;
                   ModProp.value := PyInt 1;
                   ModProp.choices := ["Open on Low"; "Open on High"]%string |};
     control := {| ModProp.plabel := "Control"; ModProp.type := ModProp.toggle;
                   ModProp.value := PyInt 0; ModProp.choices := [] |};
     control_info := ModPropMore.InfoStr "OPEN"; sent := [] |}.

End NIShutter.

(* ===================================================================== *)
(** * The updates a scan posts (xFSRS/FSRSScan2.py) *)

Module ScanUpdates.
Import Py.

(** What [onUpdate] is told besides the data: [grexc], [step], [set]. *)
Definition Update : Type := (Z * Q * Z)%type.

Definition update_of {Val} (e : FSRSScan2.Event Val) : list Update :=
  match e with
  | FSRSScan2.EvUpdate _ grexc step set => [(grexc, step, set)]
  | _ => []
  end.

(** The updates of a trace, in order. *)
Definition updates {Val} (tr : list (FSRSScan2.Event Val)) : list Update :=
  flat_map update_of tr.

(** The ground state spectrum of a set, taken in FSRS mode only. *)
Definition ground (type cset : Z) : list Update :=
  if type =? 0 then [(0, 0%Q, cset)] else [].

(** The excited state spectra of a set, one for each point. *)
Definition excited (points : list Q) (cset : Z) : list Update :=
  map (fun p => (1, p, cset)) points.

(** The updates of [n] sets from set [cset] on. *)
Fixpoint full_scan (type : Z) (points : list Q) (cset : Z) (n : nat)
    : list Update :=
  match n with
  | O => []
  | S n' =>
      ground type cset ++ excited points cset
      ++ full_scan type points (cset + 1) n'
  end.

(** [st'] is a later state of a thread that has not finished, with the
    updates [l] posted since [st]. *)
Definition follows {Val} (points : list Q) (st st' : FSRSScan2.St Val)
    (l : list Update) : Prop :=
  FSRSScan2.pending points st'
  /\ (FSRSScan2.polls st <= FSRSScan2.polls st')%nat
  /\ updates (FSRSScan2.trace st') = updates (FSRSScan2.trace st) ++ l.

(** [l] is the beginning of [full]. *)
Definition prefix (l full : list Update) : Prop :=
  exists rest, full = l ++ rest.

End ScanUpdates.

(* ===================================================================== *)
(** * [FSRSModule.parsePropertiesDict] (core/FSRSModule.py) *)

Module PropertiesDict.
Import Py.

(** One dictionary of the list: the keys it has.  [d_event] is [None]
    both when the key is missing and when its value is [None]. *)
Record Dict : Type := {
  d_label : option string;
  d_type : option string;
  d_value : option PyVal;
  d_choices : option (list string);
  d_info : option ModPropMore.Info;
  d_event : option string
}.

(** What stops the parsing: an exception of the model, or the
    [AttributeError] of [getattr(self, name)]. *)
Inductive Error : Type :=
| PyError (e : PyExc)
| AttributeError (name : string).

Inductive Parsed : Type :=
| Built (p : ModProp.t)
| Failed (e : Error).

(** [ModProp()]. *)
Definition fresh : ModProp.t :=
  {| ModProp.plabel := ""; ModProp.type := ModProp.label;
     ModProp.value := PyStr ""; ModProp.choices := [] |}.

Definition require {A} (key : string) (v : option A) : Res A :=
  match v with
  | Some a => Ok a
  | None => Raise (ValueError ("Missing key '" ++ key ++ "' in properties dict!"))
  end.

(** The body of the loop up to [p.setValue(d['value'])]. *)
Definition build (d : Dict) : Res ModProp.t :=
  bind (require "label" (d_label d)) (fun lab =>
  bind (require "type" (d_type d)) (fun ty =>
  bind (require "value" (d_value d)) (fun v =>
  bind (ModPropMore.setType fresh ty) (fun p =>
  let p := ModPropMore.setLabel p lab in
  bind (if String.eqb ty "choice"
        then bind (require "choices" (d_choices d)) (fun ch =>
             Ok (ModProp.setChoices p ch))
        else Ok p) (fun p =>
  bind (match d_info d with
        | Some i => bind (ModPropMore.setInfo p i) (fun _ => Ok tt)
        | None => Ok tt
        end) (fun _ =>
  ModProp.setValue p v)))))).

Section Parse.
(** [hasattr(self, name)] for the module that parses. *)
Variable has_method : string -> bool.

(** The body of the loop: the property that is appended, or the
    exception. *)
Definition parse_one (d : Dict) : Parsed :=
  match build d with
  | Raise e => Failed (PyError e)
  | Ok p =>
      match d_event d with
      | Some name =>
          if has_method name then Built p else Failed (AttributeError name)
      | None => Built p
      end
  end.

(** [FSRSModule.parsePropertiesDict(dct)]: the module afterwards and
    the exception, if any, that ended the call. *)
Fixpoint parsePropertiesDict (m : Registry.t) (dct : list Dict)
    : Registry.t * option Error :=
  match dct with
  | [] => (m, None)
  | d :: rest =>
      match parse_one d with
      | Failed e => (m, Some e)
      | Built p =>
          parsePropertiesDict
            (Registry.with_properties m (Registry.properties m ++ [p])) rest
      end
  end.
End Parse.

End PropertiesDict.

(* ===================================================================== *)
(** * The properties of [FSRSScan2] and its [onUpdate]
      (xFSRS/FSRSScan2.py, core/FSRSutils.py) *)

Module ScanModule.
Import Py PropertiesDict.

Definition entry (label type : string) (value : PyVal) : Dict :=
  {| d_label := Some label; d_type := Some type; d_value := Some value;
     d_choices := None; d_info := None; d_event := None |}.

Definition with_choices (d : Dict) (ch : list string) : Dict :=
  {| d_label := d_label d; d_type := d_type d; d_value := d_value d;
     d_choices := Some ch; d_info := d_info d; d_event := d_event d |}.

Definition with_info (d : Dict) (i : ModPropMore.Info) : Dict :=
  {| d_label := d_label d; d_type := d_type d; d_value := d_value d;
     d_choices := d_choices d; d_info := Some i; d_event := d_event d |}.

Definition with_event (d : Dict) (name : string) : Dict :=
  {| d_label := d_label d; d_type := d_type d; d_value := d_value d;
     d_choices := d_choices d; d_info := d_info d; d_event := Some name |}.

(** [appendStageParameters(prop, fr, to, st)] for integer arguments, as
    its defaults are. *)
Definition appendStageParameters (prop : list Dict) (fr to st : Z) : list Dict :=
  prop ++
  [ with_event (with_info (entry "From (fs)" "input" (PyStr (str_int fr)))
                  (ModPropMore.InfoStr "float")) "onAxisRangeChange";
    with_event (with_info (entry "Till (fs)" "input" (PyStr (str_int to)))
                  (ModPropMore.InfoStr "float")) "onAxisRangeChange";
    with_event (with_info (entry "Step Size (fs)" "input" (PyStr (str_int st)))
                  (ModPropMore.InfoStr "float")) "onAxisRangeChange";
    with_event (with_choices (entry "Mode" "choice" (PyInt 0))
                  ["linear"; "logarithmic"; "from file"]%string)
      "onAxisRangeChange";
    with_info (entry "Random" "checkbox" (PyInt 0))
      (ModPropMore.InfoStr "randomize steps");
    with_info (entry "Use File" "file" (PyStr ""))
      (ModPropMore.InfoStr "open") ].

(** The list [prop] of [FSRSScan2.__init__]; [cwd] is [os.getcwd()]. *)
Definition prop (cwd : string) : list Dict :=
  appendStageParameters
    [ with_choices (entry "Camera" "choice" (PyInt 0)) [];
      with_choices (entry "Type" "choice" (PyInt 0))
        ["FSRS"; "TA"; "T/T0"]%string;
      with_info (entry "# of Frames" "spin" (PyInt 2000))
        (ModPropMore.InfoRange 2 20000);
      with_choices (entry "Axis" "choice" (PyInt 0)) [] ]
    (-500) 2500 20
  ++
  [ with_choices (entry "Shutter" "choice" (PyInt 0)) [];
    with_choices (entry "Take Ref." "choice" (PyInt 0)) [];
    with_info (entry "# of Sets" "spin" (PyInt 1)) (ModPropMore.InfoRange 1 1000);
    entry "Basename" "input" (PyStr "");
    with_info (entry "Output Path" "file" (PyStr cwd)) (ModPropMore.InfoStr "path");
    entry "Progress" "progress" (PyInt 0);
    entry "Status" "label" (PyStr "");
    with_event (entry "Start" "button" (PyStr "Scan")) "onStart" ].

(** The methods of [FSRSScan2] that the list names. *)
Definition has_method (name : string) : bool :=
  String.eqb name "onAxisRangeChange" || String.eqb name "onStart".

(** The module after [__init__]. *)
Definition init (cwd : string) : Registry.t * option Error :=
  parsePropertiesDict has_method
    {| Registry.name := "FSRS Scan 2"; Registry.type := "experiment";
       Registry.properties := []; Registry.propindex := [] |}
    (prop cwd).

(** The labels of the properties in their order; the label of the
    step property changes with the stepping mode. *)
Definition labels (step_label : string) : list string :=
  [ "Camera"; "Type"; "# of Frames"; "Axis"; "From (fs)"; "Till (fs)";
    step_label; "Mode"; "Random"; "Use File"; "Shutter"; "Take Ref.";
    "# of Sets"; "Basename"; "Output Path"; "Progress"; "Status";
    "Start" ]%string.

(** A label contains the key, case apart. *)
Definition label_matches (key label : string) : bool :=
  negb (Registry.find (Registry.lower label) (Registry.lower key) =? -1).

(** The position of the first label that contains the key. *)
Fixpoint first_label (key : string) (ls : list string) : option nat :=
  match ls with
  | [] => None
  | l :: ls' =>
      if label_matches key l then Some O else option_map S (first_label key ls')
  end.

(** A mode as the two functions below look at it: they compare it
    with 0 and with 1 and nothing else. *)
Definition mode_code (mode : PyVal) : Z :=
  if eq_int mode 0 then 0 else if eq_int mode 1 then 1 else 2.

Section Update.
Variable neg_log : Q -> Q.
Variable neg_log10 : Q -> Q.

(** [FSRSScan2.onUpdate(val, grexc, step, set)] up to the call of
    [saveFSRS]: the name of the file and the three columns written. *)
Definition onUpdate_saved (m : Registry.t) (basename : string)
    (val : list Q * list Q * list Q) (grexc : Z) (step : Q) (set : Z)
    : Res (string * FSRSAcquire.Array) * Registry.t :=
  let '(r, m') := Registry.getPropertyByLabel m "mode" in
  (bind r (fun p =>
     let mode := mode_code (ModProp.value p) in
     let data := FSRSAcquire.result_of neg_log neg_log10 mode val in
     let filename := FSRSutils.formatFSRSFilename mode basename step set grexc in
     Ok (filename, data)),
   m').
End Update.

End ScanModule.

(* ===================================================================== *)
(** * The thread of a DAQ scan (xDAQ/DAQScan.py) *)

Module DAQScanThread.
Import Py.

Section Thread.
Variable Val : Type.                          (* what the input returns *)

(** What the thread does to the outside, in order. *)
Inductive Event : Type :=
| EvStarted                                   (* CallAfter(onStarted) *)
| EvSleep (seconds : Q)
| EvAxisGoto (p : Q)                          (* axis.goto(p) *)
| EvIsMoving                                  (* axis.is_moving() *)
| EvDaqRead                                   (* daq.read() *)
| EvUpdate (val : Val)                        (* CallAfter(onUpdate, val) *)
| EvFinished.                                 (* CallAfter(onFinished) *)

(** The devices answer as a function of what happened before. *)
Variable axis_is_moving : list Event -> bool.
Variable daq_read : list Event -> Val.

Variable canQuit : Flag.t.
Variable points : list Q.

Record St : Type := {
  trace : list Event;
  polls : nat
}.

(** How the routine ends. *)
Inductive Out : Type :=
| Fin (st : St)
| Exc (e : PyExc) (st : St)
| NoFuel.

Definition push (e : Event) (st : St) : St :=
  {| trace := trace st ++ [e]; polls := polls st |}.

Definition polled (st : St) : St :=
  {| trace := trace st; polls := S (polls st) |}.

(** [while self.axis.is_moving() and self.canQuit.isSet() == 0:
    time.sleep(0.01)]; the flag is asked only while the axis moves. *)
Fixpoint wait (fuel : nat) (st : St) : option St :=
  match fuel with
  | O => None
  | S fuel' =>
      let moving := axis_is_moving (trace st) in
      let st := push EvIsMoving st in
      if moving then
        let q := Flag.isSet canQuit (polls st) in
        let st := polled st in
        if q then Some st else wait fuel' (push (EvSleep 0.01) st)
      else Some st
  end.

(** The main loop; [fuel] bounds every wait for the axis, [left] the
    passes of the loop itself. *)
Fixpoint points_loop (fuel left : nat) (cpoint : nat) (st : St) : Out :=
  match left with
  | O => NoFuel
  | S left' =>
      let q := Flag.isSet canQuit (polls st) in
      let st := polled st in
      if negb q && (cpoint <? List.length points)%nat then
        match FSRSScan2.py_nth points (Z.of_nat cpoint) with
        | Raise e => Exc e st
        | Ok p =>
            let st := push (EvAxisGoto p) st in
            match wait fuel st with
            | None => NoFuel
            | Some st =>
                let val := daq_read (trace st) in
                let st := push EvDaqRead st in
                let st := push (EvUpdate val) st in
                points_loop fuel left' (S cpoint) st
            end
        end
      else Fin st
  end.

(** [DAQScanThread.run]. *)
Definition run (fuel : nat) : Out :=
  let st := {| trace := [EvStarted; EvSleep 0.1]; polls := 0 |} in
  match points_loop fuel fuel 0 st with
  | Fin st =>
      match FSRSScan2.py_nth points 0 with
      | Raise e => Exc e st
      | Ok p0 => Fin (push EvFinished (push (EvAxisGoto p0) st))
      end
  | out => out
  end.

(** The positions the axis was sent to, the number of updates and the
    number of notifications that the scan has finished, of a trace. *)
Definition goto_of (e : Event) : list Q :=
  match e with EvAxisGoto p => [p] | _ => [] end.

Definition gotos (tr : list Event) : list Q := flat_map goto_of tr.

Definition is_update (e : Event) : bool :=
  match e with EvUpdate _ => true | _ => false end.

Definition is_finished (e : Event) : bool :=
  match e with EvFinished => true | _ => false end.

Definition count (f : Event -> bool) (tr : list Event) : nat :=
  List.length (filter f tr).

(** [st'] comes after [st] with [k] more points visited from the point
    [cpoint] on, and nothing said about the end of the scan. *)
Definition visited (cpoint k : nat) (st st' : St) : Prop :=
  gotos (trace st') = gotos (trace st) ++ firstn k (skipn cpoint points)
  /\ count is_update (trace st') = (count is_update (trace st) + k)%nat
  /\ count is_finished (trace st') = count is_finished (trace st)
  /\ (polls st <= polls st')%nat.

(** The polls after which every wait has ended: the poll that finds
    the flag set. *)
Definition patience : nat :=
  match canQuit with Some c => c | None => O end.

End Thread.

Arguments EvStarted {Val}.
Arguments EvSleep {Val} _.
Arguments EvAxisGoto {Val} _.
Arguments EvIsMoving {Val}.
Arguments EvDaqRead {Val}.
Arguments EvUpdate {Val} _.
Arguments EvFinished {Val}.
Arguments trace {Val} _.
Arguments polls {Val} _.
Arguments Fin {Val} _.
Arguments Exc {Val} _ _.
Arguments NoFuel {Val}.
Arguments push {Val} _ _.
Arguments polled {Val} _.
Arguments wait {Val} _ _ _ _.
Arguments points_loop {Val} _ _ _ _ _ _ _ _.
Arguments run {Val} _ _ _ _ _.
Arguments gotos {Val} _.
Arguments is_update {Val} _.
Arguments is_finished {Val} _.
Arguments count {Val} _ _.
Arguments visited {Val} _ _ _ _ _.

End DAQScanThread.

(* ===================================================================== *)
(** * Properties *)
(* ===================================================================== *)

Import Py.

(** ** File names *)

Section Filenames.
Import FSRSutils.

Lemma append_assoc (a b c : string) :
  ((a ++ b) ++ c = a ++ (b ++ c))%string.
Proof.
  induction a as [|ch a IH]; simpl; [reflexivity | now rewrite IH].
Qed.

Lemma Qltb_false (a b : Q) : Qltb a b = false <-> (b <= a)%Q.
Proof.
  unfold Qltb. rewrite negb_false_iff. apply Qle_bool_iff.
Qed.

Lemma Qeq_bool_of_not_lt (s : Q) :
  Qltb 0 s = false -> Qltb s 0 = false -> Qeq_bool s 0 = true.
Proof.
  intros H1 H2. apply Qltb_false in H1. apply Qltb_false in H2.
  apply Qeq_bool_iff. apply Qle_antisym; assumption.
Qed.

(** C5: for a type in {FSRS = 0, TA = 1} and a shutter in {0, 1},
    [formatFSRSFilename] returns the base name, an underscore, the sign
    letter ("p" for a positive step, "m" for a negative one, "m" also
    for a zero step when the shutter is 1 or the type is TA, otherwise
    nothing), the decimal digits of [abs(int(step))], the tag ("gr" for
    FSRS with shutter 0, "exc" for FSRS with shutter 1, "_" otherwise)
    and the set number; the three file names of the specification come
    out as written there. *)
Theorem formatFSRSFilename_convention
    (type : Z) (basename : string) (step : Q) (set : Z) (shutter : Z) :
  type = 0 \/ type = 1 ->
  shutter = 0 \/ shutter = 1 ->
  formatFSRSFilename type basename step set shutter
    = spec_filename type basename step set shutter
  /\ formatFSRSFilename 0 "run" (1504 # 10) 2 0 = "run_p150gr2"%string
  /\ formatFSRSFilename 0 "run" (- (1504 # 10)) 2 1 = "run_m150exc2"%string
  /\ formatFSRSFilename 1 "run" 0 0 1 = "run_m0_0"%string.
Proof.
  intros Ht Hs. split; [|repeat split; reflexivity].
  unfold formatFSRSFilename, spec_filename, spec_sign, spec_tag.
  destruct (Qltb 0 step) eqn:Hp;
    [|destruct (Qltb step 0) eqn:Hm;
      [|rewrite (Qeq_bool_of_not_lt _ Hp Hm); simpl andb]];
    destruct Ht as [-> | ->], Hs as [-> | ->]; simpl;
    repeat rewrite append_assoc; simpl; reflexivity.
Qed.

Lemma formatFSRSFilename_convention_witness :
  formatFSRSFilename 0 "run" (1504 # 10) 2 0
    = spec_filename 0 "run" (1504 # 10) 2 0
  /\ formatFSRSFilename 0 "run" (1504 # 10) 2 0 = "run_p150gr2"%string
  /\ formatFSRSFilename 0 "run" (- (1504 # 10)) 2 1 = "run_m150exc2"%string
  /\ formatFSRSFilename 1 "run" 0 0 1 = "run_m0_0"%string.
Proof.
  apply (formatFSRSFilename_convention 0 "run" (1504 # 10) 2 0);
    left; reflexivity.
Defined.

End Filenames.

(** ** Linear scan points *)

Section LinearScan.
Import FSRSutils.
Local Open Scope Q_scope.

Lemma int_of_float_nonneg (x : Q) : 0 <= x -> int_of_float x = Qfloor x.
Proof.
  destruct x as [n d]. unfold Qle, int_of_float, Qfloor. simpl.
  intro H. apply Z.quot_div_nonneg; lia.
Qed.

Lemma Qfloor_unique (y : Q) (z : Z) :
  inject_Z z <= y -> y < inject_Z (z + 1) -> Qfloor y = z.
Proof.
  intros Hlo Hhi.
  assert (H1 : (z <= Qfloor y)%Z).
  { rewrite <- (Qfloor_Z z). apply Qfloor_resp_le. exact Hlo. }
  assert (H2 : (Qfloor y < z + 1)%Z).
  { rewrite Zlt_Qlt. eapply Qle_lt_trans; [apply Qfloor_le | exact Hhi]. }
  lia.
Qed.

Lemma upd_length {A} (l : list A) (i : nat) (x : A) :
  List.length (upd l i x) = List.length l.
Proof.
  revert i. induction l as [|h t IH]; intros [|i]; simpl; auto.
Qed.

Lemma swap_length {A} (l : list A) (i j : nat) :
  List.length (swap l i j) = List.length l.
Proof.
  unfold swap. destruct (nth_error l i), (nth_error l j); auto.
  rewrite !upd_length. reflexivity.
Qed.

Lemma shuffle_length {A} (rnd : nat -> nat) (l : list A) :
  List.length (shuffle rnd l) = List.length l.
Proof.
  unfold shuffle. generalize (List.length l - 1)%nat as i. intro i.
  revert l. induction i as [|i IH]; intro l; simpl; [reflexivity|].
  rewrite IH. apply swap_length.
Qed.

(** The count is at least 2 whenever there is one. *)
Lemma linear_count_two (start stop steps : Q) (N : Z) :
  linear_count start stop steps = Ok N -> (2 <= N)%Z.
Proof.
  unfold linear_count. destruct (Qeq_bool (Qabs steps) 0); [discriminate|].
  destruct (int_of _) as [n|e]; simpl; [|discriminate].
  intro H. injection H as <-. lia.
Qed.

Lemma all_finite_ok (l : list (option Q)) (pts : list Q) :
  all_finite l = Ok pts -> l = map Some pts.
Proof.
  revert pts. induction l as [|x l IH]; intros pts; simpl.
  - intro H. injection H as <-. reflexivity.
  - destruct x as [q|]; simpl; [|discriminate].
    destruct (all_finite l) as [qs|e]; simpl; [|discriminate].
    intro H. injection H as <-. simpl. f_equal. apply IH. reflexivity.
Qed.

Lemma Qplus_0_l_eq (x : Q) : 0 + x = x.
Proof.
  destruct x as [n d]. unfold Qplus. simpl. f_equal. lia.
Qed.

Lemma fl_zero_times (x : Q) : Float64.fl (0 * x) = Some 0.
Proof. reflexivity. Qed.

Lemma fl_zero_over (x : Q) : Float64.fl (0 / x) = Some 0.
Proof. reflexivity. Qed.

(** What [linspace] returns for two points or more: that many points,
    the first the double of [0 * step + start], the last [stop]. *)
Lemma linspace_ends (start stop : Q) (m : nat) (pts : list Q) :
  linspace start stop (S (S m)) = Ok pts ->
  Float64.fl start = Some (hd 0 pts)
  /\ List.length pts = S (S m)
  /\ last pts 0 = stop.
Proof.
  unfold linspace. intro H. apply all_finite_ok in H.
  replace (1 <? S (S m))%nat with true in H by reflexivity.
  cbv beta zeta in H.
  set (div := float_of_int (Z.of_nat (S (S m)) - 1)) in H.
  set (delta := fsub (Some stop) (Some start)) in H.
  set (scale := fun yi : option Q =>
                  if is_zero (fdiv delta div) then fmul (fdiv yi div) delta
                  else fmul yi (fdiv delta div)) in H.
  rewrite seq_S, map_app in H. simpl map at 2 in H.
  unfold set_last in H.
  destruct (map _ _ ++ [_]) as [|y0 ys] eqn:E in H.
  { apply app_eq_nil in E. destruct E as [_ E]. discriminate E. }
  rewrite <- E in H. clear E y0 ys.
  rewrite removelast_last in H.
  assert (Hlen : List.length pts = S (S m)).
  { apply (f_equal (@List.length _)) in H.
    rewrite length_app, !length_map, length_seq in H. simpl in H. lia. }
  split; [|split; [exact Hlen|]].
  - destruct pts as [|p0 pts]; [discriminate Hlen|].
    simpl in H. injection H as H0 _. simpl hd.
    assert (Hz : fadd (Some 0) (Some start) = Float64.fl start)
      by (unfold fadd; rewrite Qplus_0_l_eq; reflexivity).
    destruct (is_zero (fdiv delta div)).
    + destruct div as [dv|]; [|discriminate H0].
      rewrite fl_zero_over in H0.
      destruct delta as [dl|]; [|discriminate H0].
      unfold fmul in H0. rewrite fl_zero_times, Hz in H0. exact H0.
    + destruct (fdiv delta div) as [st|]; [|discriminate H0].
      rewrite fl_zero_times, Hz in H0. exact H0.
  - assert (Hl : last (map Some pts) None = Some stop).
    { rewrite <- H. apply last_last. }
    clear H. revert Hl. clear.
    induction pts as [|p pts IH]; simpl; [discriminate|].
    destruct pts as [|p' pts]; simpl in *.
    + intro H. injection H as ->. reflexivity.
    + exact IH.
Qed.

(** X28: in linear mode, without shuffling, the points that
    [prepareScanPoints] returns are as many as the count
    [max(2, int(abs(stop - start) / abs(steps) + 1))] of the doubles,
    which is at least 2; the first is the start and the last is the
    stop, whatever the step. *)
Theorem linear_scan_endpoints
    (logspace : Q -> Q -> Q -> list Q) (loadtxt : string -> list (list Q))
    (rnd : nat -> nat) (s : StageSettings) (pts : list Q) :
  mode s = 0%Z -> random s = false ->
  prepareScanPoints logspace loadtxt rnd s = Ok pts ->
  exists N : Z,
    linear_count (from s) (till s) (step s) = Ok N
    /\ (2 <= N)%Z
    /\ List.length pts = Z.to_nat N
    /\ Float64.fl (from s) = Some (hd 0 pts)
    /\ last pts 0 = till s.
Proof.
  intros Hmode Hrandom. unfold prepareScanPoints.
  rewrite Hmode, Hrandom. simpl Z.eqb. cbv iota.
  destruct (linear_count (from s) (till s) (step s)) as [N|e] eqn:Ec;
    simpl bind; [|discriminate].
  pose proof (linear_count_two _ _ _ _ Ec) as HN.
  destruct (Z.to_nat N) as [|[|m]] eqn:En; try lia.
  destruct (linspace (from s) (till s) (S (S m))) as [points|e] eqn:El;
    simpl bind; [|discriminate].
  intro H. injection H as <-.
  destruct (linspace_ends _ _ _ _ El) as [Hfirst [Hlen Hlast]].
  exists N. split; [reflexivity|]. split; [exact HN|].
  split; [rewrite En; exact Hlen|]. split; [exact Hfirst | exact Hlast].
Qed.

(** C3, at the settings From 0, Till 0.7, Step 0.1 of the linear mode.
    The count [max(2, floor(|stop - start| / |step|) + 1)] of these
    numbers is 8; the count of the code is 7, the quotient of the
    doubles being below 7.  [onAxisRangeChange] moves the stop to
    [6 * 0.1 = 0.6000000000000001], which the text field keeps as 0.6.
    From these settings [prepareScanPoints] makes 6 points from 0 to
    0.6, which are 0.12 apart and not the step 0.1. *)
Theorem linear_scan_seven_tenths
    (pow10_log10 : Q -> Q) (logspace : Q -> Q -> Q -> list Q)
    (loadtxt : string -> list (list Q)) (rnd : nat -> nat) :
  let s := {| mode := 0; from := 0; till := Float64.double (7 # 10);
              step := Float64.double (1 # 10);
              step_label := "Step Size (fs)"; random := false;
              use_file := "" |} in
  let s' := {| mode := 0; from := 0; till := Float64.double (6 # 10);
               step := Float64.double (1 # 10);
               step_label := "Step Size (fs)"; random := false;
               use_file := "" |} in
  let pts' := map Float64.double
                  [0; 12 # 100; 24 # 100; 36 # 100; 48 # 100; 6 # 10] in
  Z.max 2 (Qfloor (Qabs ((7 # 10) - 0) / Qabs (1 # 10)) + 1) = 8%Z
  /\ linear_count (from s) (till s) (step s) = Ok 7%Z
  /\ fadd (fmul (float_of_int (7 - 1)) (Some (step s))) (Some (from s))
     = Some (Float64.double (6000000000000001 # 10000000000000000))
  /\ onAxisRangeChange pow10_log10 s = Ok s'
  /\ linear_count (from s') (till s') (step s') = Ok 6%Z
  /\ prepareScanPoints logspace loadtxt rnd s' = Ok pts'
  /\ nth 1 pts' 0 - nth 0 pts' 0 == Float64.double (12 # 100)
  /\ 1 # 100 < Qabs (nth 1 pts' 0 - nth 0 pts' 0 - step s').
Proof.
  intros s s' pts'.
  repeat split; vm_compute; reflexivity.
Qed.

End LinearScan.

Lemma linear_scan_endpoints_witness :
  exists N : Z,
    FSRSutils.linear_count 0 20 10 = Ok N
    /\ (2 <= N)%Z
    /\ List.length [0; 10; 20]%Q = Z.to_nat N
    /\ Float64.fl 0 = Some (hd 0%Q [0; 10; 20]%Q)
    /\ last [0; 10; 20]%Q 0%Q = 20%Q.
Proof.
  apply (linear_scan_endpoints (fun _ _ _ => []) (fun _ => []) (fun _ => O)
           {| FSRSutils.mode := 0; FSRSutils.from := 0; FSRSutils.till := 20;
              FSRSutils.step := 10; FSRSutils.step_label := "Step Size (fs)";
              FSRSutils.random := false; FSRSutils.use_file := "" |}
           [0; 10; 20]%Q); reflexivity.
Defined.

(** ** Property values *)

Section PropertyValues.
Import ModProp.

Lemma not_val_and_val_false (val : PyVal) : not_val_and_val val = false.
Proof.
  unfold not_val_and_val. destruct (truthy val); reflexivity.
Qed.

(** C6, as the code has it: [setValue] raises exactly when the type is
    'choice' and the value is a non-zero index outside
    [0, len(choices)), or the type is 'checkbox' or 'toggle' and the
    value is neither 0 nor 1, or the type is 'progress' and the value
    is outside [0, 100], or the type is 'spin' and [int(val)] fails;
    otherwise the value is stored (as [int(val)] for a spin) and
    nothing is raised. *)
Theorem setValue_rejects (p : t) (val : PyVal) :
  (rejects p val = true <-> raises (setValue p val))
  /\ (rejects p val = false <->
      setValue p val = Ok (with_value p (stored p val))).
Proof.
  unfold rejects, stored, setValue, raises, boolean_like, in_0_100,
    int_coercible, index_in_range, ge_int.
  rewrite not_val_and_val_false.
  destruct (type p); simpl;
    try (split; split; [discriminate | intros [e He]; discriminate
                       | reflexivity | reflexivity]).
  - (* choice *)
    destruct (eq_int val 0); simpl;
      [split; split; [discriminate | intros [e He]; discriminate
                     | reflexivity | reflexivity]|].
    destruct (lt_int val 0); simpl;
      [split; split; [intros _; eexists; reflexivity | reflexivity
                     | discriminate | discriminate]|].
    destruct (lt_int val (Z.of_nat (List.length (choices p)))); simpl;
      split; split;
      first [discriminate | reflexivity | intros [e He]; discriminate
            | intros _; eexists; reflexivity].
  - (* checkbox *)
    destruct (eq_int val 0), (eq_int val 1); simpl; split; split;
      first [discriminate | reflexivity | intros [e He]; discriminate
            | intros _; eexists; reflexivity].
  - (* toggle *)
    destruct (eq_int val 0), (eq_int val 1); simpl; split; split;
      first [discriminate | reflexivity | intros [e He]; discriminate
            | intros _; eexists; reflexivity].
  - (* progress *)
    destruct (lt_int val 0), (gt_int val 100); simpl; split; split;
      first [discriminate | reflexivity | intros [e He]; discriminate
            | intros _; eexists; reflexivity].
  - (* spin *)
    destruct (py_int val); simpl; split; split;
      first [discriminate | reflexivity | intros [e He]; discriminate
            | intros _; eexists; reflexivity].
Qed.

(** C6 as stated fails: index 0 of a choice property with no choices
    lies outside [0, 0), and [setValue] stores it without an error. *)
Lemma setValue_choice_zero_accepted :
  ~ (forall (p : t) (val : PyVal),
        spec_invalid p val = true <-> raises (setValue p val)).
Proof.
  intro H.
  destruct (H {| plabel := "Camera"; type := choice; value := PyInt 0;
                 choices := [] |} (PyInt 0)) as [H1 _].
  destruct (H1 eq_refl) as [e He]. discriminate He.
Qed.

End PropertyValues.

(** ** One scan thread per experiment *)

Section ScanThreadHandle.
Import Experiment.
Context {Args : Type}.
Implicit Types (s : Experiment.t Args) (l : list (Thread Args)).

Lemma map_thread_length (f : Thread Args -> Thread Args) (h : nat) l :
  List.length (map_thread Args f h l) = List.length l.
Proof.
  unfold map_thread. destruct (nth_error l h); [|reflexivity].
  apply upd_length.
Qed.

Lemma nth_error_upd {A} (l : list A) (i j : nat) (x : A) :
  nth_error (FSRSutils.upd l i x) j
  = if (Nat.eqb i j && (i <? List.length l)%nat)%bool then Some x
    else nth_error l j.
Proof.
  revert i j. induction l as [|a l IH]; intros i j.
  - unfold Nat.ltb. simpl. rewrite andb_false_r.
    destruct i, j; reflexivity.
  - destruct i, j; simpl; try reflexivity.
    rewrite IH. reflexivity.
Qed.

(** Touching a thread never brings one back to life. *)
Lemma map_thread_alive (f : Thread Args -> Thread Args) (h j : nat) l :
  (forall th, alive (f th) = true -> alive th = true) ->
  match nth_error (map_thread Args f h l) j with
  | Some th => alive th
  | None => false
  end = true ->
  match nth_error l j with Some th => alive th | None => false end = true.
Proof.
  intros Hf. unfold map_thread.
  destruct (nth_error l h) as [th|] eqn:Eh; [|auto].
  rewrite nth_error_upd.
  destruct (Nat.eqb h j) eqn:Ehj; simpl; [|auto].
  apply Nat.eqb_eq in Ehj. subst j.
  destruct (h <? List.length l)%nat; [|auto].
  rewrite Eh. apply Hf.
Qed.

Lemma set_canQuit_alive (th : Thread Args) :
  alive (set_canQuit Args th) = true -> alive th = true.
Proof. exact (fun H => H). Qed.

Lemma terminated_alive (th : Thread Args) :
  alive (terminated Args th) = true -> alive th = true.
Proof. discriminate. Qed.

Lemma map_thread_terminated_dead (h : nat) l :
  match nth_error (map_thread Args (terminated Args) h l) h with
  | Some th => alive th
  | None => false
  end = false.
Proof.
  unfold map_thread. destruct (nth_error l h) as [th|] eqn:Eh.
  - rewrite nth_error_upd, Nat.eqb_refl.
    assert (Hlt : (h <? List.length l)%nat = true).
    { apply Nat.ltb_lt. apply nth_error_Some. congruence. }
    rewrite Hlt. reflexivity.
  - rewrite Eh. reflexivity.
Qed.

Ltac dead_or_alive :=
  repeat match goal with
    | H : match nth_error (map_thread _ _ _ _) _ with _ => _ end = true |- _ =>
        apply map_thread_alive in H;
        [| first [exact set_canQuit_alive | exact terminated_alive]]
    end.

Ltac by_ownership Inv :=
  first
    [ now apply Inv
    | match goal with
      | E : scanThread _ = _ |- _ => rewrite <- E; now apply Inv
      end ].

Lemma exec_keeps_ownership s (o : Op Args) :
  handle_owns_alive s -> handle_owns_alive (exec s o).
Proof.
  intros Inv j. destruct o as [argv| | | |yes| |h]; simpl.
  - (* start *)
    unfold start. destruct (scanThread s) as [h|] eqn:Eh.
    + intro Hj. by_ownership Inv.
    + destruct (start_button s); unfold is_alive; simpl;
        intro Hj;
        (destruct (Nat.lt_ge_cases j (List.length (threads s))) as [Hlt | Hge];
         [ rewrite nth_error_app1 in Hj by exact Hlt;
           specialize (Inv j Hj); congruence
         | rewrite nth_error_app2 in Hj by exact Hge;
           destruct (j - List.length (threads s))%nat as [|k] eqn:Ek;
           [ f_equal; lia | destruct k; discriminate Hj ] ]).
  - (* stop *)
    unfold stop. destruct (scanThread s) as [h|] eqn:Eh.
    + unfold is_alive; simpl. intro Hj. dead_or_alive. by_ownership Inv.
    + intro Hj. by_ownership Inv.
  - (* onStarted *)
    unfold onStarted, is_alive; simpl. apply Inv.
  - (* onFinished *)
    unfold onFinished. destruct (scanThread s) as [h|] eqn:Eh.
    + destruct (is_alive s h) eqn:Ea; unfold is_alive; simpl; intro Hj.
      * destruct (Nat.eq_dec j h) as [-> | Hne].
        -- rewrite map_thread_terminated_dead in Hj. discriminate.
        -- dead_or_alive. specialize (Inv j Hj). congruence.
      * by_ownership Inv.
    + unfold is_alive; simpl. intro Hj. by_ownership Inv.
  - (* canQuit *)
    unfold canQuit. destruct (scanThread s) as [h|] eqn:Eh.
    + destruct (is_alive s h) eqn:Ea; [destruct yes|]; simpl.
      * unfold is_alive; simpl. intro Hj. dead_or_alive. by_ownership Inv.
      * intro Hj. by_ownership Inv.
      * intro Hj. by_ownership Inv.
    + simpl. intro Hj. by_ownership Inv.
  - (* shutdown *)
    unfold shutdown. destruct (scanThread s) as [h|] eqn:Eh.
    + destruct (is_alive s h) eqn:Ea.
      * unfold is_alive; simpl. intro Hj. dead_or_alive. by_ownership Inv.
      * intro Hj. by_ownership Inv.
    + intro Hj. by_ownership Inv.
  - (* a thread leaves run *)
    unfold thread_exit, is_alive; simpl. intro Hj. dead_or_alive.
    apply Inv. exact Hj.
Qed.

Lemma run_keeps_ownership (ops : list (Op Args)) s :
  handle_owns_alive s -> handle_owns_alive (run s ops).
Proof.
  revert s. induction ops as [|o ops IH]; intros s Inv; simpl; [exact Inv|].
  apply IH. apply exec_keeps_ownership. exact Inv.
Qed.

Lemma at_most_one_alive l :
  (forall i j,
      match nth_error l i with Some th => alive th | None => false end = true ->
      match nth_error l j with Some th => alive th | None => false end = true ->
      i = j) ->
  (List.length (filter alive l) <= 1)%nat.
Proof.
  induction l as [|th l IH]; intro H; simpl; [lia|].
  destruct (alive th) eqn:Ea.
  - assert (Hnil : filter alive l = []).
    { destruct (filter alive l) as [|x r] eqn:Ef; [reflexivity|].
      assert (Hin : In x (filter alive l)) by (rewrite Ef; left; reflexivity).
      apply filter_In in Hin. destruct Hin as [Hin Hx].
      apply In_nth_error in Hin. destruct Hin as [k Hk].
      specialize (H O (S k)). simpl in H. rewrite Hk in H.
      specialize (H Ea Hx). discriminate. }
    rewrite Hnil. simpl. lia.
  - apply IH. intros i j Hi Hj.
    specialize (H (S i) (S j) Hi Hj). lia.
Qed.

Lemma reachable_one_alive (button : option string) (ops : list (Op Args)) :
  (alive_count (run (init button) ops) <= 1)%nat.
Proof.
  assert (Inv : handle_owns_alive (run (init button) ops)).
  { apply run_keeps_ownership. intros j Hj.
    unfold is_alive, init in Hj. simpl in Hj. destruct j; discriminate. }
  unfold alive_count. apply at_most_one_alive. intros i j Hi Hj.
  pose proof (Inv i Hi) as E1. pose proof (Inv j Hj) as E2. congruence.
Qed.

(** C2: when [scanThread] is not [None], [Experiment.start] returns
    the module as it was: no thread object is created and the handle
    is kept; and in every state an experiment module can reach from
    its creation, by any sequence of start, stop, the thread's
    notifications, quit requests, shutdown and threads leaving [run],
    at most one thread is alive. *)
Theorem start_spawns_no_second_task
    s (argv : Args) (button : option string) (ops : list (Op Args)) :
  scanThread s <> None ->
  start s argv = s
  /\ threads (start s argv) = threads s
  /\ scanThread (start s argv) = scanThread s
  /\ (alive_count (run (init button) ops) <= 1)%nat.
Proof.
  intro H.
  assert (E : start s argv = s).
  { unfold start. destruct (scanThread s); [reflexivity | contradiction]. }
  rewrite E. repeat split. apply reachable_one_alive.
Qed.

Lemma is_alive_map_thread_false (f : Thread Args -> Thread Args) (h j : nat) s :
  (forall th, alive (f th) = true -> alive th = true) ->
  is_alive s h = false ->
  match nth_error (map_thread Args f j (threads s)) h with
  | Some th => alive th
  | None => false
  end = false.
Proof.
  intros Hf Hd.
  destruct (match nth_error (map_thread Args f j (threads s)) h with
            | Some th => alive th | None => false end) eqn:E; [|reflexivity].
  apply map_thread_alive in E; [|exact Hf].
  unfold is_alive in Hd. congruence.
Qed.

Lemma exec_keeps_stale s (h n : nat) (o : Op Args) :
  stale s h n -> stale (exec s o) h n.
Proof.
  intros [Hh [Hd Hn]]. destruct o as [argv| | | |yes| |j]; simpl.
  - unfold start. rewrite Hh. repeat split; assumption.
  - unfold stop. rewrite Hh. unfold stale, is_alive. simpl.
    rewrite map_thread_length.
    repeat split; try assumption.
    apply (is_alive_map_thread_false _ h h s);
      [exact set_canQuit_alive | exact Hd].
  - unfold onStarted, stale, is_alive. simpl. repeat split; assumption.
  - unfold onFinished. rewrite Hh, Hd. unfold stale, is_alive. simpl.
    repeat split; assumption.
  - unfold canQuit. rewrite Hh, Hd. simpl. repeat split; assumption.
  - unfold shutdown. rewrite Hh, Hd. repeat split; assumption.
  - unfold thread_exit, stale, is_alive. simpl.
    rewrite map_thread_length. repeat split; try assumption.
    apply (is_alive_map_thread_false _ h j s);
      [exact terminated_alive | exact Hd].
Qed.

Lemma run_keeps_stale (ops : list (Op Args)) s (h n : nat) :
  stale s h n -> stale (run s ops) h n.
Proof.
  revert s. induction ops as [|o ops IH]; intros s Hs; simpl; [exact Hs|].
  apply IH. apply exec_keeps_stale. exact Hs.
Qed.

(** C9: when [onFinished] runs after the scan thread has terminated,
    the handle [scanThread] stays; whatever happens to the module
    afterwards, the handle is still there, no thread object has been
    added, and a call of [start] returns the module unchanged. *)
Theorem stale_handle_blocks_start
    s (h : nat) (ops : list (Op Args)) (argv : Args) :
  scanThread s = Some h ->
  is_alive s h = false ->
  scanThread (onFinished s) = Some h
  /\ let s' := run (onFinished s) ops in
     scanThread s' = Some h
     /\ List.length (threads s') = List.length (threads s)
     /\ start s' argv = s'.
Proof.
  intros Hh Hd.
  assert (Hs : stale (onFinished s) h (List.length (threads s))).
  { unfold onFinished. rewrite Hh, Hd. unfold stale, is_alive. simpl.
    repeat split; assumption. }
  split; [apply Hs|].
  destruct (run_keeps_stale ops _ _ _ Hs) as [Hh' [_ Hn']].
  simpl. repeat split; try assumption.
  unfold start. rewrite Hh'. reflexivity.
Qed.

End ScanThreadHandle.

Lemma start_spawns_no_second_task_witness :
  let s := Experiment.start (Experiment.init (Some "Scan"%string)) tt in
  let ops := [Experiment.OpStart tt; Experiment.OpOnStarted; Experiment.OpStart tt] in
  Experiment.scanThread s = Some O
  /\ Experiment.start s tt = s
  /\ Experiment.threads (Experiment.start s tt) = Experiment.threads s
  /\ Experiment.scanThread (Experiment.start s tt) = Experiment.scanThread s
  /\ (Experiment.alive_count
        (Experiment.run (Experiment.init (Some "Scan"%string)) ops) <= 1)%nat.
Proof.
  intros s ops. split; [reflexivity|].
  apply (start_spawns_no_second_task s tt (Some "Scan"%string) ops).
  discriminate.
Defined.

Lemma stale_handle_blocks_start_witness :
  let s := Experiment.thread_exit
             (Experiment.start (Experiment.init (Some "Scan"%string)) tt) 0 in
  let ops := [Experiment.OpStart tt; Experiment.OpOnFinished; Experiment.OpStart tt] in
  Experiment.scanThread (Experiment.onFinished s) = Some O
  /\ let s' := Experiment.run (Experiment.onFinished s) ops in
     Experiment.scanThread s' = Some O
     /\ List.length (Experiment.threads s') = List.length (Experiment.threads s)
     /\ Experiment.start s' tt = s'.
Proof.
  intros s ops.
  apply (stale_handle_blocks_start s O ops tt); reflexivity.
Defined.

(** ** The running mean *)

Section RunningMean.
Import FSRSAcquire.
Local Open Scope Q_scope.

Variable neg_log : Q -> Q.
Variable neg_log10 : Q -> Q.

Lemma zipWith_length {A B C} (f : A -> B -> C) (a : list A) (b : list B) :
  List.length (zipWith f a b) = Nat.min (List.length a) (List.length b).
Proof.
  revert b. induction a as [|x a IH]; intros [|y b]; simpl; auto.
Qed.

Lemma nth_zipWith {A B C} (f : A -> B -> C) (a : list A) (b : list B)
    (i : nat) (da : A) (db : B) (dc : C) :
  (i < List.length a)%nat -> (i < List.length b)%nat ->
  nth i (zipWith f a b) dc = f (nth i a da) (nth i b db).
Proof.
  revert b i. induction a as [|x a IH]; intros [|y b] [|i]; simpl;
    intros Ha Hb; try lia; [reflexivity|].
  apply IH; lia.
Qed.

Lemma cell_update (w : nat) (d x : Array) (q : Q) (r c : nat) :
  shaped w d -> shaped w x -> (r < 3)%nat -> (c < w)%nat ->
  cell (arr_add d (arr_div (arr_sub x d) q)) r c
  = cell d r c + (cell x r c - cell d r c) / q.
Proof.
  intros [Ld Rd] [Lx Rx] Hr Hc. unfold cell, arr_add, arr_div, arr_sub.
  assert (Lsub : List.length (zipWith (zipWith Qminus) x d) = 3%nat)
    by (rewrite zipWith_length, Ld, Lx; reflexivity).
  assert (Esub : nth r (zipWith (zipWith Qminus) x d) []
                 = zipWith Qminus (nth r x []) (nth r d []))
    by (apply nth_zipWith; lia).
  assert (Ediv : nth r (map (map (fun y => y / q)) (zipWith (zipWith Qminus) x d)) []
                 = map (fun y => y / q) (zipWith Qminus (nth r x []) (nth r d []))).
  { rewrite <- Esub.
    rewrite (nth_indep _ [] (map (fun y => y / q) []))
      by (rewrite length_map; lia).
    apply (map_nth (map (fun y => y / q))). }
  rewrite (nth_zipWith _ _ _ r [] [] []) by (rewrite ?length_map; lia).
  rewrite Ediv.
  assert (Lrow : List.length (zipWith Qminus (nth r x []) (nth r d [])) = w)
    by (rewrite zipWith_length, Rd, Rx by lia; apply Nat.min_id).
  rewrite (nth_zipWith _ _ _ c 0 0 0)
    by (rewrite ?length_map, ?Rd, ?Lrow by lia; lia).
  f_equal.
  rewrite (nth_indep _ 0 ((fun y => y / q) 0)) by (rewrite length_map; lia).
  rewrite (map_nth (fun y => y / q)).
  f_equal. apply nth_zipWith; rewrite ?Rd, ?Rx by lia; lia.
Qed.

Lemma update_shaped (w : nat) (d x : Array) (q : Q) :
  shaped w d -> shaped w x ->
  shaped w (arr_add d (arr_div (arr_sub x d) q)).
Proof.
  intros [Ld Rd] [Lx Rx]. unfold arr_add, arr_div, arr_sub.
  assert (Lsub : List.length (zipWith (zipWith Qminus) x d) = 3%nat)
    by (rewrite zipWith_length, Ld, Lx; reflexivity).
  split.
  - rewrite zipWith_length, length_map, Ld, Lsub. reflexivity.
  - intros r Hr.
    rewrite (nth_zipWith _ _ _ r [] [] []) by (rewrite ?length_map; lia).
    rewrite zipWith_length, (Rd r Hr).
    rewrite (nth_indep _ [] (map (fun y => y / q) []))
      by (rewrite length_map; lia).
    rewrite (map_nth (map (fun y => y / q))), length_map.
    rewrite (nth_zipWith _ _ _ r [] [] []) by lia.
    rewrite zipWith_length, (Rd r Hr), (Rx r Hr).
    rewrite !Nat.min_id. reflexivity.
Qed.

Lemma transform_length (m : Z) (A : list Q) :
  List.length (transform neg_log neg_log10 m A) = List.length A.
Proof.
  unfold transform. destruct (m =? 0)%Z; [apply length_map|].
  destruct (m =? 1)%Z; [apply length_map | reflexivity].
Qed.

Lemma result_shaped (w : nat) (m : Z) (v : list Q * list Q * list Q) :
  frame_width w v -> shaped w (result_of neg_log neg_log10 m v).
Proof.
  destruct v as [[A B] C]. intros [HA [HB HC]]. split; [reflexivity|].
  intros [|[|[|r]]] Hr; simpl; rewrite ?transform_length; auto; lia.
Qed.

Lemma setValue_progress (p : ModProp.t) (z : Z) :
  ModProp.type p = ModProp.progress -> (0 <= z <= 100)%Z ->
  ModProp.setValue p (PyInt z) = Ok (ModProp.with_value p (PyInt z)).
Proof.
  intros Ht [H0 H100]. unfold ModProp.setValue. rewrite Ht. simpl.
  unfold lt_int, gt_int. simpl.
  assert (E1 : Qltb (inject_Z z) (inject_Z 0) = false)
    by (apply Qltb_false; rewrite <- Zle_Qle; exact H0).
  assert (E2 : Qltb (inject_Z 100) (inject_Z z) = false)
    by (apply Qltb_false; rewrite <- Zle_Qle; exact H100).
  rewrite E1, E2. reflexivity.
Qed.

Lemma progress_in_range (n sets : Z) :
  (1 <= n <= sets)%Z -> (0 <= n * 100 / sets <= 100)%Z.
Proof.
  intros [H1 H2]. split.
  - apply Z.div_pos; lia.
  - apply Z.div_le_upper_bound; lia.
Qed.

(** One update: the new state, cell by cell. *)
Lemma onUpdate_step (w : nat) (s : t) (v : list Q * list Q * list Q) :
  ModProp.type (progress s) = ModProp.progress ->
  (0 <= N s)%Z -> (N s + 1 <= sets s)%Z ->
  frame_width w v ->
  ((1 <= N s)%Z -> shaped w (data s)) ->
  exists s',
    onUpdate neg_log neg_log10 s v = Ok s'
    /\ N s' = (N s + 1)%Z /\ mode s' = mode s /\ sets s' = sets s
    /\ ModProp.type (progress s') = ModProp.progress
    /\ shaped w (data s')
    /\ forall r c, (r < 3)%nat -> (c < w)%nat ->
         cell (data s') r c
         = if (N s + 1 =? 1)%Z
           then cell (result_of neg_log neg_log10 (mode s) v) r c
           else cell (data s) r c
                + (cell (result_of neg_log neg_log10 (mode s) v) r c
                   - cell (data s) r c) / inject_Z (N s + 1).
Proof.
  intros Ht Hn Hsets Hv Hd.
  pose proof (result_shaped w (mode s) v Hv) as Hx.
  unfold onUpdate. destruct v as [[A B] C].
  unfold floordiv.
  replace (sets s =? 0)%Z with false by (symmetry; apply Z.eqb_neq; lia).
  simpl bind.
  rewrite (setValue_progress _ _ Ht)
    by (apply progress_in_range; lia).
  simpl bind. eexists. split; [reflexivity|]. simpl.
  repeat (split; [first [reflexivity | exact Ht]|]).
  destruct (N s + 1 =? 1)%Z eqn:E1.
  - split; [exact Hx|]. intros; reflexivity.
  - apply Z.eqb_neq in E1. assert (Hd' : shaped w (data s)) by (apply Hd; lia).
    split; [apply update_shaped; assumption|].
    intros r c Hr Hc. apply (cell_update w); assumption.
Qed.

(** The invariant of the accumulator: count times mean is the sum. *)
Lemma onUpdates_total (w : nat) (vals : list (list Q * list Q * list Q)) :
  forall (s : t) (acc : nat -> nat -> Q),
    ModProp.type (progress s) = ModProp.progress ->
    (0 <= N s)%Z -> (N s + Z.of_nat (List.length vals) <= sets s)%Z ->
    Forall (frame_width w) vals ->
    ((1 <= N s)%Z -> shaped w (data s)) ->
    (forall r c, (r < 3)%nat -> (c < w)%nat ->
       inject_Z (N s) * cell (data s) r c == acc r c) ->
    exists s',
      onUpdates neg_log neg_log10 s vals = Ok s'
      /\ N s' = (N s + Z.of_nat (List.length vals))%Z
      /\ forall r c, (r < 3)%nat -> (c < w)%nat ->
           inject_Z (N s') * cell (data s') r c
           == acc r c
              + total (map (fun v => cell (result_of neg_log neg_log10 (mode s) v) r c)
                           vals).
Proof.
  induction vals as [|v vals IH]; intros s acc Ht Hn Hsets Hall Hd Hacc.
  - exists s. simpl. split; [reflexivity|]. split; [lia|].
    intros r c Hr Hc. rewrite (Hacc r c Hr Hc). unfold total. simpl. ring.
  - inversion Hall as [|v' vals' Hv Hrest]; subst.
    simpl List.length in Hsets.
    destruct (onUpdate_step w s v Ht Hn) as
      [s1 [E1 [HN1 [Hm1 [Hs1 [Ht1 [Hsh1 Hcell1]]]]]]];
      [lia | exact Hv | exact Hd |].
    destruct (IH s1
                (fun r c => acc r c
                   + cell (result_of neg_log neg_log10 (mode s) v) r c)
                Ht1) as [s' [E' [HN' Hsum']]].
    + lia.
    + rewrite HN1, Hs1. lia.
    + exact Hrest.
    + intros _. exact Hsh1.
    + intros r c Hr Hc. rewrite (Hcell1 r c Hr Hc), HN1.
      rewrite <- (Hacc r c Hr Hc).
      destruct (N s + 1 =? 1)%Z eqn:E.
      * apply Z.eqb_eq in E. assert (E0 : N s = 0%Z) by lia.
        rewrite E0. simpl. ring.
      * rewrite inject_Z_plus. field.
        intro H0.
        assert (H1 : inject_Z (N s + 1) == inject_Z 0)
          by (rewrite inject_Z_plus; exact H0).
        rewrite inject_Z_injective in H1. lia.
    + exists s'. simpl onUpdates. rewrite E1. simpl bind.
      split; [exact E'|]. split; [rewrite HN', HN1; simpl List.length; lia|].
      intros r c Hr Hc. rewrite (Hsum' r c Hr Hc), Hm1.
      unfold total. simpl. ring.
Qed.

(** C4: started from an empty accumulator ([N] = 0), the updates with
    the per-set results x_1 .. x_n of one width (n at least 1 and at
    most the number of sets, so that the progress bar accepts its
    values) all succeed, leave [N] = n, and leave in every cell of
    [data] the arithmetic mean sum(x_i)/n of that cell over the results,
    exactly over the rationals. *)
Theorem running_mean_is_mean
    (w : nat) (s : t) (vals : list (list Q * list Q * list Q)) :
  N s = 0%Z ->
  ModProp.type (progress s) = ModProp.progress ->
  vals <> [] ->
  (Z.of_nat (List.length vals) <= sets s)%Z ->
  Forall (frame_width w) vals ->
  exists s',
    onUpdates neg_log neg_log10 s vals = Ok s'
    /\ N s' = Z.of_nat (List.length vals)
    /\ forall r c, (r < 3)%nat -> (c < w)%nat ->
         cell (data s') r c
         == mean (map (fun v => cell (result_of neg_log neg_log10 (mode s) v) r c)
                      vals).
Proof.
  intros HN Ht Hne Hsets Hall.
  destruct (onUpdates_total w vals s (fun _ _ => 0) Ht) as [s' [E [HN' Hsum]]].
  - lia.
  - lia.
  - exact Hall.
  - intro H. lia.
  - intros r c _ _. rewrite HN. ring.
  - exists s'. split; [exact E|]. split; [lia|].
    intros r c Hr Hc. specialize (Hsum r c Hr Hc).
    unfold mean. rewrite length_map. fold (total (map
      (fun v => cell (result_of neg_log neg_log10 (mode s) v) r c) vals)).
    rewrite HN', HN in Hsum. simpl Z.add in Hsum.
    rewrite Qplus_0_l in Hsum. rewrite <- Hsum.
    field. change 0 with (inject_Z 0). rewrite inject_Z_injective.
    destruct vals; [contradiction | simpl; lia].
Qed.

End RunningMean.

Lemma running_mean_is_mean_witness :
  let s := {| FSRSAcquire.N := 0; FSRSAcquire.data := [];
              FSRSAcquire.intdata := []; FSRSAcquire.mode := 2;
              FSRSAcquire.sets := 2;
              FSRSAcquire.progress :=
                {| ModProp.plabel := "Progress"; ModProp.type := ModProp.progress;
                   ModProp.value := PyInt 0; ModProp.choices := [] |} |} in
  let vals := [([1%Q], [2%Q], [3%Q]); ([3%Q], [4%Q], [6%Q])] in
  exists s',
    FSRSAcquire.onUpdates (fun x => x) (fun x => x) s vals = Ok s'
    /\ FSRSAcquire.N s' = 2
    /\ forall r c, (r < 3)%nat -> (c < 1)%nat ->
         (FSRSAcquire.cell (FSRSAcquire.data s') r c
          == FSRSAcquire.mean
               (map (fun v => FSRSAcquire.cell
                                (FSRSAcquire.result_of (fun x => x) (fun x => x) 2 v) r c)
                    vals))%Q.
Proof.
  intros s vals.
  apply (running_mean_is_mean (fun x => x) (fun x => x) 1 s vals).
  - reflexivity.
  - reflexivity.
  - discriminate.
  - simpl. lia.
  - repeat constructor.
Defined.

(** ** Reading frames from the camera *)

Section CameraRead.
Import PIXIS100.

Variable w : nat.
Variable cam_readNFrames : nat -> nat -> list (list Frame).
Variable flip : bool.

(** [data[p::2]] keeps the frames whose position is [p] or exceeds it
    by an even number; [s] is the number of the first frame. *)
Lemma every_other_index (l : list Frame) :
  forall (s p : nat),
    every_other p l
    = map snd
        (filter (fun jf => ((s + p <=? fst jf) && Nat.even (fst jf - (s + p)))%nat)
                (combine (seq s (List.length l)) l)).
Proof.
  induction l as [|x l IH]; intros s p; [reflexivity|].
  simpl List.length. simpl seq. simpl combine. simpl filter. simpl fst.
  destruct p as [|p]; simpl every_other.
  - replace ((s + 0 <=? s)%nat) with true by (symmetry; apply Nat.leb_le; lia).
    replace ((s - (s + 0))%nat) with 0%nat by lia. simpl.
    f_equal. rewrite (IH (S s) 1%nat). f_equal.
    apply filter_ext_in. intros [j f] Hin. simpl fst.
    apply in_combine_l in Hin. apply in_seq in Hin.
    destruct (Nat.eq_dec j (S s)) as [->|Hj].
    + replace ((S s - (s + 0))%nat) with 1%nat by lia.
      replace ((S s + 1 <=? S s)%nat) with false
        by (symmetry; apply Nat.leb_gt; lia).
      rewrite andb_false_r. reflexivity.
    + replace ((j - (s + 0))%nat) with (S (S (j - (S s + 1))))%nat by lia.
      replace ((S s + 1 <=? j)%nat) with true by (symmetry; apply Nat.leb_le; lia).
      replace ((s + 0 <=? j)%nat) with true by (symmetry; apply Nat.leb_le; lia).
      reflexivity.
  - replace ((s + S p <=? s)%nat) with false by (symmetry; apply Nat.leb_gt; lia).
    simpl. rewrite (IH (S s) p). f_equal.
    apply filter_ext. intros [j f]. simpl fst.
    replace (S s + p)%nat with (s + S p)%nat by lia. reflexivity.
Qed.

Lemma filter_skipn {A : Type} (P : nat * A -> bool) (m : nat) :
  forall (l : list A) (s : nat),
    (forall j a, (j < s + m)%nat -> P (j, a) = false) ->
    filter P (combine (seq s (List.length l)) l)
    = filter P (combine (seq (s + m) (List.length (skipn m l))) (skipn m l)).
Proof.
  induction m as [|m IH]; intros l s HP.
  - rewrite Nat.add_0_r. reflexivity.
  - destruct l as [|x l]; [reflexivity|].
    simpl List.length. simpl seq. simpl combine. simpl filter.
    rewrite (HP s x) by lia. simpl skipn.
    rewrite (IH l (S s)).
    + replace (S s + m)%nat with (s + S m)%nat by lia. reflexivity.
    + intros j a Hj. apply HP. lia.
Qed.

(** Dropping the 20 settle frames and slicing with step 2 selects the
    frames of one parity. *)
Lemma every_other_parity (p : nat) (roi : list Frame) :
  every_other p (skipn 20 roi) = parity_frames p roi.
Proof.
  unfold parity_frames.
  rewrite (filter_skipn _ 20 roi 0).
  - rewrite (every_other_index (skipn 20 roi) 20 p). reflexivity.
  - intros j a Hj. simpl fst.
    replace ((20 + p <=? j)%nat) with false by (symmetry; apply Nat.leb_gt; lia).
    reflexivity.
Qed.

Lemma nth_map_seq {A : Type} (g : nat -> A) (d : A) (n i : nat) :
  (i < n)%nat -> nth i (map g (seq 0 n)) d = g i.
Proof.
  intro Hi.
  rewrite (nth_indep _ d (g 0%nat)) by (rewrite length_map, length_seq; exact Hi).
  rewrite (map_nth g). rewrite seq_nth by exact Hi. reflexivity.
Qed.

Lemma nanmean_length (rows : list Frame) : List.length (nanmean w rows) = w.
Proof. unfold nanmean. rewrite length_map, length_seq. reflexivity. Qed.

(** The flipped mean at pixel [c] is the mean of pixel [w - 1 - c]. *)
Lemma nth_rev_nanmean (rows : list Frame) (c : nat) :
  (c < w)%nat ->
  nth c (rev (nanmean w rows)) NaN = pixel_mean (w - 1 - c) rows.
Proof.
  intro Hc. rewrite rev_nth by (rewrite nanmean_length; exact Hc).
  rewrite nanmean_length. unfold nanmean.
  rewrite nth_map_seq by lia.
  replace (w - S c)%nat with (w - 1 - c)%nat by lia.
  reflexivity.
Qed.

Lemma split_average_rows (frames : list Frame) (C A B : Row) :
  split_average w flip frames = (C, A, B) ->
  List.length C = w /\ List.length A = w /\ List.length B = w
  /\ forall c, (c < w)%nat ->
       nth c A NaN = pixel_mean (w - 1 - c)
                       (every_other (int_of_bool (negb flip)) frames)
       /\ nth c B NaN = pixel_mean (w - 1 - c)
                          (every_other (int_of_bool flip) frames)
       /\ nth c C NaN = nan_to_num (np_divide (nth c A NaN) (nth c B NaN)).
Proof.
  unfold split_average. intro H. injection H as <- <- <-.
  assert (LA : forall k, List.length (rev (nanmean w k)) = w)
    by (intro k; rewrite length_rev; apply nanmean_length).
  repeat split.
  - rewrite length_map, zipWith_length, !LA. apply Nat.min_id.
  - apply LA.
  - apply LA.
  - apply nth_rev_nanmean; assumption.
  - apply nth_rev_nanmean; assumption.
  - rewrite (nth_indep _ NaN (nan_to_num NaN))
      by (rewrite length_map, zipWith_length, !LA, Nat.min_id; assumption).
    rewrite map_nth. f_equal.
    apply nth_zipWith; rewrite LA; assumption.
Qed.

Lemma attempt_data_full (n i : nat) :
  attempt_data cam_readNFrames n i
  = if full cam_readNFrames n i
    then Some (skipn 20 (burst cam_readNFrames n i)) else None.
Proof.
  unfold attempt_data, full, burst.
  destruct (cam_readNFrames i (n + 20)%nat) as [|roi rest]; simpl hd.
  - replace ((n + 20 <=? List.length (@nil Frame))%nat) with false
      by (symmetry; apply Nat.leb_gt; simpl; lia).
    reflexivity.
  - reflexivity.
Qed.

Lemma ones_rows (C A B : Row) :
  (C, A, B) = ones w ->
  List.length C = w /\ List.length A = w /\ List.length B = w.
Proof.
  unfold ones. intro H. injection H as -> -> ->.
  rewrite repeat_length. repeat split.
Qed.

Lemma read_loop_contract (n : nat) (canQuit : option Flag.t) :
  forall (left attempt fuel : nat) (st : State),
    (attempt + left = 5)%nat -> (left < fuel)%nat ->
    exists (C A B : Row) (st' : State),
      read_loop w cam_readNFrames flip fuel n canQuit attempt st
      = Some ((C, A, B), st')
      /\ (List.length C = w /\ List.length A = w /\ List.length B = w)
      /\ (forall (f : Flag.t) (k : nat),
            canQuit = Some f -> (k <= left)%nat ->
            (forall i, (i < k)%nat ->
               full cam_readNFrames n (reads st + i) = false) ->
            Flag.isSet f (polls st + k) = true ->
            (C, A, B) = ones w)
      /\ ((forall i, (i < left)%nat ->
             full cam_readNFrames n (reads st + i) = false) ->
          (C, A, B) = ones w)
      /\ (forall k : nat,
            (k < left)%nat ->
            (forall i, (i < k)%nat ->
               full cam_readNFrames n (reads st + i) = false) ->
            full cam_readNFrames n (reads st + k) = true ->
            (forall (f : Flag.t) (i : nat),
               canQuit = Some f -> (i <= k)%nat ->
               Flag.isSet f (polls st + i) = false) ->
            reads st' = (reads st + S k)%nat
            /\ forall c, (c < w)%nat ->
                 nth c A NaN
                 = pixel_mean (w - 1 - c)
                     (parity_frames (int_of_bool (negb flip))
                        (burst cam_readNFrames n (reads st + k)))
                 /\ nth c B NaN
                    = pixel_mean (w - 1 - c)
                        (parity_frames (int_of_bool flip)
                           (burst cam_readNFrames n (reads st + k)))
                 /\ nth c C NaN
                    = nan_to_num (np_divide (nth c A NaN) (nth c B NaN))).
Proof.
  induction left as [|left IH]; intros attempt fuel st Ha Hfuel;
    (destruct fuel as [|fuel]; [lia|]); simpl read_loop.
  - (* the sixth attempt *)
    assert (E : (5 <? S attempt)%nat = true) by (apply Nat.ltb_lt; lia).
    rewrite E.
    assert (Hones : forall st0 : State,
               exists (C A B : Row) (st' : State),
                 Some (ones w, st0) = Some ((C, A, B), st')
                 /\ (C, A, B) = ones w).
    { intro st0. unfold ones. do 4 eexists. split; reflexivity. }
    assert (Hdone : forall r : option (Triple * State),
               (exists st0, r = Some (ones w, st0)) ->
               exists (C A B : Row) (st' : State),
                 r = Some ((C, A, B), st') /\ (C, A, B) = ones w).
    { intros r [st0 ->]. apply Hones. }
    match goal with
    | |- exists C A B st', ?r = _ /\ _ =>
        destruct (Hdone r) as [C [A [B [st' [Er Eo]]]]]
    end.
    { destruct canQuit as [f|]; [destruct (Flag.isSet f (polls st))|];
        eexists; reflexivity. }
    exists C, A, B, st'. split; [exact Er|].
    split; [apply ones_rows; exact Eo|].
    split; [intros; exact Eo|]. split; [intros; exact Eo|].
    intros k Hk. lia.
  - assert (E : (5 <? S attempt)%nat = false) by (apply Nat.ltb_ge; lia).
    rewrite E. rewrite attempt_data_full.
    (* what follows the poll *)
    assert (Hstep : forall st1 : State,
      reads st1 = S (reads st) ->
      (forall f, canQuit = Some f ->
         Flag.isSet f (polls st) = false /\ polls st1 = S (polls st)) ->
      exists (C A B : Row) (st' : State),
        (if full cam_readNFrames n (reads st)
         then Some (split_average w flip
                      (skipn 20 (burst cam_readNFrames n (reads st))), st1)
         else read_loop w cam_readNFrames flip fuel n canQuit (S attempt) st1)
        = Some ((C, A, B), st')
        /\ (List.length C = w /\ List.length A = w /\ List.length B = w)
        /\ (forall (f : Flag.t) (k : nat),
              canQuit = Some f -> (k <= S left)%nat ->
              (forall i, (i < k)%nat ->
                 full cam_readNFrames n (reads st + i) = false) ->
              Flag.isSet f (polls st + k) = true ->
              (C, A, B) = ones w)
        /\ ((forall i, (i < S left)%nat ->
               full cam_readNFrames n (reads st + i) = false) ->
            (C, A, B) = ones w)
        /\ (forall k : nat,
              (k < S left)%nat ->
              (forall i, (i < k)%nat ->
                 full cam_readNFrames n (reads st + i) = false) ->
              full cam_readNFrames n (reads st + k) = true ->
              (forall (f : Flag.t) (i : nat),
                 canQuit = Some f -> (i <= k)%nat ->
                 Flag.isSet f (polls st + i) = false) ->
              reads st' = (reads st + S k)%nat
              /\ forall c, (c < w)%nat ->
                   nth c A NaN
                   = pixel_mean (w - 1 - c)
                       (parity_frames (int_of_bool (negb flip))
                          (burst cam_readNFrames n (reads st + k)))
                   /\ nth c B NaN
                      = pixel_mean (w - 1 - c)
                          (parity_frames (int_of_bool flip)
                             (burst cam_readNFrames n (reads st + k)))
                   /\ nth c C NaN
                      = nan_to_num (np_divide (nth c A NaN) (nth c B NaN)))).
    { intros st1 Hr Hp.
      destruct (full cam_readNFrames n (reads st)) eqn:Ef.
      - (* a full burst *)
        destruct (split_average w flip
                    (skipn 20 (burst cam_readNFrames n (reads st))))
          as [[C A] B] eqn:Es.
        destruct (split_average_rows _ C A B Es) as [LC [LA [LB Hpix]]].
        exists C, A, B, st1. split; [reflexivity|].
        split; [repeat split; assumption|].
        split.
        { intros f k Hf Hk Hnot Hset. destruct k as [|k].
          - rewrite Nat.add_0_r in Hset.
            destruct (Hp f Hf) as [Hq _]. congruence.
          - specialize (Hnot 0%nat ltac:(lia)).
            rewrite Nat.add_0_r in Hnot. congruence. }
        split.
        { intro Hnot. specialize (Hnot 0%nat ltac:(lia)).
          rewrite Nat.add_0_r in Hnot. congruence. }
        intros k Hk Hnot Hfull Hq. destruct k as [|k].
        + rewrite Nat.add_0_r. split; [lia|].
          intros c Hc. destruct (Hpix c Hc) as [HA [HB HC]].
          rewrite <- !every_other_parity. repeat split; assumption.
        + specialize (Hnot 0%nat ltac:(lia)).
          rewrite Nat.add_0_r in Hnot. congruence.
      - (* an empty or short burst *)
        destruct (IH (S attempt) fuel st1 ltac:(lia) ltac:(lia))
          as [C [A [B [st' [Er [HL [Hc [Hn Hd]]]]]]]].
        exists C, A, B, st'. split; [exact Er|]. split; [exact HL|].
        split.
        { intros f k Hf Hk Hnot Hset. destruct k as [|k].
          - rewrite Nat.add_0_r in Hset.
            destruct (Hp f Hf) as [Hq _]. congruence.
          - apply (Hc f k Hf ltac:(lia)).
            + intros i Hi. rewrite Hr.
              replace (S (reads st) + i)%nat with (reads st + S i)%nat by lia.
              apply Hnot. lia.
            + destruct (Hp f Hf) as [_ Hp1]. rewrite Hp1.
              replace (S (polls st) + k)%nat with (polls st + S k)%nat by lia.
              exact Hset. }
        split.
        { intro Hnot. apply Hn. intros i Hi. rewrite Hr.
          replace (S (reads st) + i)%nat with (reads st + S i)%nat by lia.
          apply Hnot. lia. }
        intros k Hk Hnot Hfull Hq. destruct k as [|k].
        + rewrite Nat.add_0_r in Hfull. congruence.
        + replace (reads st + S k)%nat with (reads st1 + k)%nat
            in * by (rewrite Hr; lia).
          destruct (Hd k ltac:(lia)) as [Hreads Hpix].
          * intros i Hi. rewrite Hr.
            replace (S (reads st) + i)%nat with (reads st + S i)%nat by lia.
            apply Hnot. lia.
          * exact Hfull.
          * intros f i Hf Hi. destruct (Hp f Hf) as [_ Hp1]. rewrite Hp1.
            replace (S (polls st) + i)%nat with (polls st + S i)%nat by lia.
            apply (Hq f (S i) Hf). lia.
          * split; [rewrite Hreads, Hr; lia | exact Hpix]. }
    destruct canQuit as [f|] eqn:Eq.
    + destruct (Flag.isSet f (polls st)) eqn:Eset.
      * (* the token is found set *)
        exists (repeat (Value 1) w), (repeat (Value 1) w), (repeat (Value 1) w).
        eexists. split; [reflexivity|].
        split; [rewrite repeat_length; repeat split|].
        split; [intros; reflexivity|]. split; [intros; reflexivity|].
        intros k Hk Hnot Hfull Hq.
        specialize (Hq f 0%nat eq_refl ltac:(lia)).
        rewrite Nat.add_0_r in Hq. congruence.
      * pose proof (Hstep {| reads := S (reads st); polls := S (polls st) |}
                      eq_refl) as Hs.
        destruct (full cam_readNFrames n (reads st)); apply Hs;
          intros f' Hf'; injection Hf' as <-;
          (split; [exact Eset | reflexivity]).
    + pose proof (Hstep {| reads := S (reads st); polls := polls st |}
                    eq_refl) as Hs.
      destruct (full cam_readNFrames n (reads st)); apply Hs;
        intros f' Hf'; discriminate Hf'.
Qed.


End CameraRead.

(** ** The scan thread *)

Section ScanThread.
Import FSRSScan2.

Context {Val : Type}.
Variable axis_pos : list (Event Val) -> Q.
Variable ccd_readNframes : list (Event Val) -> Z -> Val.
Variable ccd_polls : list (Event Val) -> nat.
Variable ref_read : list (Event Val) -> Q.
Variable canQuit : Flag.t.
Variables type frames sets : Z.
Variable points : list Q.
Variable reference : option Reference.

Implicit Types (st : St Val) (e : Event Val).

(** *** Rules for sequencing *)

Lemma returns_seq {A B} (m : act Val A) (k : A -> act Val B) st
    (Q : B -> St Val -> Prop) :
  returns m st (fun a st1 => returns (k a) st1 Q) -> returns (seq_ m k) st Q.
Proof.
  intros [a [st1 [E [b [st2 [E2 HQ]]]]]]. exists b, st2.
  unfold seq_. rewrite E. split; assumption.
Qed.

Lemma returns_ret {A} (a : A) st (Q : A -> St Val -> Prop) :
  Q a st -> returns (ret a) st Q.
Proof. intro H. exists a, st. split; [reflexivity | exact H]. Qed.

Lemma returns_emit e st (Q : unit -> St Val -> Prop) :
  Q tt (push e st) -> returns (emit e) st Q.
Proof. intro H. exists tt, (push e st). split; [reflexivity | exact H]. Qed.

Lemma returns_lift {A} (r : Res A) (a : A) st (Q : A -> St Val -> Prop) :
  r = Ok a -> Q a st -> returns (lift r) st Q.
Proof. intros -> H. exists a, st. split; [reflexivity | exact H]. Qed.

Lemma returns_isSet st (Q : bool -> St Val -> Prop) :
  Q (Flag.isSet canQuit (polls st)) (polled 1 st) ->
  returns (isSet canQuit) st Q.
Proof. intro H. eexists _, _. split; [reflexivity | exact H]. Qed.

Lemma returns_add_reference (cpoint : nat) (r : Q) st
    (Q : unit -> St Val -> Prop) :
  nth_error (reference_data st) cpoint = Some r ->
  Q tt (set_reference_data
          (FSRSutils.upd (reference_data st) cpoint (r + ref_read (trace st))%Q)
          (push EvRefRead st)) ->
  returns (add_reference ref_read cpoint) st Q.
Proof.
  intros E H. unfold returns, add_reference. rewrite E.
  eexists _, _. split; [reflexivity | exact H].
Qed.

Lemma returns_weaken {A} (m : act Val A) st (Q Q' : A -> St Val -> Prop) :
  returns m st Q -> (forall a st', Q a st' -> Q' a st') -> returns m st Q'.
Proof.
  intros [a [st' [E H]]] Himp. exists a, st'. split; [exact E | auto].
Qed.

(** *** What the steps keep *)

Lemma finished_count_snoc (tr : list (Event Val)) e :
  finished_count (tr ++ [e])
  = (finished_count tr + if is_finished e then 1 else 0)%nat.
Proof.
  unfold finished_count. rewrite filter_app, length_app. simpl.
  destruct (is_finished e); reflexivity.
Qed.

Lemma pending_push e st :
  is_finished e = false -> pending points st -> pending points (push e st).
Proof.
  intros He [H1 H2]. split; simpl; [|exact H2].
  rewrite finished_count_snoc, He, H1. reflexivity.
Qed.

Lemma pending_polled (k : nat) st :
  pending points st -> pending points (polled k st).
Proof. intros [H1 H2]. split; assumption. Qed.

Lemma pending_set_reference_data (d : list Q) st :
  List.length d = List.length points ->
  pending points st -> pending points (set_reference_data d st).
Proof. intros Hd [H1 H2]. split; assumption. Qed.

Lemma isSet_monotone (p q : nat) :
  Flag.isSet canQuit p = true -> (p <= q)%nat -> Flag.isSet canQuit q = true.
Proof.
  unfold Flag.isSet. destruct canQuit as [c|]; [|discriminate].
  intros H Hpq. apply Nat.leb_le in H. apply Nat.leb_le. lia.
Qed.

Lemma py_nth_in_range {A} (l : list A) (i : Z) :
  (- Z.of_nat (List.length l) <= i < Z.of_nat (List.length l))%Z ->
  exists x, py_nth l i = Ok x.
Proof.
  intro H. unfold py_nth.
  set (j := if (i <? 0)%Z then (i + Z.of_nat (List.length l))%Z else i).
  assert (Hj : (0 <= j < Z.of_nat (List.length l))%Z).
  { unfold j. destruct (i <? 0)%Z eqn:E;
      [apply Z.ltb_lt in E | apply Z.ltb_ge in E]; lia. }
  replace (j <? 0)%Z with false by (symmetry; apply Z.ltb_ge; lia).
  destruct (nth_error l (Z.to_nat j)) as [x|] eqn:En.
  - exists x. reflexivity.
  - apply nth_error_None in En. lia.
Qed.

Ltac keep_pending :=
  repeat first
    [ assumption
    | apply pending_push; [reflexivity|]
    | apply pending_polled
    | apply pending_set_reference_data;
      [rewrite ?upd_length, ?length_map, ?repeat_length; simpl;
       first [reflexivity | assumption | idtac] |] ].

(** *** The loop over the points *)

Lemma read_point_returns (cset : Z) (cpoint : nat) st :
  pending points st -> (cpoint < List.length points)%nat ->
  returns (read_point ccd_readNframes ccd_polls ref_read frames points
             reference cset cpoint) st
    (fun cp st' => cp = S cpoint /\ pending points st').
Proof.
  intros Hp Hc. unfold read_point.
  destruct (py_nth_in_range points (Z.of_nat cpoint)) as [p Ep]; [lia|].
  apply returns_seq. eexists _, _. split; [reflexivity|].
  apply returns_seq.
  destruct reference as [r|].
  - destruct (nth_error (reference_data st) cpoint) as [x|] eqn:Ex.
    + eapply returns_add_reference; [exact Ex|].
      apply returns_seq. eapply returns_lift; [exact Ep|].
      apply returns_seq. apply returns_emit.
      apply returns_seq. apply returns_emit.
      apply returns_ret. split; [reflexivity|].
      pose proof Hp as [H1 H2].
      keep_pending; try (simpl; exact H2).
    + apply nth_error_None in Ex. destruct Hp as [_ H2]. lia.
  - apply returns_ret.
    apply returns_seq. eapply returns_lift; [exact Ep|].
    apply returns_seq. apply returns_emit.
    apply returns_seq. apply returns_emit.
    apply returns_ret. split; [reflexivity|]. keep_pending.
Qed.

Lemma move_next_returns (cpoint : nat) st :
  points <> [] -> pending points st ->
  returns (move_next points cpoint) st
    (fun _ st' => pending points st' /\ polls st' = polls st).
Proof.
  intros Hne Hp. unfold move_next, wrap.
  assert (Hlen : (0 < Z.of_nat (List.length points))%Z)
    by (destruct points; [contradiction | simpl; lia]).
  unfold len.
  replace (Z.of_nat (List.length points) =? 0)%Z with false
    by (symmetry; apply Z.eqb_neq; lia).
  pose proof (Z.mod_pos_bound (Z.of_nat cpoint) _ Hlen) as Hmod.
  destruct (py_nth_in_range points
              (Z.of_nat cpoint mod Z.of_nat (List.length points)))
    as [a Ea]; [lia|].
  destruct (py_nth_in_range points
              (Z.of_nat cpoint mod Z.of_nat (List.length points) - 1))
    as [b Eb]; [lia|].
  apply returns_seq. eapply returns_lift; [reflexivity|].
  apply returns_seq. eapply returns_lift; [exact Ea|].
  apply returns_seq. eapply returns_lift; [exact Eb|].
  apply returns_seq. apply returns_emit. apply returns_emit.
  split; [keep_pending | reflexivity].
Qed.

Lemma points_loop_returns (cset : Z) :
  points <> [] ->
  forall (fuel cpoint : nat) st,
    pending points st ->
    (cancelled canQuit st /\ 1 <= fuel)%nat
    \/ (List.length points - cpoint < fuel)%nat ->
    returns (points_loop ccd_readNframes ccd_polls ref_read canQuit frames
               points reference fuel cset cpoint) st
      (fun _ st' => pending points st').
Proof.
  intro Hne. induction fuel as [|fuel IH]; intros cpoint st Hp Hfuel;
    [destruct Hfuel as [[_ H] | H]; lia|].
  simpl points_loop.
  destruct (cpoint <? List.length points)%nat eqn:Ecp;
    [|apply returns_ret; exact Hp].
  apply Nat.ltb_lt in Ecp.
  apply returns_seq. apply returns_isSet.
  destruct (Flag.isSet canQuit (polls st)) eqn:Eq1;
    [apply returns_ret; keep_pending|].
  assert (Hf : (List.length points - cpoint < S fuel)%nat).
  { destruct Hfuel as [[Hc _] | H]; [|exact H].
    unfold cancelled in Hc. congruence. }
  apply returns_seq. apply returns_isSet.
  apply returns_seq.
  destruct (Flag.isSet canQuit (polls (polled 1 st))) eqn:Eq2.
  - (* the flag came between the two polls *)
    apply returns_ret. apply returns_seq.
    eapply returns_weaken;
      [apply move_next_returns; [exact Hne | keep_pending]|].
    intros ? st' [Hp' Hpolls]. apply IH; [exact Hp'|].
    left. split; [|lia]. unfold cancelled. rewrite Hpolls.
    apply (isSet_monotone _ _ Eq2). simpl. lia.
  - eapply returns_weaken;
      [apply read_point_returns; [keep_pending | exact Ecp]|].
    intros cp st1 [-> Hp1]. apply returns_seq.
    eapply returns_weaken; [apply move_next_returns; assumption|].
    intros ? st' [Hp' _]. apply IH; [exact Hp'|].
    right. lia.
Qed.

(** *** The loop over the sets *)

Lemma begin_set_returns (cset : Z) st :
  points <> [] -> pending points st ->
  returns (begin_set axis_pos ccd_readNframes ccd_polls canQuit type frames
             points cset) st
    (fun _ st' => pending points st').
Proof.
  intros Hne Hp. unfold begin_set.
  destruct (py_nth_in_range points 0) as [p0 E0];
    [destruct points; [contradiction | simpl; lia]|].
  apply returns_seq. eexists _, _. split; [reflexivity|].
  apply returns_seq. eapply returns_lift; [exact E0|].
  apply returns_seq. apply returns_emit.
  apply returns_seq. apply returns_emit.
  destruct (type =? 0)%Z; [|apply returns_ret; keep_pending].
  apply returns_seq. apply returns_emit.
  apply returns_seq. apply returns_isSet.
  apply returns_seq.
  destruct (Flag.isSet canQuit _).
  - apply returns_ret. apply returns_emit. keep_pending.
  - apply returns_seq. eexists _, _. split; [reflexivity|].
    apply returns_emit. apply returns_emit. keep_pending.
Qed.

Lemma sets_loop_returns :
  points <> [] ->
  forall (fuel : nat) (cset : Z) st,
    pending points st ->
    (Z.to_nat (sets - cset) + List.length points < fuel)%nat ->
    returns (sets_loop axis_pos ccd_readNframes ccd_polls ref_read canQuit
               type frames points sets reference fuel cset) st
      (fun _ st' => pending points st').
Proof.
  intro Hne. induction fuel as [|fuel IH]; intros cset st Hp Hfuel; [lia|].
  simpl sets_loop.
  apply returns_seq. apply returns_isSet.
  destruct (negb (Flag.isSet canQuit (polls st)) && (cset <? sets)%Z) eqn:Ego;
    [|apply returns_ret; keep_pending].
  apply andb_prop in Ego. destruct Ego as [_ Elt]. apply Z.ltb_lt in Elt.
  apply returns_seq.
  eapply returns_weaken; [apply begin_set_returns; [exact Hne | keep_pending]|].
  intros ? st1 Hp1. apply returns_seq.
  eapply returns_weaken;
    [apply (points_loop_returns cset Hne (S fuel) O st1 Hp1); right; lia|].
  intros ? st2 Hp2. apply IH; [exact Hp2 | lia].
Qed.

(** *** Before and after the loops *)

Lemma before_loop_returns st :
  points <> [] -> finished_count (trace st) = O ->
  returns (before_loop type points reference) st
    (fun _ st' => pending points st').
Proof.
  intros Hne H0. unfold before_loop.
  destruct points as [|p0 rest] eqn:Epts; [contradiction|].
  rewrite <- Epts.
  assert (Hp : pending points
                 (set_reference_data (repeat 0%Q (List.length points))
                    (push EvStarted st))).
  { split; simpl; [|apply repeat_length].
    rewrite finished_count_snoc, H0. reflexivity. }
  apply returns_seq. apply returns_emit.
  apply returns_seq. eexists _, _. split; [reflexivity|].
  apply returns_seq. eapply returns_lift; [rewrite Epts; reflexivity|].
  apply returns_seq. eapply returns_lift; [rewrite Epts; reflexivity|].
  apply returns_seq.
  assert (Hw : returns
                 (match reference with
                  | Some {| wait := Some _ |} => emit (EvRefSetWait (PyStr "0"))
                  | _ => ret tt
                  end)
                 (set_reference_data (repeat 0%Q (List.length points))
                    (push EvStarted st))
                 (fun _ st' => pending points st')).
  { destruct reference as [[[v|]]|];
      [apply returns_emit | apply returns_ret | apply returns_ret];
      keep_pending. }
  eapply returns_weaken; [exact Hw|].
  intros ? st1 Hp1. apply returns_seq. apply returns_emit.
  apply returns_seq.
  destruct (0 <? type)%Z;
    [apply returns_emit | apply returns_ret]; apply returns_ret; keep_pending.
Qed.

Lemma after_loop_returns (maxinterval : Q) (cset : Z) (p0 : Q) (rest : list Q) st :
  points = p0 :: rest ->
  returns (after_loop points reference maxinterval cset) st
    (fun _ st' => exists tail,
         trace st' = trace st ++ tail /\ closing p0 tail).
Proof.
  intro Epts. unfold after_loop.
  apply returns_seq. eapply returns_lift; [rewrite Epts; reflexivity|].
  apply returns_seq. apply returns_emit.
  apply returns_seq. apply returns_emit.
  apply returns_seq. apply returns_emit.
  destruct reference as [[[old|]]|].
  - apply returns_seq. eexists _, _. split; [reflexivity|].
    apply returns_seq. apply returns_emit.
    eexists _, _. split; [reflexivity|].
    eexists. split.
    + simpl. rewrite <- !app_assoc. simpl. reflexivity.
    + eexists _, _. right. eexists. reflexivity.
  - apply returns_seq. eexists _, _. split; [reflexivity|].
    apply returns_seq. apply returns_ret.
    eexists _, _. split; [reflexivity|].
    eexists. split.
    + simpl. rewrite <- !app_assoc. simpl. reflexivity.
    + eexists _, _. left. reflexivity.
  - apply returns_emit.
    eexists. split.
    + simpl. rewrite <- !app_assoc. simpl. reflexivity.
    + eexists _, _. left. reflexivity.
Qed.

Lemma closing_finished_once (p0 : Q) (tail : list (Event Val)) :
  closing p0 tail -> finished_count tail = 1%nat.
Proof.
  intros [pause [summary [-> | [old ->]]]]; reflexivity.
Qed.

(** C1: for a non-empty list of points and whenever the stop flag is
    set (at any poll, or never), [ScanThread.run] returns, given fuel
    for its loops; the last things it does are to send the axis to
    [points[0]], to write 0 to the shutter, to restore the wait time of
    the reference where there is one, and to post [onFinished]; that is
    the only [onFinished] it posts. *)
Theorem scan_thread_closes (extra : nat) :
  points <> [] ->
  exists (st : St Val) (before tail : list (Event Val)),
    run axis_pos ccd_readNframes ccd_polls ref_read canQuit type frames
      points sets reference
      (S (Z.to_nat sets + List.length points) + extra) st0
    = Fin tt st
    /\ trace st = before ++ tail
    /\ closing (hd 0%Q points) tail
    /\ finished_count (trace st) = 1%nat.
Proof.
  intro Hne. destruct points as [|p0 rest] eqn:Epts; [contradiction|].
  rewrite <- Epts in *.
  assert (R : returns
                (run axis_pos ccd_readNframes ccd_polls ref_read canQuit type
                   frames points sets reference
                   (S (Z.to_nat sets + List.length points) + extra))
                st0
                (fun _ st => exists before tail,
                     trace st = before ++ tail /\ closing p0 tail
                     /\ finished_count before = O)).
  { unfold run. apply returns_seq.
    eapply returns_weaken; [apply before_loop_returns; [exact Hne | reflexivity]|].
    intros maxinterval st1 Hp1. apply returns_seq.
    eapply returns_weaken;
      [apply (sets_loop_returns Hne _ 0%Z st1 Hp1);
       rewrite Z.sub_0_r; lia|].
    intros cset st2 Hp2.
    eapply returns_weaken; [apply (after_loop_returns _ _ p0 rest); exact Epts|].
    intros ? st3 [tail [Etr Hcl]]. exists (trace st2), tail.
    split; [exact Etr|]. split; [exact Hcl | apply Hp2]. }
  destruct R as [[] [st [E [before [tail [Etr [Hcl H0]]]]]]].
  exists st, before, tail.
  split; [exact E|]. split; [exact Etr|].
  split; [rewrite Epts; exact Hcl|].
  rewrite Etr. unfold finished_count in *.
  rewrite filter_app, length_app.
  fold (finished_count tail). rewrite (closing_finished_once _ _ Hcl).
  rewrite H0. reflexivity.
Qed.

End ScanThread.

Lemma scan_thread_closes_witness :
  exists (st : FSRSScan2.St unit) (before tail : list (FSRSScan2.Event unit)),
    FSRSScan2.run (fun _ => 0%Q) (fun _ _ => tt) (fun _ => 1%nat) (fun _ => 1%Q)
      (Some 4%nat) 0 2 [0%Q; 10%Q] 2
      (Some {| FSRSScan2.wait := Some (PyStr "1") |})
      (S (Z.to_nat 2 + List.length [0%Q; 10%Q]) + 0) FSRSScan2.st0
    = FSRSScan2.Fin tt st
    /\ FSRSScan2.trace st = before ++ tail
    /\ FSRSScan2.closing (hd 0%Q [0%Q; 10%Q]) tail
    /\ FSRSScan2.finished_count (FSRSScan2.trace st) = 1%nat.
Proof.
  apply (scan_thread_closes (fun _ => 0%Q) (fun _ _ => tt) (fun _ => 1%nat)
           (fun _ => 1%Q) (Some 4%nat) 0 2 2 [0%Q; 10%Q]
           (Some {| FSRSScan2.wait := Some (PyStr "1") |}) 0).
  discriminate.
Defined.

(** ** Starting a scan without points *)

Section EmptyPoints.
Import FSRSScan2.

Variable logspace : Q -> Q -> Q -> list Q.
Variable loadtxt : string -> list (list Q).
Variable rnd : nat -> nat.

(** C8, as the code has it: when the prepared sequence of points is
    empty and the module is idle with its collaborators resolved,
    [onStart] does not reject the configuration: it creates the scan
    thread with the empty sequence and keeps its handle.  The thread
    then raises in [np.amax] right after it has posted [onStarted]: the
    empty sequence does not reach the main loop, and nothing else is
    sent. *)
Theorem empty_points_are_spawned
    (m : t) (s_ccd s_axis s_shutter : string) (s_ref : option string)
    (Val : Type) (axis_pos : list (Event Val) -> Q)
    (ccd_readNframes : list (Event Val) -> Z -> Val)
    (ccd_polls : list (Event Val) -> nat) (ref_read : list (Event Val) -> Q)
    (canQuit : Flag.t) (reference : option Reference) (fuel : nat) :
  Experiment.running (exp m) = false ->
  Experiment.scanThread (exp m) = None ->
  py_nth (cameras m) (p_camera m) = Ok s_ccd ->
  py_nth (axes m) (p_axis m) = Ok s_axis ->
  py_nth (shutters m) (p_shutter m) = Ok s_shutter ->
  take_reference m = Ok s_ref ->
  ModProp.type (p_progress m) = ModProp.progress ->
  FSRSutils.prepareScanPoints logspace loadtxt rnd (stage m) = Ok [] ->
  (exists m',
      onStart logspace loadtxt rnd m = Ok m'
      /\ Experiment.scanThread (exp m')
         = Some (List.length (Experiment.threads (exp m)))
      /\ Experiment.threads (exp m')
         = Experiment.threads (exp m)
           ++ [{| Experiment.args :=
                    {| a_type := p_type m; a_ccd := s_ccd; a_axis := s_axis;
                       a_shutter := s_shutter; a_frames := p_frames m;
                       a_points := []; a_sets := p_sets m;
                       a_reference := s_ref |};
                  Experiment.alive := true;
                  Experiment.canQuit_set := false |}])
  /\ run axis_pos ccd_readNframes ccd_polls ref_read canQuit (p_type m)
       (p_frames m) [] (p_sets m) reference fuel st0
     = Exc (ValueError
              "zero-size array to reduction operation maximum which has no identity")
           (set_reference_data [] (push EvStarted st0)).
Proof.
  intros Hrun Hnone Hccd Haxis Hshutter Href Hprog Hpts.
  split; [|reflexivity].
  unfold onStart. rewrite Hrun, Hccd, Haxis, Hshutter, Href, Hpts.
  simpl bind.
  rewrite (setValue_progress _ 0 Hprog) by lia. simpl bind.
  eexists. split; [reflexivity|]. simpl exp.
  unfold Experiment.start. rewrite Hnone.
  destruct (Experiment.start_button (exp m)); simpl; split; reflexivity.
Qed.

End EmptyPoints.

(** C8 as stated fails: with one camera, one axis, one shutter, the
    mode "from file" and no file chosen, the prepared sequence is empty
    and [onStart] adds a thread. *)
Lemma empty_points_not_rejected :
  ~ (forall (logspace : Q -> Q -> Q -> list Q)
            (loadtxt : string -> list (list Q)) (rnd : nat -> nat)
            (m m' : FSRSScan2.t),
        Experiment.running (FSRSScan2.exp m) = false ->
        FSRSutils.prepareScanPoints logspace loadtxt rnd (FSRSScan2.stage m)
          = Ok [] ->
        FSRSScan2.onStart logspace loadtxt rnd m = Ok m' ->
        Experiment.threads (FSRSScan2.exp m')
          = Experiment.threads (FSRSScan2.exp m)).
Proof.
  intro H.
  specialize (H (fun _ _ _ => []) (fun _ => []) (fun _ => O)
    FSRSScan2.no_file_chosen
    _ eq_refl eq_refl eq_refl).
  discriminate H.
Qed.

Lemma empty_points_are_spawned_witness :
  let m := FSRSScan2.no_file_chosen in
  (exists m',
      FSRSScan2.onStart (fun _ _ _ => []) (fun _ => []) (fun _ => O) m = Ok m'
      /\ Experiment.scanThread (FSRSScan2.exp m') = Some O
      /\ Experiment.threads (FSRSScan2.exp m')
         = [{| Experiment.args :=
                 {| FSRSScan2.a_type := 0; FSRSScan2.a_ccd := "PIXIS100";
                    FSRSScan2.a_axis := "Dummy Axis";
                    FSRSScan2.a_shutter := "Dummy Shutter";
                    FSRSScan2.a_frames := 2000; FSRSScan2.a_points := [];
                    FSRSScan2.a_sets := 1; FSRSScan2.a_reference := None |};
               Experiment.alive := true;
               Experiment.canQuit_set := false |}])
  /\ FSRSScan2.run (Val := unit) (fun _ => 0%Q) (fun _ _ => tt) (fun _ => O)
       (fun _ => 0%Q) None 0 2000 [] 1 None 10 FSRSScan2.st0
     = FSRSScan2.Exc
         (ValueError
            "zero-size array to reduction operation maximum which has no identity")
         (FSRSScan2.set_reference_data []
            (FSRSScan2.push FSRSScan2.EvStarted FSRSScan2.st0)).
Proof.
  intro m.
  apply (empty_points_are_spawned (fun _ _ _ => []) (fun _ => []) (fun _ => O)
           m "PIXIS100" "Dummy Axis" "Dummy Shutter" None unit
           (fun _ => 0%Q) (fun _ _ => tt) (fun _ => O) (fun _ => 0%Q)
           None None 10); reflexivity.
Defined.

(** ** Leaving the application *)

Section ExitPath.
Import App.

Context {MState : Type}.

Lemma onExitApp_modules (a : App.t MState) :
  modules (onExitApp a) = modules a.
Proof.
  unfold onExitApp. simpl.
  destruct (0 <? List.length (modules a))%nat; [|reflexivity].
  unfold expr_stmt. apply map_id.
Qed.

(** The exit path that calls the hooks differs from [onExitApp] as soon
    as one hook changes the state of its module. *)
Lemma exit_calling_shutdown_differs (a : App.t MState) (m : Module MState) :
  In m (modules a) ->
  shutdown_method m (state m) <> state m ->
  modules (exit_calling_shutdown a) <> modules (onExitApp a).
Proof.
  intros Hin Hch Heq. rewrite onExitApp_modules in Heq.
  unfold exit_calling_shutdown in Heq. simpl in Heq.
  induction (modules a) as [|m0 l IH]; [contradiction|].
  simpl in Heq. injection Heq as Hhd Htl.
  destruct Hin as [-> | Hin]; [|exact (IH Hin Htl)].
  apply Hch. change (state (call_shutdown m) = state m).
  rewrite Hhd. reflexivity.
Qed.

(** C10: [onExitApp] reads the attribute [shutdown] of every module and
    calls none: the list of modules is as it was, every module with the
    state and the number of shutdown calls it had, whatever its shutdown
    method would do; the window is destroyed. *)
Theorem onExitApp_calls_no_shutdown (a : App.t MState) :
  modules (onExitApp a) = modules a
  /\ destroyed (onExitApp a) = true
  /\ Forall2 (fun m m' => state m' = state m
                          /\ shutdown_calls m' = shutdown_calls m)
       (modules a) (modules (onExitApp a)).
Proof.
  split; [apply onExitApp_modules|]. split; [reflexivity|].
  rewrite onExitApp_modules.
  induction (modules a) as [|m l IH]; constructor; auto.
Qed.

End ExitPath.

(** ** The models at work *)

Section Runs.

Example py_int_cases :
  py_int (PyStr " 12 ") = Some 12
  /\ py_int (PyStr "-7") = Some (-7)
  /\ py_int (PyStr "1.5") = None
  /\ py_int (PyStr "") = None
  /\ py_int (PyFloat (-7 # 2)) = Some (-3)
  /\ py_int (PyBool true) = Some 1
  /\ py_int PyNone = None.
Proof. repeat split; reflexivity. Qed.

Example setValue_cases :
  let spin_prop := {| ModProp.plabel := "# of Sets"; ModProp.type := ModProp.spin;
                      ModProp.value := PyInt 1; ModProp.choices := [] |} in
  let check_prop := {| ModProp.plabel := "Random"; ModProp.type := ModProp.checkbox;
                       ModProp.value := PyInt 0; ModProp.choices := [] |} in
  ModProp.setValue spin_prop (PyStr "25")
    = Ok (ModProp.with_value spin_prop (PyInt 25))
  /\ ModProp.setValue check_prop (PyBool true)
     = Ok (ModProp.with_value check_prop (PyBool true))
  /\ ModProp.setValue check_prop (PyInt 2)
     = Raise (ValueError "Invalid value for property type checkbox").
Proof. repeat split; reflexivity. Qed.

(** The second attempt succeeds: even frames are channel A, odd frames
    channel B, both flipped; a token set before the second poll gives
    ones; a request for more frames than ever arrive gives ones after
    six reads. *)
Example readNframes_runs :
  let st := {| PIXIS100.reads := 0; PIXIS100.polls := 0 |} in
  PIXIS100.readNframes 2 PIXIS100.late_driver true 6 2 (Some None) st
    = Some (([PIXIS100.Value (4 # 2); PIXIS100.Value (2 # 1)],
             [PIXIS100.Value (4 # 1); PIXIS100.Value (2 # 1)],
             [PIXIS100.Value (2 # 1); PIXIS100.Value (1 # 1)])%Q,
            {| PIXIS100.reads := 2; PIXIS100.polls := 2 |})
  /\ PIXIS100.readNframes 2 PIXIS100.late_driver true 6 2 (Some (Some 1%nat)) st
     = Some (PIXIS100.ones 2, {| PIXIS100.reads := 2; PIXIS100.polls := 2 |})
  /\ PIXIS100.readNframes 2 PIXIS100.late_driver true 6 3 None st
     = Some (PIXIS100.ones 2, {| PIXIS100.reads := 6; PIXIS100.polls := 0 |}).
Proof. repeat split; vm_compute; reflexivity. Qed.

(** A zero divisor: numpy divides to an infinity or to NaN, which
    [nan_to_num] turns into the largest double and into 0; a parity
    without a frame has the mean NaN. *)
Example split_average_runs :
  PIXIS100.split_average 3 true [[3; 0; -1]; [0; 0; 0]]%Q
  = ([PIXIS100.Value (- Float64.max_float); PIXIS100.Value 0;
      PIXIS100.Value Float64.max_float],
     [PIXIS100.Value (-1); PIXIS100.Value 0; PIXIS100.Value 3],
     [PIXIS100.Value 0; PIXIS100.Value 0; PIXIS100.Value 0])%Q
  /\ PIXIS100.split_average 1 true [[5]]%Q
     = ([PIXIS100.Value 0], [PIXIS100.Value 5], [PIXIS100.NaN])%Q
  /\ PIXIS100.parity_frames 0 (repeat [9] 20 ++ [[1]; [2]; [3]; [4]; [5]])%Q
     = [[1]; [3]; [5]]%Q
  /\ PIXIS100.parity_frames 1 (repeat [9] 20 ++ [[1]; [2]; [3]; [4]; [5]])%Q
     = [[2]; [4]]%Q.
Proof. repeat split; vm_compute; reflexivity. Qed.

(** The stage settings From 0, Till 1, Step 0.1 give 11 points, the
    quotient of the doubles being 10; a zero step raises; a file of one
    line is taken whole, of a file of several columns the first. *)
Example prepareScanPoints_runs :
  let stage (m : Z) (till step : Q) (file : string) :=
    {| FSRSutils.mode := m; FSRSutils.from := 0; FSRSutils.till := till;
       FSRSutils.step := step; FSRSutils.step_label := "Step Size (fs)";
       FSRSutils.random := false; FSRSutils.use_file := file |} in
  let loadtxt (file : string) :=
    if String.eqb file "line.txt"%string then [[1; 2; 3]]%Q
    else [[1; 2; 3]; [10; 20; 30]]%Q in
  FSRSutils.linear_count 0%Q 1%Q (Float64.double (1 # 10)) = Ok 11
  /\ FSRSutils.prepareScanPoints (fun _ _ _ => []) loadtxt (fun _ => O)
       (stage 0 1%Q 0%Q EmptyString) = Raise ZeroDivisionError
  /\ FSRSutils.prepareScanPoints (fun _ _ _ => []) loadtxt (fun _ => O)
       (stage 2 1%Q 1%Q "line.txt"%string) = Ok [1; 2; 3]%Q
  /\ FSRSutils.prepareScanPoints (fun _ _ _ => []) loadtxt (fun _ => O)
       (stage 2 1%Q 1%Q "columns.txt"%string) = Ok [1; 2; 3]%Q
  /\ FSRSutils.onAxisRangeChange (fun x => x)
       (stage 2 (Float64.double (12345678901234567 # 100000000000000000)) 1%Q
          EmptyString)
     = Ok (stage 2 (Float64.double (123456789012 # 1000000000000)) 1%Q
             EmptyString).
Proof. repeat split; vm_compute; reflexivity. Qed.

(** A scan of two points and two sets in FSRS mode, stopped between the
    two polls of the first point. *)
Example run_stopped_at_first_point :
  FSRSScan2.run (Val := unit) (fun _ => 0%Q) (fun _ _ => tt) (fun _ => 1%nat)
    (fun _ => 1%Q) (Some 4%nat) 0 2 [0%Q; 10%Q] 2
    (Some {| FSRSScan2.wait := Some (PyStr "1") |}) 5 FSRSScan2.st0
  = FSRSScan2.Fin tt
      {| FSRSScan2.trace :=
           [FSRSScan2.EvStarted;
            FSRSScan2.EvRefSetWait (PyStr "0");
            FSRSScan2.EvSleep 0.5;
            FSRSScan2.EvAxisPos;
            FSRSScan2.EvAxisGoto 0;
            FSRSScan2.EvSleep (1670000 # 16700000);
            FSRSScan2.EvShutter 0;
            FSRSScan2.EvCcdRead 2;
            FSRSScan2.EvUpdate tt 0 0 0;
            FSRSScan2.EvShutter 1;
            FSRSScan2.EvAxisGoto 0;
            FSRSScan2.EvSleep (1673000 # 16700000);
            FSRSScan2.EvAxisGoto 0;
            FSRSScan2.EvSleep (1673000 # 16700000);
            FSRSScan2.EvShutter 0;
            FSRSScan2.EvRefSetWait (PyStr "1");
            FSRSScan2.EvFinished (Some ([0%Q; 10%Q], [0%Q; 0%Q]))];
         FSRSScan2.polls := 7;
         FSRSScan2.reference_data := [0%Q; 0%Q] |}.
Proof. vm_compute. reflexivity. Qed.

End Runs.

(** ** The property list of a module *)

Section PropertyList.
Import Registry.

Implicit Types (m : Registry.t) (p : ModProp.t).

Lemma py_nth_nonneg {A} (l : list A) (i : Z) :
  (0 <= i)%Z -> FSRSScan2.py_nth l i
                = match nth_error l (Z.to_nat i) with
                  | Some x => Ok x
                  | None => Raise IndexError
                  end.
Proof.
  intro H. unfold FSRSScan2.py_nth.
  replace (i <? 0)%Z with false by (symmetry; apply Z.ltb_ge; lia).
  replace (i <? 0)%Z with false by (symmetry; apply Z.ltb_ge; lia).
  reflexivity.
Qed.

Lemma out_of_range_false (n : nat) (id : Z) :
  (0 <= id <= Z.of_nat n)%Z -> ((id <? 0) || (Z.of_nat n <? id))%Z = false.
Proof.
  intro H. apply orb_false_iff. split; apply Z.ltb_ge; lia.
Qed.

Lemma out_of_range_true (n : nat) (id : Z) :
  (id < 0 \/ Z.of_nat n < id)%Z -> ((id <? 0) || (Z.of_nat n <? id))%Z = true.
Proof.
  intros [H | H]; apply orb_true_iff; [left | right]; apply Z.ltb_lt; lia.
Qed.

Lemma getProperty_in_range m (id : Z) p :
  getProperty m id = Ok p
  <-> (0 <= id < Z.of_nat (List.length (properties m)))%Z
      /\ nth_error (properties m) (Z.to_nat id) = Some p.
Proof.
  unfold getProperty. destruct (Z_lt_dec id 0) as [Hneg | Hpos].
  - rewrite out_of_range_true by lia. split; [discriminate | lia].
  - destruct (Z_lt_dec (Z.of_nat (List.length (properties m))) id)
      as [Hbig | Hle].
    + rewrite out_of_range_true by lia. split; [discriminate | lia].
    + rewrite out_of_range_false by lia.
      rewrite py_nth_nonneg by lia.
      destruct (nth_error (properties m) (Z.to_nat id)) as [q|] eqn:E.
      * split.
        -- intro H. injection H as ->. split; [|reflexivity].
           assert (Z.to_nat id < List.length (properties m))%nat
             by (apply nth_error_Some; congruence).
           lia.
        -- intros [_ H]. congruence.
      * split; [discriminate | intros [_ H]; discriminate].
Qed.

(** X1: [getProperty(id)] returns the property at [id] exactly for
    0 <= id < len(properties); for id = len(properties) the range test
    lets the index through and the list raises [IndexError]; below 0
    and above the length it raises [ValueError]. *)
Theorem getProperty_bounds m (id : Z) :
  let n := Z.of_nat (List.length (properties m)) in
  (forall p, getProperty m id = Ok p
             <-> (0 <= id < n)%Z /\ nth_error (properties m) (Z.to_nat id) = Some p)
  /\ (id = n -> getProperty m id = Raise IndexError)
  /\ ((id < 0 \/ n < id)%Z ->
      getProperty m id = Raise (ValueError "Index out of range")).
Proof.
  intro n. subst n. split; [|split].
  - intro p. apply getProperty_in_range.
  - unfold getProperty. intros ->. rewrite out_of_range_false by lia.
    rewrite py_nth_nonneg by lia.
    rewrite Nat2Z.id.
    replace (nth_error (properties m) (List.length (properties m)))
      with (@None ModProp.t); [reflexivity|].
    symmetry. apply nth_error_None. lia.
  - unfold getProperty. intro H. rewrite out_of_range_true by exact H.
    reflexivity.
Qed.

Lemma check_ModProp_ok (obj : Object) :
  check_ModProp obj = Ok tt <-> type_name obj = "ModProp"%string.
Proof.
  unfold check_ModProp.
  destruct (String.eqb_spec (type_name obj) "ModProp") as [E | E]; simpl.
  - split; [intros _; exact E | reflexivity].
  - split; [discriminate | contradiction].
Qed.

Lemma check_ModProp_instance p :
  check_ModProp (ModProp_instance p)
  = Raise (ValueError "Property must be an instance of 'ModProp'.").
Proof. reflexivity. Qed.

(** X2: [addProperty] appends exactly the objects whose type is named
    [ModProp], and then the id it returns reads the object back and
    every id that read a property before reads the same one after.  An
    instance of the class [ModProp] of the repository is of the type
    [instance], and [addProperty] raises [ValueError] for it, whatever
    the module and the property. *)
Theorem addProperty_refuses_ModProp m (obj : Object) :
  ((exists r, addProperty m obj = Ok r) <-> type_name obj = "ModProp"%string)
  /\ (forall id m', addProperty m obj = Ok (id, m') ->
        getProperty m' id = Ok (fields obj)
        /\ forall (j : Z) (q : ModProp.t),
             getProperty m j = Ok q -> getProperty m' j = Ok q)
  /\ forall p,
       addProperty m (ModProp_instance p)
       = Raise (ValueError "Property must be an instance of 'ModProp'.").
Proof.
  split; [|split].
  - unfold addProperty. split.
    + intros [r H]. apply check_ModProp_ok.
      destruct (check_ModProp obj) as [[]|e]; [reflexivity | discriminate H].
    + intro H. apply check_ModProp_ok in H. rewrite H. eexists. reflexivity.
  - intros id m' H. unfold addProperty in H.
    destruct (check_ModProp obj) as [[]|e]; [|discriminate H].
    simpl in H. injection H as <- <-. split.
    + apply getProperty_in_range. simpl.
      rewrite length_app, Nat2Z.id. simpl. split; [lia|].
      rewrite nth_error_app2 by lia. rewrite Nat.sub_diag. reflexivity.
    + intros j q H. apply getProperty_in_range in H. destruct H as [Hj Hq].
      apply getProperty_in_range. simpl.
      rewrite length_app. simpl. split; [lia|].
      rewrite nth_error_app1 by lia. exact Hq.
  - intro p. reflexivity.
Qed.

Lemma nth_error_upd_same {A} (l : list A) (i : nat) (x : A) :
  (i < List.length l)%nat -> nth_error (FSRSutils.upd l i x) i = Some x.
Proof.
  revert i. induction l as [|a l IH]; intros [|i] H; simpl in *; try lia;
    [reflexivity | apply IH; lia].
Qed.

Lemma nth_error_upd_other {A} (l : list A) (i j : nat) (x : A) :
  i <> j -> nth_error (FSRSutils.upd l i x) j = nth_error l j.
Proof.
  revert i j. induction l as [|a l IH]; intros [|i] [|j] H; simpl;
    try reflexivity; try congruence.
  apply IH. congruence.
Qed.

(** X3: [setProperty(id, prop)] succeeds exactly for an object whose
    type is named [ModProp] and 0 <= id < len(properties); then
    [getProperty(id)] returns the object, the list keeps its length
    and every other id reads what it read before.  For an instance of
    the class [ModProp] of the repository it raises [ValueError] at
    every id, also at the ids of the list. *)
Theorem setProperty_refuses_ModProp m (id : Z) (obj : Object) :
  ((exists m', setProperty m id obj = Ok m')
   <-> type_name obj = "ModProp"%string
       /\ (0 <= id < Z.of_nat (List.length (properties m)))%Z)
  /\ (forall m', setProperty m id obj = Ok m' ->
        getProperty m' id = Ok (fields obj)
        /\ List.length (properties m') = List.length (properties m)
        /\ forall j : Z, j <> id -> getProperty m' j = getProperty m j)
  /\ forall p,
       setProperty m id (ModProp_instance p)
       = Raise (ValueError "Property must be an instance of 'ModProp'.").
Proof.
  assert (Hsucc : forall m', setProperty m id obj = Ok m' ->
            type_name obj = "ModProp"%string
            /\ (0 <= id < Z.of_nat (List.length (properties m)))%Z
            /\ m' = with_properties m
                      (FSRSutils.upd (properties m) (Z.to_nat id) (fields obj))).
  { intros m' H. unfold setProperty in H.
    destruct (check_ModProp obj) as [[]|e] eqn:Ec; [|discriminate H].
    apply check_ModProp_ok in Ec. simpl in H.
    destruct ((id <? 0) || (Z.of_nat (List.length (properties m)) <? id))%Z
      eqn:Er; [discriminate|].
    apply orb_false_iff in Er. destruct Er as [E1 E2].
    apply Z.ltb_ge in E1. apply Z.ltb_ge in E2.
    destruct (nth_error (properties m) (Z.to_nat id)) as [q|] eqn:En;
      [|discriminate].
    injection H as <-. split; [exact Ec|]. split; [|reflexivity].
    assert (Z.to_nat id < List.length (properties m))%nat
      by (apply nth_error_Some; congruence).
    lia. }
  split; [|split].
  - split.
    + intros [m' H]. destruct (Hsucc m' H) as [H1 [H2 _]]. split; assumption.
    + intros [Hn H]. unfold setProperty.
      apply check_ModProp_ok in Hn. rewrite Hn. simpl.
      rewrite out_of_range_false by lia.
      destruct (nth_error (properties m) (Z.to_nat id)) as [q|] eqn:En.
      * eexists. reflexivity.
      * apply nth_error_None in En. lia.
  - intros m' H. destruct (Hsucc m' H) as [_ [Hid ->]].
    split; [|split].
    + apply getProperty_in_range. simpl. rewrite upd_length.
      split; [exact Hid|]. apply nth_error_upd_same. lia.
    + simpl. apply upd_length.
    + intros j Hj. unfold getProperty. simpl. rewrite upd_length.
      destruct ((j <? 0) || (Z.of_nat (List.length (properties m)) <? j))%Z
        eqn:Er; [reflexivity|].
      apply orb_false_iff in Er. destruct Er as [E1 _].
      apply Z.ltb_ge in E1.
      rewrite !py_nth_nonneg by lia.
      rewrite nth_error_upd_other by lia. reflexivity.
  - intro p. reflexivity.
Qed.

Lemma memo_remember m (label : string) (i : nat) :
  memo (propindex (remember m label i)) label = Some i.
Proof. simpl. rewrite String.eqb_refl. reflexivity. Qed.

Lemma first_match_spec (label : string) (ps : list ModProp.t) :
  forall (start : nat),
    match first_match label ps start with
    | Some (i, p) =>
        (start <= i)%nat
        /\ nth_error ps (i - start) = Some p
        /\ matches label p = true
        /\ forall j q, (j < i - start)%nat -> nth_error ps j = Some q ->
                       matches label q = false
    | None => forall q, In q ps -> matches label q = false
    end.
Proof.
  induction ps as [|p ps IH]; intro start; simpl.
  - intros q [].
  - destruct (matches label p) eqn:Em.
    + rewrite Nat.sub_diag. repeat split; try lia; auto.
    + specialize (IH (S start)).
      destruct (first_match label ps (S start)) as [[i q]|].
      * destruct IH as [Hi [Hn [Hm Hbefore]]].
        replace (i - start)%nat with (S (i - S start)) by lia.
        repeat split; try lia; auto.
        intros j r Hj Hr. destruct j as [|j].
        -- simpl in Hr. injection Hr as <-. exact Em.
        -- simpl in Hr. apply (Hbefore j r); [lia | exact Hr].
      * intros q [<- | Hin]; [exact Em | apply IH; exact Hin].
Qed.

Lemma matches_contains (label : string) p :
  matches label p = true ->
  exists n : nat,
    substring n (String.length (lower label)) (lower (ModProp.plabel p))
    = lower label.
Proof.
  unfold matches, find. intro H.
  destruct (index 0 (lower label) (lower (ModProp.plabel p))) as [n|] eqn:E.
  - exists n. apply (index_correct1 _ _ _ _ E).
  - simpl in H. discriminate.
Qed.

(** X4: a label that has not been looked up before is searched from
    the front of the list.  The property returned is the first whose
    lower-cased label contains the lower-cased key, its position is
    remembered under the key, and [ValueError] is raised, with the
    module unchanged, exactly when no label contains the key. *)
Theorem getPropertyByLabel_first_match m (label : string) :
  memo (propindex m) label = None ->
  (forall p m',
      getPropertyByLabel m label = (Ok p, m') ->
      exists i,
        nth_error (properties m) i = Some p
        /\ (exists n : nat,
               substring n (String.length (lower label))
                 (lower (ModProp.plabel p)) = lower label)
        /\ (forall j q, (j < i)%nat -> nth_error (properties m) j = Some q ->
                        matches label q = false)
        /\ m' = remember m label i)
  /\ ((forall q, In q (properties m) -> matches label q = false)
      <-> getPropertyByLabel m label
          = (Raise (ValueError "Property label not found"), m)).
Proof.
  intro Hmemo. unfold getPropertyByLabel. rewrite Hmemo.
  pose proof (first_match_spec label (properties m) 0) as Hspec.
  destruct (first_match label (properties m) 0) as [[i q]|].
  - destruct Hspec as [_ [Hn [Hm Hbefore]]]. rewrite Nat.sub_0_r in *.
    split.
    + intros p m' H. injection H as <- <-. exists i.
      split; [exact Hn|]. split; [apply matches_contains; exact Hm|].
      split; [exact Hbefore | reflexivity].
    + split; [|discriminate].
      intro Hall. apply nth_error_In in Hn. rewrite (Hall q Hn) in Hm.
      discriminate.
  - split; [discriminate|]. split; [reflexivity | intros _; exact Hspec].
Qed.

(** X5: once a key has found a property, it is tied to that position:
    whatever the labels (and the other fields) of the properties become,
    as long as the list keeps its length, the same key returns the
    property at that position and [hasProperty] answers True. *)
Theorem getPropertyByLabel_pinned m (label : string) p m' :
  getPropertyByLabel m label = (Ok p, m') ->
  exists i,
    nth_error (properties m) i = Some p
    /\ forall ps q,
         nth_error ps i = Some q ->
         getPropertyByLabel (with_properties m' ps) label
         = (Ok q, with_properties m' ps)
         /\ hasProperty (with_properties m' ps) label
            = (true, with_properties m' ps).
Proof.
  unfold getPropertyByLabel. intro H.
  assert (Hpin : forall i m0, memo (propindex m0) label = Some i ->
            forall ps q, nth_error ps i = Some q ->
              getPropertyByLabel (with_properties m0 ps) label
              = (Ok q, with_properties m0 ps)
              /\ hasProperty (with_properties m0 ps) label
                 = (true, with_properties m0 ps)).
  { intros i m0 Hi ps q Hq. unfold getPropertyByLabel, hasProperty. simpl.
    rewrite Hi. rewrite py_nth_nonneg by lia. rewrite Nat2Z.id, Hq.
    split; reflexivity. }
  destruct (memo (propindex m) label) as [i|] eqn:Hmemo.
  - injection H as H <-. rewrite py_nth_nonneg in H by lia.
    rewrite Nat2Z.id in H.
    destruct (nth_error (properties m) i) as [q|] eqn:En; [|discriminate].
    injection H as ->. exists i. split; [exact En|].
    apply Hpin. exact Hmemo.
  - pose proof (first_match_spec label (properties m) 0) as Hspec.
    destruct (first_match label (properties m) 0) as [[i q]|];
      [|discriminate].
    injection H as -> <-. destruct Hspec as [_ [Hn _]].
    rewrite Nat.sub_0_r in Hn. exists i. split; [exact Hn|].
    apply Hpin. apply memo_remember.
Qed.

Lemma memo_In (idx : list (string * nat)) (label : string) (i : nat) :
  memo idx label = Some i -> exists k, In (k, i) idx.
Proof.
  induction idx as [|[k j] idx IH]; simpl; [discriminate|].
  destruct (String.eqb k label).
  - intro H. injection H as ->. exists k. left. reflexivity.
  - intro H. destruct (IH H) as [k' Hk]. exists k'. right. exact Hk.
Qed.

(** X6: when every remembered position lies inside the list,
    [hasProperty(label)] answers True exactly when
    [getPropertyByLabel(label)] returns a property; both leave the same
    dictionary behind, and its positions still lie inside the list. *)
Theorem hasProperty_agrees m (label : string) :
  memo_in_range m ->
  (fst (hasProperty m label) = true
   <-> exists p, fst (getPropertyByLabel m label) = Ok p)
  /\ snd (hasProperty m label) = snd (getPropertyByLabel m label)
  /\ memo_in_range (snd (getPropertyByLabel m label)).
Proof.
  intro Hr. unfold hasProperty, getPropertyByLabel.
  destruct (memo (propindex m) label) as [i|] eqn:Hmemo.
  - simpl. split; [|split; [reflexivity | exact Hr]].
    split; [|reflexivity]. intros _.
    destruct (memo_In _ _ _ Hmemo) as [k Hk].
    pose proof (Hr k i Hk) as Hi.
    rewrite py_nth_nonneg by lia. rewrite Nat2Z.id.
    destruct (nth_error (properties m) i) as [q|] eqn:En.
    + exists q. reflexivity.
    + apply nth_error_None in En. lia.
  - pose proof (first_match_spec label (properties m) 0) as Hspec.
    destruct (first_match label (properties m) 0) as [[i q]|]; simpl.
    + split; [split; [intros _; exists q; reflexivity | reflexivity]|].
      split; [reflexivity|].
      intros k j [Hk | Hk].
      * injection Hk as _ <-. destruct Hspec as [_ [Hn _]].
        rewrite Nat.sub_0_r in Hn. simpl. apply nth_error_Some. congruence.
      * apply (Hr k j Hk).
    + split; [split; [discriminate | intros [p Hp]; discriminate]|].
      split; [reflexivity | exact Hr].
Qed.

(** *** Ordinals of modules of one name *)

Lemma count_before_skip (self : Obj) (pre rest : list Obj) :
  (forall x, In x pre -> oid x <> oid self) ->
  forall c,
    count_before self (pre ++ rest) c
    = count_before self rest (c + same_name_count (oname self) pre).
Proof.
  unfold same_name_count.
  induction pre as [|x pre IH]; intros Hpre c; simpl.
  - f_equal. lia.
  - assert (Hx : (oid x =? oid self)%nat = false)
      by (apply Nat.eqb_neq; apply Hpre; left; reflexivity).
    rewrite Hx.
    assert (Hrest : forall y, In y pre -> oid y <> oid self)
      by (intros y Hy; apply Hpre; right; exact Hy).
    destruct (String.eqb (oname x) (oname self)); rewrite (IH Hrest);
      f_equal; simpl List.length; lia.
Qed.

Lemma initialize_at (self : Obj) (pre rest : list Obj) :
  NoDup (map oid (pre ++ self :: rest)) ->
  initialize self (pre ++ self :: rest) = same_name_count (oname self) pre.
Proof.
  intro Hnd. unfold initialize. rewrite count_before_skip.
  - simpl. rewrite Nat.eqb_refl. reflexivity.
  - intros x Hx Heq. rewrite map_app in Hnd. simpl in Hnd.
    apply NoDup_remove_2 in Hnd. apply Hnd. apply in_or_app. left.
    rewrite <- Heq. apply in_map. exact Hx.
Qed.

Lemma same_name_count_app (n : string) (l1 l2 : list Obj) :
  same_name_count n (l1 ++ l2) = (same_name_count n l1 + same_name_count n l2)%Z.
Proof.
  unfold same_name_count. rewrite filter_app, length_app. lia.
Qed.

Lemma same_name_count_nonneg (n : string) (l : list Obj) :
  (0 <= same_name_count n l)%Z.
Proof. unfold same_name_count. lia. Qed.

Lemma later_counts_more (a b : Obj) (l1 l2 l3 : list Obj) :
  NoDup (map oid (l1 ++ a :: l2 ++ b :: l3)) ->
  oname a = oname b ->
  (initialize a (l1 ++ a :: l2 ++ b :: l3)
   < initialize b (l1 ++ a :: l2 ++ b :: l3))%Z.
Proof.
  intros Hnd Hname.
  rewrite (initialize_at a l1 (l2 ++ b :: l3) Hnd).
  replace (l1 ++ a :: l2 ++ b :: l3) with ((l1 ++ a :: l2) ++ b :: l3) in *
    by (rewrite <- app_assoc; reflexivity).
  rewrite (initialize_at b (l1 ++ a :: l2) l3 Hnd).
  rewrite same_name_count_app. rewrite Hname.
  assert (H : (1 <= same_name_count (oname b) (a :: l2))%Z).
  { unfold same_name_count. simpl. rewrite Hname, String.eqb_refl.
    simpl List.length. lia. }
  lia.
Qed.

(** X7: when [initialize] of the base class is called for the modules
    of a list of distinct module objects, two modules of the same name
    never get the same count: the count identifies the module among
    those of its name. *)
Theorem initialize_ordinals_distinct (modules : list Obj) (a b : Obj) :
  NoDup (map oid modules) ->
  In a modules -> In b modules ->
  oname a = oname b ->
  initialize a modules = initialize b modules ->
  a = b.
Proof.
  intros Hnd Ha Hb Hname Hcount.
  destruct (in_split a modules Ha) as [l1 [l2 ->]].
  apply in_app_or in Hb. destruct Hb as [Hb | [Hb | Hb]].
  - destruct (in_split b l1 Hb) as [l3 [l4 ->]].
    rewrite <- app_assoc in Hnd, Hcount. simpl in Hnd, Hcount.
    pose proof (later_counts_more b a l3 l4 l2 Hnd (eq_sym Hname)). lia.
  - exact Hb.
  - destruct (in_split b l2 Hb) as [l3 [l4 ->]].
    pose proof (later_counts_more a b l1 l3 l4 Hnd Hname). lia.
Qed.

End PropertyList.

Lemma getPropertyByLabel_first_match_witness :
  let m := Registry.dummy_sensor in
  let label := "WAIT"%string in
  (forall p m',
      Registry.getPropertyByLabel m label = (Ok p, m') ->
      exists i,
        nth_error (Registry.properties m) i = Some p
        /\ (exists n : nat,
               substring n (String.length (Registry.lower label))
                 (Registry.lower (ModProp.plabel p)) = Registry.lower label)
        /\ (forall j q, (j < i)%nat ->
                        nth_error (Registry.properties m) j = Some q ->
                        Registry.matches label q = false)
        /\ m' = Registry.remember m label i)
  /\ ((forall q, In q (Registry.properties m) -> Registry.matches label q = false)
      <-> Registry.getPropertyByLabel m label
          = (Raise (ValueError "Property label not found"), m)).
Proof.
  intros m label.
  apply (getPropertyByLabel_first_match m label). reflexivity.
Defined.

Lemma getPropertyByLabel_pinned_witness :
  let m := Registry.dummy_sensor in
  exists i,
    nth_error (Registry.properties m) i
    = Some {| ModProp.plabel := "Wait Time (s)"; ModProp.type := ModProp.input;
              ModProp.value := PyStr "0"; ModProp.choices := [] |}
    /\ forall ps q,
         nth_error ps i = Some q ->
         Registry.getPropertyByLabel
           (Registry.with_properties (Registry.remember m "wait" 2) ps) "wait"
         = (Ok q, Registry.with_properties (Registry.remember m "wait" 2) ps)
         /\ Registry.hasProperty
              (Registry.with_properties (Registry.remember m "wait" 2) ps) "wait"
            = (true, Registry.with_properties (Registry.remember m "wait" 2) ps).
Proof.
  intro m.
  apply (getPropertyByLabel_pinned m "wait" _ (Registry.remember m "wait" 2)).
  reflexivity.
Defined.

Lemma hasProperty_agrees_witness :
  let m := Registry.dummy_sensor in
  (fst (Registry.hasProperty m "offset") = true
   <-> exists p, fst (Registry.getPropertyByLabel m "offset") = Ok p)
  /\ snd (Registry.hasProperty m "offset")
     = snd (Registry.getPropertyByLabel m "offset")
  /\ Registry.memo_in_range (snd (Registry.getPropertyByLabel m "offset")).
Proof.
  intro m. apply (hasProperty_agrees m "offset").
  intros k i H. destruct H.
Defined.

Lemma initialize_ordinals_distinct_witness :
  let first := {| Registry.oid := 0; Registry.oname := "Dummy Axis" |} in
  let second := {| Registry.oid := 1; Registry.oname := "Dummy Axis" |} in
  Registry.initialize first [first; second] = 0
  /\ Registry.initialize second [first; second] = 1
  /\ first = first.
Proof.
  intros first second. split; [reflexivity|]. split; [reflexivity|].
  apply (initialize_ordinals_distinct [first; second] first first).
  - repeat constructor; simpl; intuition discriminate.
  - left. reflexivity.
  - left. reflexivity.
  - reflexivity.
  - reflexivity.
Defined.

(** ** Scan points and file names, continued *)

Section ScanPointsMore.
Import FSRSutils.

Lemma upd_perm {A} (l : list A) (i : nat) (a x : A) :
  nth_error l i = Some a -> Permutation (x :: l) (a :: upd l i x).
Proof.
  revert i. induction l as [|h l IH]; intros [|i] H; simpl in *;
    try discriminate.
  - injection H as ->. apply perm_swap.
  - apply (perm_trans (perm_swap h x l)).
    apply (perm_trans (perm_skip h (IH i H))).
    apply perm_swap.
Qed.

Lemma swap_perm {A} (l : list A) (i j : nat) : Permutation (swap l i j) l.
Proof.
  unfold swap.
  destruct (nth_error l i) as [a|] eqn:Ei; [|reflexivity].
  destruct (nth_error l j) as [b|] eqn:Ej; [|reflexivity].
  assert (Ej' : nth_error (upd l i b) j = Some b).
  { rewrite nth_error_upd.
    destruct (Nat.eqb i j && (i <? List.length l)%nat)%bool;
      [reflexivity | exact Ej]. }
  pose proof (upd_perm l i a b Ei) as H1.
  pose proof (upd_perm (upd l i b) j b a Ej') as H2.
  symmetry. apply (Permutation_cons_inv (a := b)).
  apply (perm_trans H1 H2).
Qed.

Lemma shuffle_perm {A} (rnd : nat -> nat) (l : list A) :
  Permutation (shuffle rnd l) l.
Proof.
  unfold shuffle. generalize (List.length l - 1)%nat as i. intro i.
  revert l. induction i as [|i IH]; intro l; simpl; [reflexivity|].
  apply (perm_trans (IH _)). apply swap_perm.
Qed.

(** X8: the "Random" check box changes the order of the points and
    nothing else: whenever [prepareScanPoints] returns points, it also
    returns points with the box cleared, and the two lists are
    permutations of each other, in every mode. *)
Theorem random_only_permutes
    (logspace : Q -> Q -> Q -> list Q) (loadtxt : string -> list (list Q))
    (rnd : nat -> nat) (s : StageSettings) (pts : list Q) :
  prepareScanPoints logspace loadtxt rnd s = Ok pts ->
  exists sorted_order,
    prepareScanPoints logspace loadtxt rnd
      {| mode := mode s; from := from s; till := till s; step := step s;
         step_label := step_label s; random := false;
         use_file := use_file s |} = Ok sorted_order
    /\ Permutation sorted_order pts.
Proof.
  unfold prepareScanPoints. simpl.
  destruct (mode s =? 1)%Z.
  - intro H. injection H as <-. eexists. split; [reflexivity|].
    destruct (random s); [symmetry; apply shuffle_perm | reflexivity].
  - destruct (mode s =? 0)%Z.
    + destruct (linear_count (from s) (till s) (step s)) as [N|e];
        simpl bind; [|discriminate].
      destruct (linspace (from s) (till s) (Z.to_nat N)) as [points|e];
        simpl bind; [|discriminate].
      intro H. injection H as <-. eexists. split; [reflexivity|].
      destruct (random s); [symmetry; apply shuffle_perm | reflexivity].
    + intro H. injection H as <-. eexists. split; [reflexivity|].
      destruct (random s); [symmetry; apply shuffle_perm | reflexivity].
Qed.

Lemma append_cancel_l (a b c : string) :
  (a ++ b = a ++ c)%string -> b = c.
Proof.
  induction a as [|ch a IH]; simpl; intro H; [exact H|].
  injection H as H. exact (IH H).
Qed.

Lemma str_int_injective (a b : Z) : str_int a = str_int b -> a = b.
Proof.
  unfold str_int. intro H.
  assert (Hnn : forall z, Z.to_int z <> Decimal.Pos Decimal.Nil
                          /\ Z.to_int z <> Decimal.Neg Decimal.Nil).
  { intros [|p|p]; simpl; split; try discriminate;
      intro E; injection E as E;
      exact (DecimalPos.Unsigned.to_uint_nonnil p E). }
  apply DecimalZ.to_int_inj.
  assert (E : Some (Z.to_int a) = Some (Z.to_int b)).
  { rewrite <- (NilZero.isi (Z.to_int a)) by apply Hnn.
    rewrite <- (NilZero.isi (Z.to_int b)) by apply Hnn.
    rewrite H. reflexivity. }
  injection E as E. exact E.
Qed.

(** X10: for a given type, base name, delay and shutter state the file
    name determines the set number: two sets never share a file. *)
Theorem formatFSRSFilename_set_injective
    (type : Z) (basename : string) (step : Q) (shutter : Z) (set1 set2 : Z) :
  formatFSRSFilename type basename step set1 shutter
    = formatFSRSFilename type basename step set2 shutter ->
  set1 = set2.
Proof.
  unfold formatFSRSFilename. intro H.
  apply append_cancel_l in H. apply str_int_injective. exact H.
Qed.

Lemma Qltb_lt (a b : Q) : (a < b)%Q -> Qltb a b = true.
Proof.
  intro H. unfold Qltb. apply negb_true_iff.
  destruct (Qle_bool b a) eqn:E; [|reflexivity].
  apply Qle_bool_iff in E. exfalso. exact (Qle_not_lt _ _ E H).
Qed.

(** X11: the delay enters the file name through its sign and its
    integer part only: two positive delays in the same interval
    [n, n+1) give the same name, the name of the delay [n] itself when
    [n] is positive. *)
Theorem formatFSRSFilename_same_femtosecond
    (type : Z) (basename : string) (set shutter : Z) (n : Z) (s1 s2 : Q) :
  (0 < s1)%Q -> (0 < s2)%Q ->
  (inject_Z n <= s1)%Q -> (s1 < inject_Z (n + 1))%Q ->
  (inject_Z n <= s2)%Q -> (s2 < inject_Z (n + 1))%Q ->
  formatFSRSFilename type basename s1 set shutter
    = formatFSRSFilename type basename s2 set shutter
  /\ ((0 < n)%Z ->
      formatFSRSFilename type basename s1 set shutter
        = formatFSRSFilename type basename (inject_Z n) set shutter).
Proof.
  intros P1 P2 L1 U1 L2 U2.
  assert (Hint : forall s, (0 < s)%Q -> (inject_Z n <= s)%Q ->
                           (s < inject_Z (n + 1))%Q -> int_of_float s = n).
  { intros s Ps Ls Us. rewrite int_of_float_nonneg by (apply Qlt_le_weak; exact Ps).
    apply Qfloor_unique; assumption. }
  assert (Hname : forall s, (0 < s)%Q -> (inject_Z n <= s)%Q ->
                    (s < inject_Z (n + 1))%Q ->
                    formatFSRSFilename type basename s set shutter
                    = (let name := ((basename ++ "_") ++ "p")%string in
                       let name := (name ++ str_int (Z.abs n))%string in
                       let name :=
                         if (type =? 0)%Z then
                           if (shutter =? 0)%Z then (name ++ "gr")%string
                           else (name ++ "exc")%string
                         else (name ++ "_")%string in
                       (name ++ str_int set)%string)).
  { intros s Ps Ls Us. unfold formatFSRSFilename.
    rewrite (Hint s Ps Ls Us).
    replace (Qltb 0 s) with true by (symmetry; apply Qltb_lt; exact Ps).
    reflexivity. }
  split.
  - rewrite (Hname s1 P1 L1 U1), (Hname s2 P2 L2 U2). reflexivity.
  - intro Hn. rewrite (Hname s1 P1 L1 U1).
    symmetry. apply Hname.
    + change 0%Q with (inject_Z 0). rewrite <- Zlt_Qlt. exact Hn.
    + apply Qle_refl.
    + rewrite <- Zlt_Qlt. lia.
Qed.

End ScanPointsMore.

Lemma random_only_permutes_witness :
  exists sorted_order,
    FSRSutils.prepareScanPoints (fun _ _ _ => []) (fun _ => []) (fun _ => O)
      {| FSRSutils.mode := 0; FSRSutils.from := 0; FSRSutils.till := 20;
         FSRSutils.step := 10; FSRSutils.step_label := "Step Size (fs)";
         FSRSutils.random := false; FSRSutils.use_file := "" |}
    = Ok sorted_order
    /\ Permutation sorted_order
         (FSRSutils.shuffle (fun _ => O) [0; 10; 20]%Q).
Proof.
  apply (random_only_permutes (fun _ _ _ => []) (fun _ => []) (fun _ => O)
           {| FSRSutils.mode := 0; FSRSutils.from := 0; FSRSutils.till := 20;
              FSRSutils.step := 10; FSRSutils.step_label := "Step Size (fs)";
              FSRSutils.random := true; FSRSutils.use_file := "" |}).
  reflexivity.
Defined.

Lemma formatFSRSFilename_set_injective_witness : 2 = 2.
Proof.
  apply (formatFSRSFilename_set_injective 0 "run" (1504 # 10) 0 2 2).
  reflexivity.
Defined.

Lemma formatFSRSFilename_same_femtosecond_witness :
  FSRSutils.formatFSRSFilename 0 "run" (1504 # 10) 2 1
    = FSRSutils.formatFSRSFilename 0 "run" (1509 # 10) 2 1
  /\ ((0 < 150)%Z ->
      FSRSutils.formatFSRSFilename 0 "run" (1504 # 10) 2 1
        = FSRSutils.formatFSRSFilename 0 "run" (inject_Z 150) 2 1).
Proof.
  apply (formatFSRSFilename_same_femtosecond 0 "run" 2 1 150
           (1504 # 10) (1509 # 10)); reflexivity || discriminate.
Defined.

(** ** The life of a scan thread and the close request *)

Section ScanCycle.
Import Experiment.
Context {Args : Type}.
Implicit Types (s : Experiment.t Args) (l : list (Thread Args)).

Lemma upd_snoc {A} (l : list A) (x y : A) :
  FSRSutils.upd (l ++ [x]) (List.length l) y = l ++ [y].
Proof.
  induction l as [|a l IH]; simpl; [reflexivity | now rewrite IH].
Qed.

Lemma nth_error_snoc {A} (l : list A) (x : A) :
  nth_error (l ++ [x]) (List.length l) = Some x.
Proof.
  rewrite nth_error_app2 by lia. rewrite Nat.sub_diag. reflexivity.
Qed.

Lemma map_thread_snoc (f : Thread Args -> Thread Args) l (th : Thread Args) :
  map_thread Args f (List.length l) (l ++ [th]) = l ++ [f th].
Proof.
  unfold map_thread. rewrite nth_error_snoc. apply upd_snoc.
Qed.

Lemma alive_count_snoc l (th : Thread Args) :
  List.length (filter (@alive Args) (l ++ [th]))
  = (List.length (filter (@alive Args) l) + if alive th then 1 else 0)%nat.
Proof.
  rewrite filter_app, length_app. simpl. destruct (alive th); reflexivity.
Qed.

(** X12: a scan that is reported finished while its thread is still
    alive leaves the module ready again.  From a module without a
    handle and without a live thread, start, the started notice, a
    stop if there is one, and [onFinished] give a module with no
    handle, no live thread, not running, the user interface released
    and the start button showing its old label; the next start gets a
    new thread. *)
Theorem finished_scan_is_ready_again s (argv argv' : Args) (stopped : bool) :
  scanThread s = None ->
  alive_count s = O ->
  let s1 := start s argv in
  let s2 := onStarted s1 in
  let s3 := if stopped then stop s2 else s2 in
  let s4 := onFinished s3 in
  scanThread s1 = Some (List.length (threads s))
  /\ alive_count s1 = 1%nat
  /\ running s2 = true /\ others_frozen s2 = true
  /\ scanThread s4 = None
  /\ alive_count s4 = O
  /\ running s4 = false /\ others_frozen s4 = false
  /\ start_button s4 = start_button s
  /\ scanThread (start s4 argv') = Some (List.length (threads s4))
  /\ alive_count (start s4 argv') = 1%nat.
Proof.
  intros Hnone Hdead s1 s2 s3 s4.
  unfold alive_count in *.
  assert (E1 : threads s1
               = threads s ++ [{| args := argv; alive := true;
                                  canQuit_set := false |}]
               /\ scanThread s1 = Some (List.length (threads s))
               /\ start_button s1
                  = match start_button s with
                    | Some _ => Some "STOP"%string
                    | None => None
                    end
               /\ (start_button s <> None ->
                   Some (btnOldLabel s1) = start_button s)).
  { unfold s1, start. rewrite Hnone.
    destruct (start_button s); simpl; repeat split; congruence. }
  destruct E1 as [Et1 [Eh1 [Eb1 Eo1]]].
  assert (E3 : exists c,
             threads s3 = threads s ++ [{| args := argv; alive := true;
                                           canQuit_set := c |}]
             /\ scanThread s3 = Some (List.length (threads s))
             /\ start_button s3 = start_button s1
             /\ btnOldLabel s3 = btnOldLabel s1).
  { unfold s3, s2. destruct stopped.
    - exists true. unfold stop, onStarted. simpl. rewrite Eh1. simpl.
      rewrite Et1, map_thread_snoc. repeat split; reflexivity.
    - exists false. unfold onStarted. simpl. rewrite Et1.
      repeat split; try reflexivity. exact Eh1. }
  destruct E3 as [c [Et3 [Eh3 [Eb3 Eo3]]]].
  assert (E4 : threads s4 = threads s ++ [{| args := argv; alive := false;
                                             canQuit_set := c |}]
               /\ scanThread s4 = None
               /\ running s4 = false /\ others_frozen s4 = false
               /\ start_button s4 = start_button s).
  { unfold s4, onFinished. rewrite Eh3.
    assert (Ea : is_alive s3 (List.length (threads s)) = true)
      by (unfold is_alive; rewrite Et3, nth_error_snoc; reflexivity).
    rewrite Ea. simpl. rewrite Et3, map_thread_snoc.
    repeat split; try reflexivity.
    rewrite Eb3, Eb1, Eo3.
    destruct (start_button s) as [lbl|] eqn:Eb; [|reflexivity].
    apply Eo1. discriminate. }
  destruct E4 as [Et4 [Eh4 [Er4 [Ef4 Eb4]]]].
  split; [exact Eh1|].
  split; [rewrite Et1, alive_count_snoc, Hdead; reflexivity|].
  split; [reflexivity|]. split; [reflexivity|].
  split; [exact Eh4|].
  split; [rewrite Et4, alive_count_snoc, Hdead; reflexivity|].
  split; [exact Er4|]. split; [exact Ef4|]. split; [exact Eb4|].
  unfold start. rewrite Eh4.
  destruct (start_button s4); simpl;
    (split; [reflexivity|]);
    rewrite alive_count_snoc, Et4, alive_count_snoc, Hdead; reflexivity.
Qed.

End ScanCycle.

Lemma finished_scan_is_ready_again_witness :
  let s := Experiment.init (Some "Scan"%string) in
  let s1 := Experiment.start s tt in
  let s2 := Experiment.onStarted s1 in
  let s3 := if true then Experiment.stop s2 else s2 in
  let s4 := Experiment.onFinished s3 in
  Experiment.scanThread s1 = Some (List.length (Experiment.threads s))
  /\ Experiment.alive_count s1 = 1%nat
  /\ Experiment.running s2 = true /\ Experiment.others_frozen s2 = true
  /\ Experiment.scanThread s4 = None
  /\ Experiment.alive_count s4 = O
  /\ Experiment.running s4 = false /\ Experiment.others_frozen s4 = false
  /\ Experiment.start_button s4 = Experiment.start_button s
  /\ Experiment.scanThread (Experiment.start s4 tt)
     = Some (List.length (Experiment.threads s4))
  /\ Experiment.alive_count (Experiment.start s4 tt) = 1%nat.
Proof.
  apply (finished_scan_is_ready_again (Experiment.init (Some "Scan"%string))
           tt tt true); reflexivity.
Defined.

(** *** The close request *)

Section CloseRequest.
Import PyFSRS.
Context {Args : Type}.
Implicit Types (ms : list (App.Module (ModState Args))).

Lemma canQuit_lets_go (st : ModState Args) (yes : bool) :
  truthy (fst (canQuit_state st yes)) = lets_go st yes.
Proof.
  destruct st as [|e]; [reflexivity|].
  unfold canQuit_state, lets_go, Experiment.canQuit.
  destruct (Experiment.scanThread e) as [h|]; [|reflexivity].
  destruct (Experiment.is_alive e h); [|reflexivity].
  destruct yes; reflexivity.
Qed.

Lemma ask_all_veto (yes : nat -> bool) ms :
  forall (i : nat) (veto : bool),
    fst (ask_all yes i ms veto) = veto || negb (all_let_go yes i ms).
Proof.
  induction ms as [|m ms IH]; intros i veto; simpl.
  - now rewrite orb_false_r.
  - rewrite IH, canQuit_lets_go.
    destruct veto, (lets_go (App.state m) (yes i)); reflexivity.
Qed.

(** X13: a close request that can be vetoed destroys the window exactly
    when every module lets the application go: it has no scan thread
    handle, or its scan thread is alive and the user agrees to stop
    it.  A close request that cannot be vetoed always destroys it. *)
Theorem onQuit_decision (yes : nat -> bool) (f : App.t (ModState Args)) :
  App.destroyed f = false ->
  (App.destroyed (onQuit true yes f) = true
   <-> all_let_go yes 0 (App.modules f) = true)
  /\ App.destroyed (onQuit false yes f) = true.
Proof.
  intro Hd. split; [|reflexivity].
  unfold onQuit. cbn [andb].
  destruct (App.modules f) as [|m ms] eqn:Em.
  - split; reflexivity.
  - replace (0 <? List.length (m :: ms))%nat with true by reflexivity.
    cbv zeta. rewrite ask_all_veto.
    set (go := all_let_go yes 0 (m :: ms)).
    destruct go; cbn [orb negb].
    + split; reflexivity.
    + cbn [App.destroyed]. rewrite Hd. split; discriminate.
Qed.

Lemma canQuit_keeps_stale (e : Experiment.t Args) (h n : nat) (yes : bool) :
  Experiment.stale e h n ->
  snd (Experiment.canQuit e yes) = e
  /\ truthy (fst (Experiment.canQuit e yes)) = false.
Proof.
  intros [Hh [Hd _]]. unfold Experiment.canQuit. rewrite Hh, Hd.
  split; reflexivity.
Qed.

Lemma ask_all_stale (yes : nat -> bool) ms :
  holds_stale ms ->
  forall (i : nat) (veto : bool),
    fst (ask_all yes i ms veto) = true
    /\ holds_stale (snd (ask_all yes i ms veto)).
Proof.
  intros [m [e [h [n [Hin [Hst Hstale]]]]]].
  induction ms as [|m0 ms IH]; [destruct Hin|].
  intros i veto. simpl. destruct Hin as [-> | Hin].
  - rewrite Hst. simpl.
    destruct (canQuit_keeps_stale e h n (yes i) Hstale) as [Ee Et].
    rewrite Et, Ee. split.
    + rewrite ask_all_veto. rewrite orb_true_r. reflexivity.
    + exists (with_state m (Exp e)), e, h, n.
      split; [left; reflexivity|]. split; [reflexivity | exact Hstale].
  - destruct (IH Hin (S i)
                (veto || negb (truthy (fst (canQuit_state (App.state m0) (yes i))))))
      as [Hv [m' [e' [h' [n' [Hin' [Hst' Hstale']]]]]]].
    split; [exact Hv|].
    exists m', e', h', n'. split; [right; exact Hin'|].
    split; assumption.
Qed.

(** X14: when an experiment holds the handle of a scan thread that is
    no longer alive (the state C9 describes), its [canQuit] answers
    False without asking, so no sequence of close requests that can be
    vetoed ever destroys the window, whatever the user answers. *)
Theorem stale_handle_blocks_quit
    (answers : list (nat -> bool)) (f : App.t (ModState Args)) :
  holds_stale (App.modules f) ->
  App.destroyed f = false ->
  App.destroyed (close_requests answers f) = false
  /\ holds_stale (App.modules (close_requests answers f)).
Proof.
  revert f. induction answers as [|yes rest IH]; intros f Hs Hd; simpl.
  - split; assumption.
  - assert (Hne : (0 <? List.length (App.modules f))%nat = true).
    { destruct Hs as [m [_ [_ [_ [Hin _]]]]].
      destruct (App.modules f); [destruct Hin | reflexivity]. }
    destruct (ask_all_stale yes (App.modules f) Hs 0 false) as [Hv Hs'].
    apply IH.
    + unfold onQuit. simpl. rewrite Hne, Hv. simpl. exact Hs'.
    + unfold onQuit. simpl. rewrite Hne, Hv. simpl. exact Hd.
Qed.

End CloseRequest.

Lemma onQuit_decision_witness :
  let f := {| App.modules :=
                [ {| App.name := "FSRS Scan 2";
                     App.state := PyFSRS.Exp (Experiment.init (Args := unit) None);
                     App.shutdown_method := PyFSRS.shutdown_state;
                     App.shutdown_calls := 0 |} ];
              App.destroyed := false |} in
  (App.destroyed (PyFSRS.onQuit true (fun _ => false) f) = true
   <-> PyFSRS.all_let_go (fun _ => false) 0 (App.modules f) = true)
  /\ App.destroyed (PyFSRS.onQuit false (fun _ => false) f) = true.
Proof.
  intro f. apply (onQuit_decision (fun _ => false) f). reflexivity.
Defined.

Lemma stale_handle_blocks_quit_witness :
  let e := Experiment.onFinished
             (Experiment.thread_exit
                (Experiment.start (Experiment.init (Some "Scan"%string)) tt) 0) in
  let f := {| App.modules :=
                [ {| App.name := "FSRS Scan 2";
                     App.state := PyFSRS.Exp e;
                     App.shutdown_method := PyFSRS.shutdown_state;
                     App.shutdown_calls := 0 |} ];
              App.destroyed := false |} in
  let answers := [fun _ : nat => true; fun _ : nat => false] in
  App.destroyed (PyFSRS.close_requests answers f) = false
  /\ PyFSRS.holds_stale (App.modules (PyFSRS.close_requests answers f)).
Proof.
  intros e f answers.
  apply (stale_handle_blocks_quit answers f).
  - exists {| App.name := "FSRS Scan 2"; App.state := PyFSRS.Exp e;
              App.shutdown_method := PyFSRS.shutdown_state;
              App.shutdown_calls := 0 |}, e, O, 1%nat.
    split; [left; reflexivity|]. split; [reflexivity|].
    repeat split; reflexivity.
  - reflexivity.
Defined.

(** ** Acquisition: the thread and the module *)

Section Acquisition.
Import AcquireThread.

Context {Val : Type}.
Variable ccd_readNframes : list (Event Val) -> Z -> Val.
Variable ccd_polls : list (Event Val) -> nat.
Variable canQuit : Flag.t.
Variable frames : Z.

Lemma sets_loop_rounds (left : nat) :
  forall st : St Val,
    exists vals,
      trace (sets_loop ccd_readNframes ccd_polls canQuit frames left st)
      = trace st ++ rounds frames vals
      /\ (List.length vals <= left)%nat
      /\ (canQuit = None -> List.length vals = left)
      /\ (Flag.isSet canQuit (polls st) = true -> vals = [])
      /\ Forall (fun v => exists tr, v = ccd_readNframes tr frames) vals.
Proof.
  induction left as [|left IH]; intro st; simpl.
  - exists []. destruct (Flag.isSet canQuit (polls st)); simpl;
      rewrite app_nil_r; repeat split; auto; lia.
  - destruct (Flag.isSet canQuit (polls st)) eqn:Eq.
    + exists []. simpl. rewrite app_nil_r. repeat split; auto; try lia.
      intro Hn. rewrite Hn in Eq. discriminate.
    + match goal with
      | |- context [sets_loop _ _ _ _ left ?s] => destruct (IH s)
            as [vals [Et [Hle [Hnone [_ Hall]]]]]
      end.
      exists (ccd_readNframes (trace st) frames :: vals).
      rewrite Et. simpl. rewrite <- !app_assoc. simpl.
      repeat split; try lia.
      * intro Hn. rewrite (Hnone Hn). reflexivity.
      * constructor; [eexists; reflexivity | exact Hall].
Qed.

Lemma updates_app (a b : list (Event Val)) :
  updates (a ++ b) = updates a ++ updates b.
Proof.
  induction a as [|e a IH]; simpl; [reflexivity|].
  destruct e; simpl; rewrite IH; reflexivity.
Qed.

Lemma updates_rounds (vals : list Val) : updates (rounds frames vals) = vals.
Proof.
  induction vals as [|v vals IH]; simpl; [reflexivity | now rewrite IH].
Qed.

(** The trace of a run: the start, the rounds, the end. *)
Lemma run_rounds (sets : Z) :
  exists vals,
    trace (run ccd_readNframes ccd_polls canQuit frames sets)
    = [EvStarted; EvSleep 0.1] ++ rounds frames vals ++ [EvFinished]
    /\ updates (trace (run ccd_readNframes ccd_polls canQuit frames sets)) = vals
    /\ (Z.of_nat (List.length vals) <= Z.max 0 sets)%Z
    /\ (canQuit = None -> Z.of_nat (List.length vals) = Z.max 0 sets)
    /\ (Flag.isSet canQuit 0 = true -> vals = [])
    /\ Forall (fun v => exists tr, v = ccd_readNframes tr frames) vals.
Proof.
  unfold run.
  destruct (sets_loop_rounds (Z.to_nat sets)
              {| trace := [EvStarted; EvSleep 0.1]; polls := 0 |})
    as [vals [Et [Hle [Hnone [Hset Hall]]]]].
  exists vals. simpl trace. rewrite Et. simpl trace.
  split; [rewrite <- app_assoc; reflexivity|].
  split.
  { rewrite !updates_app, updates_rounds. simpl. apply app_nil_r. }
  split; [lia|]. split; [intro H; rewrite (Hnone H); lia|].
  split; [exact Hset | exact Hall].
Qed.

(** X15: [AcquireThread.run] posts [onStarted], sleeps, then reads the
    camera and posts the value read, once per set, and posts
    [onFinished] last and only there.  It makes at most [sets] rounds,
    exactly [sets] when the stop flag is never set, and none when the
    flag is set before the first poll. *)
Theorem acquire_run_rounds (sets : Z) :
  exists vals,
    trace (run ccd_readNframes ccd_polls canQuit frames sets)
    = [EvStarted; EvSleep 0.1] ++ rounds frames vals ++ [EvFinished]
    /\ updates (trace (run ccd_readNframes ccd_polls canQuit frames sets)) = vals
    /\ (Z.of_nat (List.length vals) <= Z.max 0 sets)%Z
    /\ (canQuit = None -> Z.of_nat (List.length vals) = Z.max 0 sets)
    /\ (Flag.isSet canQuit 0 = true -> vals = [])
    /\ Forall (fun v => exists tr, v = ccd_readNframes tr frames) vals.
Proof.
  unfold run.
  destruct (sets_loop_rounds (Z.to_nat sets)
              {| trace := [EvStarted; EvSleep 0.1]; polls := 0 |})
    as [vals [Et [Hle [Hnone [Hset Hall]]]]].
  exists vals. simpl trace. rewrite Et. simpl trace.
  split; [rewrite <- app_assoc; reflexivity|].
  split.
  { rewrite !updates_app, updates_rounds. simpl. apply app_nil_r. }
  split; [lia|]. split; [intro H; rewrite (Hnone H); lia|].
  split; [exact Hset | exact Hall].
Qed.

End Acquisition.

Section AcquisitionResult.
Import FSRSAcquire.

Variable neg_log : Q -> Q.
Variable neg_log10 : Q -> Q.

Lemma setValue_int_stored (p p' : ModProp.t) (z : Z) :
  ModProp.setValue p (PyInt z) = Ok p' -> p' = ModProp.with_value p (PyInt z).
Proof.
  unfold ModProp.setValue.
  destruct (_ && _); [discriminate|].
  destruct (_ && _); [discriminate|].
  destruct (_ && _); [discriminate|].
  destruct (ModProp.PropType_eqb (ModProp.type p) ModProp.spin); simpl;
    intro H; injection H as <-; reflexivity.
Qed.

Lemma onUpdate_inv (s s' : t) (v : list Q * list Q * list Q) :
  onUpdate neg_log neg_log10 s v = Ok s' ->
  N s' = (N s + 1)%Z /\ sets s' = sets s /\ mode s' = mode s
  /\ sets s <> 0%Z
  /\ progress s'
     = ModProp.with_value (progress s) (PyInt ((N s + 1) * 100 / sets s))
  /\ data s'
     = if (N s + 1 =? 1)%Z then result_of neg_log neg_log10 (mode s) v
       else arr_add (data s)
              (arr_div (arr_sub (result_of neg_log neg_log10 (mode s) v) (data s))
                 (inject_Z (N s + 1))).
Proof.
  unfold onUpdate. destruct v as [[A B] C]. unfold floordiv.
  destruct (sets s =? 0)%Z eqn:E0; [discriminate|]. simpl bind.
  destruct (ModProp.setValue (progress s) (PyInt ((N s + 1) * 100 / sets s)))
    as [p|e] eqn:Ep; [|discriminate].
  simpl. intro H. injection H as <-. simpl.
  apply setValue_int_stored in Ep. apply Z.eqb_neq in E0.
  repeat split; try assumption; reflexivity.
Qed.

Lemma onUpdates_inv (vals : list (list Q * list Q * list Q)) :
  forall s s' : t,
    onUpdates neg_log neg_log10 s vals = Ok s' ->
    (N s >= 1 -> List.length (data s) = 3%nat)%Z ->
    (0 <= N s)%Z ->
    N s' = (N s + Z.of_nat (List.length vals))%Z
    /\ sets s' = sets s
    /\ (vals <> [] ->
        List.length (data s') = 3%nat
        /\ ModProp.value (progress s') = PyInt (N s' * 100 / sets s))
    /\ (vals = [] -> s' = s).
Proof.
  induction vals as [|v vals IH]; intros s s' H Hrows Hn; simpl in H.
  - injection H as <-. simpl. split; [lia|]. split; [reflexivity|].
    split; [intro Hc; contradiction | reflexivity].
  - destruct (onUpdate neg_log neg_log10 s v) as [s1|e] eqn:E1;
      [|discriminate].
    simpl in H.
    destruct (onUpdate_inv s s1 v E1) as [HN1 [Hs1 [_ [_ [Hp1 Hd1]]]]].
    assert (Hrows1 : List.length (data s1) = 3%nat).
    { rewrite Hd1. destruct (N s + 1 =? 1)%Z eqn:E.
      - destruct v as [[A B] C]. reflexivity.
      - apply Z.eqb_neq in E. unfold arr_add, arr_div, arr_sub.
        rewrite zipWith_length, length_map, zipWith_length.
        rewrite Hrows by lia. destruct v as [[A B] C]. reflexivity. }
    destruct (IH s1 s' H) as [HN' [Hs' [Hne Hnil]]]; [auto | lia |].
    split; [rewrite HN', HN1; simpl List.length; lia|].
    split; [congruence|].
    split; [|discriminate].
    intros _. destruct vals as [|v' vals'].
    + rewrite (Hnil eq_refl). split; [exact Hrows1|].
      rewrite Hp1, HN1. reflexivity.
    + destruct Hne as [Hr Hv]; [discriminate|].
      split; [exact Hr|]. rewrite Hv, Hs1. reflexivity.
Qed.

Lemma onStart_resets (m m0 : AcquireModule.t) :
  Experiment.running (AcquireModule.exp m) = false ->
  AcquireModule.onStart m = Ok m0 ->
  N (AcquireModule.acc m0) = 0%Z /\ data (AcquireModule.acc m0) = []
  /\ sets (AcquireModule.acc m0) = sets (AcquireModule.acc m).
Proof.
  unfold AcquireModule.onStart. intros -> H.
  destruct (ModProp.setValue _ _) as [p|e]; [|discriminate].
  simpl in H.
  destruct (FSRSScan2.py_nth _ _) as [ccd|e]; [|discriminate].
  simpl in H. injection H as <-. simpl. repeat split.
Qed.

(** X16: an acquisition that [onStart] has started hands three lines to
    the plot window in [onFinished] when at least one update has been
    processed in between, and raises [ValueError] in
    [A, B, C = self.data] when none has: an acquisition stopped before
    its first set ends with an exception in the controller, the base
    class having run. *)
Theorem onFinished_needs_an_update
    (m m0 : AcquireModule.t) (vals : list (list Q * list Q * list Q))
    (a' : t) :
  Experiment.running (AcquireModule.exp m) = false ->
  AcquireModule.onStart m = Ok m0 ->
  onUpdates neg_log neg_log10 (AcquireModule.acc m0) vals = Ok a' ->
  let m' := AcquireModule.with_acc_exp m0 a' (AcquireModule.exp m0) in
  ((exists e, snd (AcquireModule.onFinished m') = Raise e) <-> vals = [])
  /\ AcquireModule.exp (fst (AcquireModule.onFinished m'))
     = Experiment.onFinished (AcquireModule.exp m0).
Proof.
  intros Hrun Hstart H m'. split; [|reflexivity].
  destruct (onStart_resets m m0 Hrun Hstart) as [HN [Hd _]].
  destruct (onUpdates_inv vals _ _ H) as [_ [_ [Hne Hnil]]]; [lia | lia |].
  unfold AcquireModule.onFinished. simpl.
  destruct vals as [|v vals].
  - rewrite (Hnil eq_refl), Hd. simpl.
    split; [reflexivity | intros _; eexists; reflexivity].
  - destruct Hne as [Hr _]; [discriminate|].
    destruct (data a') as [|A [|B [|C [|D rest]]]]; try discriminate Hr.
    simpl. split; [intros [e He]; discriminate | discriminate].
Qed.

(** X17: thread and controller together.  With a camera whose frames
    have one width, a progress property and at least one set asked
    for, the updates posted by [AcquireThread.run] are all accepted by
    [onUpdate]: the count [N] is the number of updates and never
    exceeds the number of sets; when the stop flag is never set, [N]
    ends at the number of sets and the progress bar at 100. *)
Theorem acquisition_is_accepted
    (w : nat)
    (ccd_readNframes : list (AcquireThread.Event (list Q * list Q * list Q))
                       -> Z -> list Q * list Q * list Q)
    (ccd_polls : list (AcquireThread.Event (list Q * list Q * list Q)) -> nat)
    (canQuit : Flag.t) (frames : Z) (a : t) :
  (forall tr fr, frame_width w (ccd_readNframes tr fr)) ->
  N a = 0%Z ->
  ModProp.type (progress a) = ModProp.progress ->
  (1 <= sets a)%Z ->
  let vals :=
    AcquireThread.updates
      (AcquireThread.trace
         (AcquireThread.run ccd_readNframes ccd_polls canQuit frames (sets a))) in
  exists a',
    onUpdates neg_log neg_log10 a vals = Ok a'
    /\ N a' = Z.of_nat (List.length vals)
    /\ (N a' <= sets a)%Z
    /\ (canQuit = None ->
        N a' = sets a /\ ModProp.value (progress a') = PyInt 100).
Proof.
  intros Hw HN Ht Hsets vals.
  destruct (run_rounds ccd_readNframes ccd_polls canQuit frames (sets a))
    as [vals' [_ [Eu [Hle [Hnone [_ Hall]]]]]].
  fold vals in Eu. subst vals'.
  assert (Hwidth : Forall (frame_width w) vals).
  { eapply Forall_impl; [|exact Hall]. intros v [tr ->]. apply Hw. }
  destruct (onUpdates_total neg_log neg_log10 w vals a (fun _ _ => 0%Q) Ht)
    as [a' [E [HN' _]]].
  - lia.
  - lia.
  - exact Hwidth.
  - intro H. lia.
  - intros r c _ _. rewrite HN. ring.
  - exists a'. split; [exact E|]. split; [lia|]. split; [lia|].
    intro Hc. specialize (Hnone Hc). split; [lia|].
    destruct (onUpdates_inv vals a a' E) as [_ [_ [Hne _]]]; [lia | lia |].
    destruct Hne as [_ Hv].
    + intro Hnil. rewrite Hnil in Hnone. simpl in Hnone. lia.
    + rewrite Hv. f_equal.
      replace (N a') with (sets a) by lia.
      rewrite Z.mul_comm. apply Z.div_mul. lia.
Qed.

End AcquisitionResult.

Lemma onFinished_needs_an_update_witness :
  let a := {| FSRSAcquire.N := 5; FSRSAcquire.data := [[7%Q]; [8%Q]; [9%Q]];
              FSRSAcquire.intdata := []; FSRSAcquire.mode := 2;
              FSRSAcquire.sets := 1;
              FSRSAcquire.progress :=
                {| ModProp.plabel := "Progress"; ModProp.type := ModProp.progress;
                   ModProp.value := PyInt 100; ModProp.choices := [] |} |} in
  let m := {| AcquireModule.acc := a;
              AcquireModule.exp := Experiment.init (Some "Acquire"%string);
              AcquireModule.cameras := ["PIXIS100"%string];
              AcquireModule.p_camera := 0; AcquireModule.p_frames := 8000 |} in
  let vals := [([1%Q], [2%Q], [3%Q])] in
  exists m0 a',
    AcquireModule.onStart m = Ok m0
    /\ FSRSAcquire.onUpdates (fun x => x) (fun x => x)
         (AcquireModule.acc m0) vals = Ok a'
    /\ (((exists e, snd (AcquireModule.onFinished
                          (AcquireModule.with_acc_exp m0 a' (AcquireModule.exp m0)))
                   = Raise e) <-> vals = [])
        /\ AcquireModule.exp
             (fst (AcquireModule.onFinished
                     (AcquireModule.with_acc_exp m0 a' (AcquireModule.exp m0))))
           = Experiment.onFinished (AcquireModule.exp m0)).
Proof.
  intros a m vals.
  destruct (AcquireModule.onStart m) as [m0|e] eqn:Es; [|discriminate Es].
  destruct (FSRSAcquire.onUpdates (fun x => x) (fun x => x)
              (AcquireModule.acc m0) vals) as [a'|e] eqn:E.
  - exists m0, a'. split; [reflexivity|]. split; [exact E|].
    apply (onFinished_needs_an_update (fun x => x) (fun x => x) m m0 vals a').
    + reflexivity.
    + exact Es.
    + exact E.
  - exfalso. vm_compute in Es. injection Es as <-. vm_compute in E.
    discriminate E.
Defined.

Lemma acquisition_is_accepted_witness :
  let a := {| FSRSAcquire.N := 0; FSRSAcquire.data := [];
              FSRSAcquire.intdata := []; FSRSAcquire.mode := 2;
              FSRSAcquire.sets := 2;
              FSRSAcquire.progress :=
                {| ModProp.plabel := "Progress"; ModProp.type := ModProp.progress;
                   ModProp.value := PyInt 0; ModProp.choices := [] |} |} in
  let ccd := fun (_ : list (AcquireThread.Event (list Q * list Q * list Q)))
                 (_ : Z) => ([1%Q], [2%Q], [3%Q]) in
  let vals :=
    AcquireThread.updates
      (AcquireThread.trace
         (AcquireThread.run ccd (fun _ => 1%nat) None 8000 2)) in
  exists a',
    FSRSAcquire.onUpdates (fun x => x) (fun x => x) a vals = Ok a'
    /\ FSRSAcquire.N a' = Z.of_nat (List.length vals)
    /\ (FSRSAcquire.N a' <= 2)%Z
    /\ (@None nat = None ->
        FSRSAcquire.N a' = 2
        /\ ModProp.value (FSRSAcquire.progress a') = PyInt 100).
Proof.
  intros a ccd vals.
  apply (acquisition_is_accepted (fun x => x) (fun x => x) 1 ccd
           (fun _ => 1%nat) None 8000 a).
  - intros tr fr. simpl. repeat split.
  - reflexivity.
  - reflexivity.
  - simpl. lia.
Defined.

(** ** The band integral of the camera *)

Section BandIntegral.
Import PIXIS100Band.

Lemma clip_mono (n i j : Z) :
  (0 <= n)%Z -> (0 <= i)%Z -> (i <= j)%Z -> (clip n i <= clip n j)%Z.
Proof.
  intros Hn Hi Hij. unfold clip.
  destruct (i <? 0)%Z eqn:Ei; [apply Z.ltb_lt in Ei; lia|].
  destruct (j <? 0)%Z eqn:Ej; [apply Z.ltb_lt in Ej; lia|].
  lia.
Qed.

Lemma py_slice_backwards {A : Type} (l : list A) (i j : Z) :
  (0 <= i)%Z -> (i <= j)%Z -> py_slice l j i = [].
Proof.
  intros Hi Hij. unfold py_slice.
  assert (H := clip_mono (Z.of_nat (List.length l)) i j ltac:(lia) Hi Hij).
  destruct (_ <? _)%Z eqn:E; [apply Z.ltb_lt in E; lia | reflexivity].
Qed.

Lemma band_of_distinct (c : PIXIS100.Row) (vmin vmax : Z) :
  (0 <= vmin)%Z -> (0 <= vmax)%Z -> vmin <> vmax ->
  exists q, band c vmin vmax = Value q /\ (q == 0)%Q.
Proof.
  intros Hmin Hmax Hne.
  assert (Hzero : forall d : Z, d <> 0%Z ->
            exists q, PIXIS100.np_divide (np_sum []) (Value (inject_Z d)) = Value q
                      /\ (q == 0)%Q).
  { intros d Hd. unfold np_sum. simpl fold_right. unfold PIXIS100.np_divide.
    destruct (Qeq_bool (inject_Z d) 0) eqn:Ed.
    - apply Qeq_bool_iff in Ed. change 0%Q with (inject_Z 0) in Ed.
      rewrite inject_Z_injective in Ed. contradiction.
    - eexists. split; [reflexivity|]. apply Qeq_bool_neq in Ed.
      field. exact Ed. }
  unfold band.
  destruct (vmax <? vmin)%Z eqn:E.
  - apply Z.ltb_lt in E.
    rewrite (py_slice_backwards c vmax vmin) by lia.
    apply Hzero. lia.
  - apply Z.ltb_ge in E.
    rewrite (py_slice_backwards c vmin vmax) by lia.
    apply Hzero. lia.
Qed.

(** X18: [PIXIS100.read] returns, and with two distinct band limits
    that are not negative it returns 0 whatever the camera delivered:
    after the limits are put in order the slice [c[i2:i1]] runs
    backwards and is empty. *)
Theorem read_ignores_the_frames
    (w : nat) (cam_readNFrames : nat -> nat -> list (list PIXIS100.Frame))
    (flip : bool) (n : nat) (vmin vmax : Z) (st : PIXIS100.State)
    (extra : nat) :
  (0 <= vmin)%Z -> (0 <= vmax)%Z -> vmin <> vmax ->
  exists q st',
    read w cam_readNFrames flip (6 + extra) n vmin vmax st = Some (Value q, st')
    /\ (q == 0)%Q.
Proof.
  intros Hmin Hmax Hne. unfold read, PIXIS100.readNframes.
  destruct (read_loop_contract w cam_readNFrames flip n None 5 0 (6 + extra) st)
    as [c [A [B [st' [E _]]]]]; [lia | lia |].
  rewrite E.
  destruct (band_of_distinct c vmin vmax Hmin Hmax Hne) as [q [Eq Hq]].
  exists q, st'. rewrite Eq. split; [reflexivity | exact Hq].
Qed.

End BandIntegral.

Lemma read_ignores_the_frames_witness :
  exists q st',
    PIXIS100Band.read 2 PIXIS100.late_driver false 6 2 0 2
      {| PIXIS100.reads := 0; PIXIS100.polls := 0 |} = Some (PIXIS100Band.Value q, st')
    /\ (q == 0)%Q.
Proof.
  apply (read_ignores_the_frames 2 PIXIS100.late_driver false 2 0 2
           {| PIXIS100.reads := 0; PIXIS100.polls := 0 |} 0); lia.
Defined.

(** ** The shutter line *)

Section ShutterLine.
Import NIShutter.

Lemma land_mask (x c : Z) :
  (0 <= c)%Z ->
  Z.land x (Z.shiftl 1 c) = if Z.testbit x c then Z.shiftl 1 c else 0%Z.
Proof.
  intro Hc. rewrite Z.shiftl_1_l. apply Z.bits_inj'. intros i Hi.
  rewrite Z.land_spec, Z.pow2_bits_eqb by lia.
  destruct (Z.eqb_spec c i) as [->|Hne].
  - destruct (Z.testbit x i); simpl.
    + symmetry. apply Z.pow2_bits_true. lia.
    + symmetry. apply Z.bits_0.
  - rewrite andb_false_r. destruct (Z.testbit x c).
    + symmetry. apply Z.pow2_bits_false. exact Hne.
    + symmetry. apply Z.bits_0.
Qed.

Lemma mask_nonzero (c : Z) : (0 <= c)%Z -> Z.shiftl 1 c <> 0%Z.
Proof.
  intro Hc. rewrite Z.shiftl_1_l.
  assert (0 < 2 ^ c)%Z by (apply Z.pow_pos_nonneg; lia). lia.
Qed.

Lemma bool_of_land_mask (x c : Z) :
  (0 <= c)%Z -> bool_of_int (Z.land x (Z.shiftl 1 c)) = Z.testbit x c.
Proof.
  intro Hc. rewrite land_mask by exact Hc. unfold bool_of_int.
  destruct (Z.testbit x c).
  - destruct (Z.eqb_spec (Z.shiftl 1 c) 0) as [E|_]; [|reflexivity].
    exfalso. exact (mask_nonzero c Hc E).
  - reflexivity.
Qed.

Lemma same_level (x y c : Z) :
  (0 <= c)%Z ->
  (Z.land x (Z.shiftl 1 c) =? Z.land y (Z.shiftl 1 c))%Z
  = Bool.eqb (Z.testbit x c) (Z.testbit y c).
Proof.
  intro Hc. rewrite !land_mask by exact Hc.
  pose proof (mask_nonzero c Hc) as Hm.
  destruct (Z.testbit x c), (Z.testbit y c); cbn [Bool.eqb];
    [apply Z.eqb_refl | apply Z.eqb_neq; lia | apply Z.eqb_neq; lia
    | reflexivity].
Qed.

Lemma set_line_bits (x c i : Z) :
  (0 <= c)%Z ->
  Z.testbit (Z.lor x (Z.shiftl 1 c)) i = if (c =? i)%Z then true else Z.testbit x i.
Proof.
  intro Hc. rewrite Z.lor_spec, Z.shiftl_1_l, Z.pow2_bits_eqb by lia.
  destruct (c =? i)%Z; [apply orb_true_r | apply orb_false_r].
Qed.

Lemma clear_line_bits (x c i : Z) :
  (0 <= c)%Z ->
  Z.testbit (Z.land x (Z.lnot (Z.shiftl 1 c))) i
  = if (c =? i)%Z then false else Z.testbit x i.
Proof.
  intro Hc. destruct (Z.ltb_spec i 0) as [Hi|Hi].
  - rewrite !Z.testbit_neg_r by lia.
    destruct (Z.eqb_spec c i); [lia | reflexivity].
  - rewrite Z.land_spec, Z.lnot_spec, Z.shiftl_1_l, Z.pow2_bits_eqb by lia.
    destruct (c =? i)%Z; simpl; [apply andb_false_r | apply andb_true_r].
Qed.

Lemma bits_of_byte (x i : Z) :
  (0 <= x < 256)%Z -> (8 <= i)%Z -> Z.testbit x i = false.
Proof.
  intros Hx Hi. rewrite <- (Z.mod_small x (2 ^ 8)) by (simpl; lia).
  rewrite Z.testbit_mod_pow2 by lia.
  destruct (Z.ltb_spec i 8); [lia | reflexivity].
Qed.

Lemma byte_of_bits (x : Z) :
  (forall i, (8 <= i)%Z -> Z.testbit x i = false) -> (0 <= x < 256)%Z.
Proof.
  intro H. assert (E : x = (x mod 2 ^ 8)%Z).
  { apply Z.bits_inj'. intros i Hi. rewrite Z.testbit_mod_pow2 by lia.
    destruct (Z.ltb_spec i 8); simpl; [reflexivity | apply H; lia]. }
  rewrite E. apply Z.mod_pos_bound. reflexivity.
Qed.

Lemma toggle_accepts (p : ModProp.t) (b : bool) :
  ModProp.type p = ModProp.toggle ->
  ModProp.setValue p (PyInt (if b then 1 else 0))
  = Ok (ModProp.with_value p (PyInt (if b then 1 else 0))).
Proof.
  intro Ht. unfold ModProp.setValue. rewrite Ht. destruct b; reflexivity.
Qed.

Lemma updateToggleButton_shows (s : t) :
  (0 <= channel s)%Z -> ModProp.type (control s) = ModProp.toggle ->
  let opened := Bool.eqb (Z.testbit (lastState s) (channel s))
                         (Z.testbit (slope s) (channel s)) in
  exists s',
    updateToggleButton s = Ok s'
    /\ ModProp.value (control s') = PyInt (if opened then 1 else 0)
    /\ control_info s'
       = ModPropMore.InfoStr (if opened then "PRESS TO CLOSE"
                              else "PRESS TO OPEN")
    /\ ModProp.type (control s') = ModProp.toggle
    /\ lastState s' = lastState s /\ slope s' = slope s
    /\ channel s' = channel s /\ sent s' = sent s /\ p_slope s' = p_slope s.
Proof.
  intros Hc Ht opened. unfold updateToggleButton, shl1.
  destruct (Z.ltb_spec (channel s) 0) as [|_]; [lia|]. simpl bind.
  rewrite same_level by exact Hc. fold opened.
  unfold ModPropMore.setInfo. rewrite Ht. simpl bind.
  rewrite toggle_accepts by exact Ht. simpl.
  eexists. split; [reflexivity|]. simpl. repeat split. exact Ht.
Qed.

Lemma zero_or_one (value : PyVal) (b : bool) :
  eq_int value 0 || eq_int value 1 = true ->
  Bool.eqb (eq_bool value b) b = eq_int value 1.
Proof.
  intro Hv.
  assert (E01 : eq_int value 0 = negb (eq_int value 1)).
  { unfold eq_int in *. destruct (num value) as [q|]; [|discriminate Hv].
    destruct (Qeq_bool q (inject_Z 0)) eqn:E0, (Qeq_bool q (inject_Z 1)) eqn:E1;
      try reflexivity; try discriminate Hv.
    apply Qeq_bool_iff in E0. apply Qeq_bool_iff in E1.
    rewrite E0 in E1. discriminate E1. }
  unfold eq_bool. destruct b.
  - destruct (eq_int value 1); reflexivity.
  - rewrite E01. destruct (eq_int value 1); reflexivity.
Qed.

(** What one call of [write] does to every field. *)
Lemma write_effect (s : t) (value : PyVal) :
  (0 <= channel s)%Z -> ModProp.type (control s) = ModProp.toggle ->
  let level := eq_bool value (Z.testbit (slope s) (channel s)) in
  let opened := Bool.eqb level (Z.testbit (slope s) (channel s)) in
  exists s',
    write s value = Ok s'
    /\ (forall i, Z.testbit (lastState s') i
                  = if (channel s =? i)%Z then level
                    else Z.testbit (lastState s) i)
    /\ sent s' = sent s ++ [uInt8 (lastState s')]
    /\ slope s' = slope s /\ channel s' = channel s
    /\ p_slope s' = p_slope s
    /\ ModProp.type (control s') = ModProp.toggle
    /\ ModProp.value (control s') = PyInt (if opened then 1 else 0)
    /\ control_info s'
       = ModPropMore.InfoStr (if opened then "PRESS TO CLOSE"
                              else "PRESS TO OPEN").
Proof.
  intros Hc Ht level opened. unfold write, shl1.
  destruct (Z.ltb_spec (channel s) 0) as [|_]; [lia|]. simpl bind.
  rewrite bool_of_land_mask by exact Hc. fold level.
  set (w := if level
            then Z.lor (lastState s) (Z.shiftl 1 (channel s))
            else Z.land (lastState s) (Z.lnot (Z.shiftl 1 (channel s)))).
  assert (Hbits : forall i, Z.testbit w i
                    = if (channel s =? i)%Z then level
                      else Z.testbit (lastState s) i).
  { intro i. unfold w. destruct level.
    - apply set_line_bits. exact Hc.
    - apply clear_line_bits. exact Hc. }
  match goal with
  | |- context [updateToggleButton ?x] =>
      destruct (updateToggleButton_shows x Hc Ht)
        as [s' [E [Hv [Hi [Ht' [Hl [Hs [Hch [Hsent Hp]]]]]]]]]
  end.
  simpl in Hv, Hi, Hl, Hs, Hch, Hsent, Hp.
  rewrite Hbits, Z.eqb_refl in Hv, Hi. fold opened in Hv, Hi.
  exists s'. split; [exact E|]. rewrite Hl, Hsent, Hs.
  split; [exact Hbits|]. split; [reflexivity|]. split; [reflexivity|].
  split; [exact Hch|]. split; [exact Hp|]. split; [exact Ht'|].
  split; [exact Hv | exact Hi].
Qed.

(** X19: on one of the eight lines of the port (channel 0..7)
    [NIShutter.write] drives the line of the channel high exactly when
    the value written equals the slope bit of the channel and leaves
    every other line as it was; a state that fits in a byte stays in a
    byte, and the card receives that state, once. *)
Theorem write_drives_one_line (s : t) (value : PyVal) :
  (0 <= channel s < 8)%Z -> ModProp.type (control s) = ModProp.toggle ->
  exists s',
    write s value = Ok s'
    /\ Z.testbit (lastState s') (channel s)
       = eq_bool value (Z.testbit (slope s) (channel s))
    /\ (forall i, i <> channel s ->
          Z.testbit (lastState s') i = Z.testbit (lastState s) i)
    /\ slope s' = slope s
    /\ ((0 <= lastState s < 256)%Z ->
        (0 <= lastState s' < 256)%Z
        /\ sent s' = sent s ++ [lastState s']).
Proof.
  intros [Hc H8] Ht.
  destruct (write_effect s value Hc Ht)
    as [s' [E [Hbits [Hsent [Hs _]]]]].
  exists s'. split; [exact E|].
  split; [rewrite Hbits, Z.eqb_refl; reflexivity|].
  split.
  { intros i Hi. rewrite Hbits.
    destruct (Z.eqb_spec (channel s) i); [congruence | reflexivity]. }
  split; [exact Hs|].
  intros Hb.
  assert (Hbyte : (0 <= lastState s' < 256)%Z).
  { apply byte_of_bits. intros i Hi. rewrite Hbits.
    destruct (Z.eqb_spec (channel s) i); [lia|].
    apply bits_of_byte; assumption. }
  split; [exact Hbyte|].
  rewrite Hsent. unfold uInt8. rewrite Z.mod_small by exact Hbyte.
  reflexivity.
Qed.

(** X20: after [write] of a value that is 0 or 1 the toggle shows that
    value, whatever the slope of the channel: the button is down
    exactly when the shutter was asked to open. *)
Theorem write_shows_the_state (s : t) (value : PyVal) :
  (0 <= channel s)%Z -> ModProp.type (control s) = ModProp.toggle ->
  eq_int value 0 || eq_int value 1 = true ->
  exists s',
    write s value = Ok s'
    /\ ModProp.value (control s') = PyInt (if eq_int value 1 then 1 else 0)
    /\ control_info s'
       = ModPropMore.InfoStr (if eq_int value 1 then "PRESS TO CLOSE"
                              else "PRESS TO OPEN").
Proof.
  intros Hc Ht Hv.
  destruct (write_effect s value Hc Ht)
    as [s' [E [_ [_ [_ [_ [_ [_ [Hval Hinfo]]]]]]]]].
  rewrite zero_or_one in Hval, Hinfo by exact Hv.
  exists s'. split; [exact E|]. split; [exact Hval | exact Hinfo].
Qed.

(** X21: [onChangeSlope] moves the slope bit of the channel to the new
    choice, leaves the slope of the other channels, and drives the line
    again so that a toggle showing 0 or 1 shows the same afterwards:
    changing the polarity of a channel does not open or close the
    shutter as the button tells it. *)
Theorem onChangeSlope_keeps_the_state (s : t) :
  (0 <= channel s)%Z -> ModProp.type (control s) = ModProp.toggle ->
  eq_int (ModProp.value (control s)) 0
  || eq_int (ModProp.value (control s)) 1 = true ->
  let chosen := truthy (ModProp.value (p_slope s)) in
  exists s',
    onChangeSlope s = Ok s'
    /\ Z.testbit (slope s') (channel s) = chosen
    /\ (forall i, i <> channel s ->
          Z.testbit (slope s') i = Z.testbit (slope s) i)
    /\ Z.testbit (lastState s') (channel s)
       = eq_bool (ModProp.value (control s)) chosen
    /\ ModProp.value (control s')
       = PyInt (if eq_int (ModProp.value (control s)) 1 then 1 else 0).
Proof.
  intros Hc Ht Hv chosen. unfold onChangeSlope, shl1.
  destruct (Z.ltb_spec (channel s) 0) as [|_]; [lia|]. simpl bind.
  fold chosen. unfold onToggle. simpl control.
  set (sl := if chosen then Z.lor (slope s) (Z.shiftl 1 (channel s))
             else Z.land (slope s) (Z.lnot (Z.shiftl 1 (channel s)))).
  assert (Hbits : forall i, Z.testbit sl i
                    = if (channel s =? i)%Z then chosen
                      else Z.testbit (slope s) i).
  { intro i. unfold sl. destruct chosen.
    - apply set_line_bits. exact Hc.
    - apply clear_line_bits. exact Hc. }
  match goal with
  | |- context [write ?x ?v] =>
      destruct (write_effect x v Hc Ht)
        as [s' [E [Hl [_ [Hs [_ [_ [_ [Hval _]]]]]]]]]
  end.
  simpl in Hl, Hs, Hval.
  rewrite zero_or_one in Hval by exact Hv.
  rewrite Hbits, Z.eqb_refl in Hl.
  exists s'. split; [exact E|]. rewrite Hs.
  split; [rewrite Hbits, Z.eqb_refl; reflexivity|].
  split.
  { intros i Hi. rewrite Hbits.
    destruct (Z.eqb_spec (channel s) i); [congruence | reflexivity]. }
  split; [rewrite Hl, Z.eqb_refl; reflexivity | exact Hval].
Qed.

End ShutterLine.

Lemma write_drives_one_line_witness :
  exists s',
    NIShutter.write NIShutter.init (PyInt 1) = Ok s'
    /\ Z.testbit (NIShutter.lastState s') 0
       = NIShutter.eq_bool (PyInt 1) (Z.testbit 255 0)
    /\ (forall i, i <> 0%Z ->
          Z.testbit (NIShutter.lastState s') i = Z.testbit 0 i)
    /\ NIShutter.slope s' = 255%Z
    /\ ((0 <= 0 < 256)%Z ->
        (0 <= NIShutter.lastState s' < 256)%Z
        /\ NIShutter.sent s' = [] ++ [NIShutter.lastState s']).
Proof.
  apply (write_drives_one_line NIShutter.init (PyInt 1)).
  - simpl. lia.
  - reflexivity.
Defined.

Lemma write_shows_the_state_witness :
  exists s',
    NIShutter.write NIShutter.init (PyBool true) = Ok s'
    /\ ModProp.value (NIShutter.control s') = PyInt 1
    /\ NIShutter.control_info s' = ModPropMore.InfoStr "PRESS TO CLOSE".
Proof.
  apply (write_shows_the_state NIShutter.init (PyBool true)).
  - simpl. lia.
  - reflexivity.
  - reflexivity.
Defined.

Lemma onChangeSlope_keeps_the_state_witness :
  let s := {| NIShutter.lastState := 0; NIShutter.slope := 255;
              NIShutter.isOpened := None; NIShutter.channel := 3;
              NIShutter.p_slope :=
                ModProp.with_value (NIShutter.p_slope NIShutter.init) (PyInt 0);
              NIShutter.control := NIShutter.control NIShutter.init;
              NIShutter.control_info := ModPropMore.InfoStr "OPEN";
              NIShutter.sent := [] |} in
  exists s',
    NIShutter.onChangeSlope s = Ok s'
    /\ Z.testbit (NIShutter.slope s') 3 = false
    /\ (forall i, i <> 3%Z ->
          Z.testbit (NIShutter.slope s') i = Z.testbit 255 i)
    /\ Z.testbit (NIShutter.lastState s') 3 = true
    /\ ModProp.value (NIShutter.control s') = PyInt 0.
Proof.
  intro s.
  apply (onChangeSlope_keeps_the_state s).
  - simpl. lia.
  - reflexivity.
  - reflexivity.
Defined.

(** ** The order of the updates of a scan *)

Section ScanOrder.
Import FSRSScan2 ScanUpdates.

Context {Val : Type}.
Variable axis_pos : list (Event Val) -> Q.
Variable ccd_readNframes : list (Event Val) -> Z -> Val.
Variable ccd_polls : list (Event Val) -> nat.
Variable ref_read : list (Event Val) -> Q.
Variable canQuit : Flag.t.
Variables type frames sets : Z.
Variable points : list Q.
Variable reference : option Reference.

Implicit Types (st : St Val) (e : Event Val) (l : list Update).

Lemma updates_push e st :
  updates (trace (push e st)) = updates (trace st) ++ update_of e.
Proof.
  unfold updates. simpl. rewrite flat_map_app. simpl.
  rewrite app_nil_r. reflexivity.
Qed.

Lemma follows_refl st : pending points st -> follows points st st [].
Proof.
  intro H. split; [exact H|]. split; [lia|]. symmetry. apply app_nil_r.
Qed.

Lemma follows_trans st1 st2 st3 l1 l2 :
  follows points st1 st2 l1 -> follows points st2 st3 l2 ->
  follows points st1 st3 (l1 ++ l2).
Proof.
  intros [_ [H1 E1]] [P [H2 E2]]. split; [exact P|]. split; [lia|].
  rewrite E2, E1, app_assoc. reflexivity.
Qed.

Lemma follows_push e st st' l :
  is_finished e = false -> follows points st st' l ->
  follows points st (push e st') (l ++ update_of e).
Proof.
  intros He [P [H E]]. split; [apply pending_push; assumption|].
  split; [exact H|]. rewrite updates_push, E, app_assoc. reflexivity.
Qed.

Lemma follows_polled (k : nat) st st' l :
  follows points st st' l -> follows points st (polled k st') l.
Proof.
  intros [P [H E]]. split; [apply pending_polled; exact P|].
  split; [simpl; lia | exact E].
Qed.

Lemma follows_set_reference_data (d : list Q) st st' l :
  List.length d = List.length points ->
  follows points st st' l -> follows points st (set_reference_data d st') l.
Proof.
  intros Hd [P [H E]].
  split; [apply pending_set_reference_data; assumption|].
  split; [exact H | exact E].
Qed.

Lemma cancelled_later st st' l :
  cancelled canQuit st -> follows points st st' l -> cancelled canQuit st'.
Proof.
  unfold cancelled. intros Hc [_ [H _]].
  exact (isSet_monotone canQuit _ _ Hc H).
Qed.

Lemma prefix_nil l : prefix [] l.
Proof. exists l. reflexivity. Qed.

Lemma prefix_app l l1 l2 : prefix l1 l2 -> prefix (l ++ l1) (l ++ l2).
Proof. intros [rest ->]. exists rest. apply app_assoc. Qed.

Lemma skipn_nth_error {A} (l : list A) (n : nat) (x : A) :
  nth_error l n = Some x -> skipn n l = x :: skipn (S n) l.
Proof.
  revert n. induction l as [|a l IH]; intros [|n] H; simpl in *;
    try discriminate.
  - injection H as ->. reflexivity.
  - apply IH. exact H.
Qed.

(** *** One point *)

Lemma read_point_follows (cset : Z) (cpoint : nat) (p : Q) st :
  pending points st -> nth_error points cpoint = Some p ->
  returns (read_point ccd_readNframes ccd_polls ref_read frames points
             reference cset cpoint) st
    (fun cp st' => cp = S cpoint /\ follows points st st' [(1, p, cset)]).
Proof.
  intros Hp En. unfold read_point.
  assert (Ep : py_nth points (Z.of_nat cpoint) = Ok p).
  { rewrite py_nth_nonneg by lia. rewrite Nat2Z.id, En. reflexivity. }
  assert (Hc : (cpoint < List.length points)%nat)
    by (apply nth_error_Some; congruence).
  pose proof (follows_refl st Hp) as F0.
  apply (follows_push (EvCcdRead frames)) in F0; [|reflexivity].
  apply (follows_polled (ccd_polls (trace st))) in F0.
  apply returns_seq. eexists _, _. split; [reflexivity|].
  apply returns_seq.
  destruct reference as [r|].
  - destruct (nth_error (reference_data st) cpoint) as [x|] eqn:Ex.
    + eapply returns_add_reference; [exact Ex|].
      apply returns_seq. eapply returns_lift; [exact Ep|].
      apply returns_seq. apply returns_emit.
      apply returns_seq. apply returns_emit.
      apply returns_ret. split; [reflexivity|].
      apply (follows_push EvRefRead) in F0; [|reflexivity].
      apply (follows_set_reference_data
               (FSRSutils.upd (reference_data st) cpoint
                  (x + ref_read (trace (polled (ccd_polls (trace st))
                                          (push (EvCcdRead frames) st))))%Q))
        in F0; [|rewrite upd_length; apply Hp].
      apply (follows_push
               (EvUpdate (ccd_readNframes (trace st) frames) 1 p cset))
        in F0; [|reflexivity].
      apply (follows_push (EvSleep 0.2)) in F0; [|reflexivity].
      simpl in F0. exact F0.
    + apply nth_error_None in Ex. destruct Hp as [_ H2]. lia.
  - apply returns_ret.
    apply returns_seq. eapply returns_lift; [exact Ep|].
    apply returns_seq. apply returns_emit.
    apply returns_seq. apply returns_emit.
    apply returns_ret. split; [reflexivity|].
    apply (follows_push
             (EvUpdate (ccd_readNframes (trace st) frames) 1 p cset))
      in F0; [|reflexivity].
    apply (follows_push (EvSleep 0.2)) in F0; [|reflexivity].
    simpl in F0. exact F0.
Qed.

Lemma move_next_follows (cpoint : nat) st :
  points <> [] -> pending points st ->
  returns (move_next points cpoint) st
    (fun _ st' => follows points st st' []).
Proof.
  intros Hne Hp. unfold move_next, wrap.
  assert (Hlen : (0 < Z.of_nat (List.length points))%Z)
    by (destruct points; [contradiction | simpl; lia]).
  unfold len.
  replace (Z.of_nat (List.length points) =? 0)%Z with false
    by (symmetry; apply Z.eqb_neq; lia).
  pose proof (Z.mod_pos_bound (Z.of_nat cpoint) _ Hlen) as Hmod.
  destruct (py_nth_in_range points
              (Z.of_nat cpoint mod Z.of_nat (List.length points)))
    as [a Ea]; [lia|].
  destruct (py_nth_in_range points
              (Z.of_nat cpoint mod Z.of_nat (List.length points) - 1))
    as [b Eb]; [lia|].
  apply returns_seq. eapply returns_lift; [reflexivity|].
  apply returns_seq. eapply returns_lift; [exact Ea|].
  apply returns_seq. eapply returns_lift; [exact Eb|].
  apply returns_seq. apply returns_emit. apply returns_emit.
  pose proof (follows_refl st Hp) as F0.
  apply (follows_push (EvAxisGoto a)) in F0; [|reflexivity].
  apply (follows_push (EvSleep (travel (Qabs (a - b))))) in F0; [|reflexivity].
  simpl in F0. exact F0.
Qed.

(** *** The points of one set *)

Lemma points_loop_follows (cset : Z) :
  points <> [] ->
  forall (fuel cpoint : nat) st,
    pending points st ->
    (cancelled canQuit st /\ 1 <= fuel)%nat
    \/ (List.length points - cpoint < fuel)%nat ->
    returns (points_loop ccd_readNframes ccd_polls ref_read canQuit frames
               points reference fuel cset cpoint) st
      (fun _ st' => exists l,
           follows points st st' l
           /\ ((cancelled canQuit st'
                /\ prefix l (excited (skipn cpoint points) cset))
               \/ l = excited (skipn cpoint points) cset)
           /\ (cancelled canQuit st -> l = [])).
Proof.
  intro Hne. induction fuel as [|fuel IH]; intros cpoint st Hp Hfuel;
    [destruct Hfuel as [[_ H] | H]; lia|].
  simpl points_loop.
  destruct (cpoint <? List.length points)%nat eqn:Ecp.
  2:{ apply Nat.ltb_ge in Ecp. apply returns_ret. exists [].
      split; [apply follows_refl; exact Hp|].
      split; [|reflexivity]. right.
      rewrite skipn_all2 by exact Ecp. reflexivity. }
  apply Nat.ltb_lt in Ecp.
  apply returns_seq. apply returns_isSet.
  pose proof (follows_polled 1 st st [] (follows_refl st Hp)) as F1.
  destruct (Flag.isSet canQuit (polls st)) eqn:Eq1.
  { apply returns_ret. exists []. split; [exact F1|].
    split; [|reflexivity]. left. split; [|apply prefix_nil].
    apply (cancelled_later st _ [] Eq1 F1). }
  assert (Hf : (List.length points - cpoint < S fuel)%nat).
  { destruct Hfuel as [[Hc _] | H]; [|exact H].
    unfold cancelled in Hc. congruence. }
  assert (Hnot : cancelled canQuit st -> forall l, l = [])
    by (unfold cancelled; congruence).
  apply returns_seq. apply returns_isSet.
  pose proof (follows_polled 1 st _ [] F1) as F2.
  apply returns_seq.
  destruct (Flag.isSet canQuit (polls (polled 1 st))) eqn:Eq2.
  - (* the flag came between the two polls *)
    apply returns_ret. apply returns_seq.
    eapply returns_weaken;
      [apply move_next_follows; [exact Hne | apply F2]|].
    intros ? st1 F3.
    assert (Hc1 : cancelled canQuit st1).
    { apply (cancelled_later (polled 1 (polled 1 st)) st1 [] ); [|exact F3].
      unfold cancelled. apply (isSet_monotone canQuit _ _ Eq2). simpl. lia. }
    eapply returns_weaken;
      [apply IH; [apply F3 | left; split; [exact Hc1 | lia]]|].
    intros ? st' [l [F4 [_ Hnil]]]. rewrite (Hnil Hc1) in *.
    exists []. split.
    + exact (follows_trans _ _ _ _ _ (follows_trans _ _ _ _ _ F2 F3) F4).
    + split; [|intro; reflexivity]. left. split; [|apply prefix_nil].
      exact (cancelled_later _ _ _ Hc1 F4).
  - destruct (nth_error points cpoint) as [p|] eqn:En;
      [|apply nth_error_None in En; lia].
    eapply returns_weaken;
      [apply (read_point_follows cset cpoint p); [apply F2 | exact En]|].
    intros cp st1 [-> F3]. apply returns_seq.
    eapply returns_weaken;
      [apply move_next_follows; [exact Hne | apply F3]|].
    intros ? st2 F4.
    eapply returns_weaken;
      [apply IH; [apply F4 | right; lia]|].
    intros ? st' [l [F5 [Hl _]]].
    exists ((1, p, cset) :: l). split.
    + pose proof (follows_trans _ _ _ _ _
                    (follows_trans _ _ _ _ _
                       (follows_trans _ _ _ _ _ F2 F3) F4) F5) as F.
      simpl in F. exact F.
    + split; [|intro Hc; apply (Hnot Hc)].
      rewrite (skipn_nth_error points cpoint p En). simpl excited.
      destruct Hl as [[Hc Hpre] | ->]; [left | right; reflexivity].
      split; [exact Hc|].
      apply (prefix_app [(1, p, cset)]). exact Hpre.
Qed.

(** *** One set *)

Lemma begin_set_follows (cset : Z) st :
  points <> [] -> pending points st ->
  returns (begin_set axis_pos ccd_readNframes ccd_polls canQuit type frames
             points cset) st
    (fun _ st' => exists g,
         follows points st st' g
         /\ (g = ground type cset \/ (g = [] /\ cancelled canQuit st'))).
Proof.
  intros Hne Hp. unfold begin_set, ground.
  destruct (py_nth_in_range points 0) as [p0 E0];
    [destruct points; [contradiction | simpl; lia]|].
  pose proof (follows_refl st Hp) as F0.
  apply (follows_push EvAxisPos) in F0; [|reflexivity].
  apply (follows_push (EvAxisGoto p0)) in F0; [|reflexivity].
  apply (follows_push (EvSleep (travel (Qabs (p0 - axis_pos (trace st))))))
    in F0; [|reflexivity].
  apply returns_seq. eexists _, _. split; [reflexivity|].
  apply returns_seq. eapply returns_lift; [exact E0|].
  apply returns_seq. apply returns_emit.
  apply returns_seq. apply returns_emit.
  destruct (type =? 0)%Z.
  2:{ apply returns_ret. exists []. split; [exact F0 | left; reflexivity]. }
  apply (follows_push (EvShutter 0)) in F0; [|reflexivity].
  apply returns_seq. apply returns_emit.
  apply returns_seq. apply returns_isSet.
  apply (follows_polled 1) in F0.
  apply returns_seq.
  match goal with
  | |- context [Flag.isSet canQuit ?p] =>
      destruct (Flag.isSet canQuit p) eqn:Eq
  end.
  - apply returns_ret. apply returns_emit.
    apply (follows_push (EvShutter 1)) in F0; [|reflexivity].
    exists []. split; [exact F0|]. right. split; [reflexivity|].
    unfold cancelled. apply (isSet_monotone canQuit _ _ Eq). simpl. lia.
  - apply returns_seq. eexists _, _. split; [reflexivity|].
    apply returns_emit. apply returns_emit.
    match goal with
    | |- context [EvUpdate ?v 0 0 cset] =>
        apply (follows_push (EvCcdRead frames)) in F0; [|reflexivity];
        match goal with
        | |- context [polled ?k (push (EvCcdRead frames) _)] =>
            apply (follows_polled k) in F0
        end;
        apply (follows_push (EvUpdate v 0 0 cset)) in F0; [|reflexivity]
    end.
    apply (follows_push (EvShutter 1)) in F0; [|reflexivity].
    exists [(0, 0%Q, cset)]. split; [exact F0 | left; reflexivity].
Qed.

(** *** The sets *)

Lemma sets_loop_follows :
  points <> [] ->
  forall (fuel : nat) (cset : Z) st,
    pending points st ->
    (Z.to_nat (sets - cset) + List.length points < fuel)%nat ->
    returns (sets_loop axis_pos ccd_readNframes ccd_polls ref_read canQuit
               type frames points sets reference fuel cset) st
      (fun _ st' => exists l,
           follows points st st' l
           /\ ((cancelled canQuit st'
                /\ prefix l (full_scan type points cset (Z.to_nat (sets - cset))))
               \/ l = full_scan type points cset (Z.to_nat (sets - cset)))
           /\ (cancelled canQuit st -> l = [])).
Proof.
  intro Hne. induction fuel as [|fuel IH]; intros cset st Hp Hfuel; [lia|].
  simpl sets_loop.
  apply returns_seq. apply returns_isSet.
  pose proof (follows_polled 1 st st [] (follows_refl st Hp)) as F1.
  destruct (Flag.isSet canQuit (polls st)) eqn:Eq1; simpl negb; cbn [andb].
  { apply returns_ret. exists []. split; [exact F1|].
    split; [|reflexivity]. left. split; [|apply prefix_nil].
    apply (cancelled_later st _ [] Eq1 F1). }
  assert (Hnot : cancelled canQuit st -> forall l, l = [])
    by (unfold cancelled; congruence).
  destruct (cset <? sets)%Z eqn:Elt.
  2:{ apply Z.ltb_ge in Elt. apply returns_ret. exists [].
      split; [exact F1|]. split; [|reflexivity]. right.
      replace (Z.to_nat (sets - cset)) with O by lia. reflexivity. }
  apply Z.ltb_lt in Elt.
  assert (En : Z.to_nat (sets - cset) = S (Z.to_nat (sets - (cset + 1))))
    by lia.
  rewrite En. simpl full_scan.
  apply returns_seq.
  eapply returns_weaken; [apply begin_set_follows; [exact Hne | apply F1]|].
  intros ? st1 [g [F2 Hg]]. apply returns_seq.
  eapply returns_weaken;
    [apply (points_loop_follows cset Hne (S fuel) O st1);
     [apply F2 | right; lia]|].
  intros ? st2 [lp [F3 [Hlp Hlp0]]]. simpl skipn in Hlp.
  eapply returns_weaken; [apply IH; [apply F3 | lia]|].
  intros ? st' [l' [F4 [Hl' Hl'0]]].
  pose proof (follows_trans _ _ _ _ _
                (follows_trans _ _ _ _ _
                   (follows_trans _ _ _ _ _ F1 F2) F3) F4) as F.
  simpl in F. rewrite <- app_assoc in F.
  exists (g ++ lp ++ l'). split; [exact F|].
  split; [|intro Hc; apply (Hnot Hc)].
  destruct Hg as [-> | [-> Hc1]].
  - destruct Hlp as [[Hc2 Hpre] | ->].
    + rewrite (Hl'0 Hc2), app_nil_r. left.
      split; [exact (cancelled_later _ _ _ Hc2 F4)|].
      apply prefix_app. destruct Hpre as [rest ->].
      exists (rest ++ full_scan type points (cset + 1)
                        (Z.to_nat (sets - (cset + 1)))).
      rewrite app_assoc. reflexivity.
    + destruct Hl' as [[Hc Hpre] | ->]; [left | right; reflexivity].
      split; [exact Hc|]. apply prefix_app. apply prefix_app. exact Hpre.
  - rewrite (Hlp0 Hc1) in *.
    assert (Hc2 : cancelled canQuit st2)
      by exact (cancelled_later _ _ _ Hc1 F3).
    rewrite (Hl'0 Hc2). left.
    split; [exact (cancelled_later _ _ _ Hc2 F4) | apply prefix_nil].
Qed.

(** *** Before and after the loops *)

Lemma before_loop_follows st :
  points <> [] -> finished_count (trace st) = O ->
  returns (before_loop type points reference) st
    (fun _ st' => pending points st' /\ polls st' = polls st
                  /\ updates (trace st') = updates (trace st)).
Proof.
  intros Hne H0. unfold before_loop.
  destruct points as [|p0 rest] eqn:Epts; [contradiction|].
  rewrite <- Epts.
  assert (Hp : follows points
                 (set_reference_data (repeat 0%Q (List.length points))
                    (push EvStarted st))
                 (set_reference_data (repeat 0%Q (List.length points))
                    (push EvStarted st)) []).
  { apply follows_refl. split; simpl; [|apply repeat_length].
    rewrite finished_count_snoc, H0. reflexivity. }
  assert (Hu : updates (trace st ++ [EvStarted]) = updates (trace st)).
  { unfold updates. rewrite flat_map_app. simpl. apply app_nil_r. }
  apply returns_seq. apply returns_emit.
  apply returns_seq. eexists _, _. split; [reflexivity|].
  apply returns_seq. eapply returns_lift; [rewrite Epts; reflexivity|].
  apply returns_seq. eapply returns_lift; [rewrite Epts; reflexivity|].
  apply returns_seq.
  assert (Hw : returns
                 (match reference with
                  | Some {| wait := Some _ |} => emit (EvRefSetWait (PyStr "0"))
                  | _ => ret tt
                  end)
                 (set_reference_data (repeat 0%Q (List.length points))
                    (push EvStarted st))
                 (fun _ st' =>
                    follows points
                      (set_reference_data (repeat 0%Q (List.length points))
                         (push EvStarted st)) st' []
                    /\ polls st' = polls st)).
  { destruct reference as [[[v|]]|];
      [apply returns_emit | apply returns_ret | apply returns_ret];
      (split; [|reflexivity]); try exact Hp.
    apply (follows_push (EvRefSetWait (PyStr "0"))) in Hp; [|reflexivity].
    exact Hp. }
  eapply returns_weaken; [exact Hw|].
  intros ? st1 [F1 Hpl]. apply returns_seq. apply returns_emit.
  apply (follows_push (EvSleep 0.5)) in F1; [|reflexivity].
  apply returns_seq.
  destruct (0 <? type)%Z; [apply returns_emit | apply returns_ret];
    apply returns_ret.
  - apply (follows_push (EvShutter 1)) in F1; [|reflexivity].
    destruct F1 as [P [_ E]]. split; [exact P|].
    split; [exact Hpl|]. rewrite E. simpl trace. rewrite Hu.
    simpl. apply app_nil_r.
  - destruct F1 as [P [_ E]]. split; [exact P|].
    split; [exact Hpl|]. rewrite E. simpl trace. rewrite Hu.
    simpl. apply app_nil_r.
Qed.

Lemma after_loop_updates (maxinterval : Q) (cset : Z) st :
  points <> [] ->
  returns (after_loop points reference maxinterval cset) st
    (fun _ st' => updates (trace st') = updates (trace st)).
Proof.
  intro Hne. unfold after_loop.
  destruct (py_nth_in_range points 0) as [p0 E0];
    [destruct points; [contradiction | simpl; lia]|].
  apply returns_seq. eapply returns_lift; [exact E0|].
  apply returns_seq. apply returns_emit.
  apply returns_seq. apply returns_emit.
  apply returns_seq. apply returns_emit.
  destruct reference as [[[old|]]|].
  - apply returns_seq. eexists _, _. split; [reflexivity|].
    apply returns_seq. apply returns_emit.
    eexists _, _. split; [reflexivity|].
    unfold updates. simpl. rewrite !flat_map_app. simpl.
    rewrite !app_nil_r. reflexivity.
  - apply returns_seq. eexists _, _. split; [reflexivity|].
    apply returns_seq. apply returns_ret.
    eexists _, _. split; [reflexivity|].
    unfold updates. simpl. rewrite !flat_map_app. simpl.
    rewrite !app_nil_r. reflexivity.
  - apply returns_emit.
    unfold updates. simpl. rewrite !flat_map_app. simpl.
    rewrite !app_nil_r. reflexivity.
Qed.

(** X22: the updates a scan posts are a beginning of the updates of the
    full scan: for each set in turn the ground state spectrum (in FSRS
    mode) and then one spectrum for each point, in the order of the
    points.  A scan whose stop flag is never set posts all of them; a
    scan whose flag is set from the start posts none. *)
Theorem scan_updates_in_order (extra : nat) :
  points <> [] ->
  exists (st : St Val),
    run axis_pos ccd_readNframes ccd_polls ref_read canQuit type frames
      points sets reference
      (S (Z.to_nat sets + List.length points) + extra) st0
    = Fin tt st
    /\ prefix (updates (trace st)) (full_scan type points 0 (Z.to_nat sets))
    /\ (canQuit = None ->
        updates (trace st) = full_scan type points 0 (Z.to_nat sets))
    /\ (Flag.isSet canQuit 0 = true -> updates (trace st) = []).
Proof.
  intro Hne.
  assert (R : returns
                (run axis_pos ccd_readNframes ccd_polls ref_read canQuit type
                   frames points sets reference
                   (S (Z.to_nat sets + List.length points) + extra))
                st0
                (fun _ st =>
                   exists l, updates (trace st) = l
                     /\ ((exists st2 : St Val, cancelled canQuit st2
                          /\ prefix l (full_scan type points 0 (Z.to_nat sets)))
                         \/ l = full_scan type points 0 (Z.to_nat sets))
                     /\ (Flag.isSet canQuit 0 = true -> l = []))).
  { unfold run. apply returns_seq.
    eapply returns_weaken; [apply before_loop_follows; [exact Hne | reflexivity]|].
    intros maxinterval st1 [Hp1 [Hpl1 Hu1]]. apply returns_seq.
    eapply returns_weaken;
      [apply (sets_loop_follows Hne _ 0%Z st1 Hp1);
       rewrite Z.sub_0_r; lia|].
    intros cset st2 [l [[_ [_ E]] [Hl Hl0]]]. rewrite Z.sub_0_r in Hl.
    eapply returns_weaken; [apply after_loop_updates; exact Hne|].
    intros ? st3 E3. exists l.
    split; [rewrite E3, E, Hu1; reflexivity|].
    split.
    - destruct Hl as [[Hc Hpre] | ->]; [left | right; reflexivity].
      exists st2. split; assumption.
    - intro H0. apply Hl0. unfold cancelled. rewrite Hpl1. exact H0. }
  destruct R as [[] [st [E [l [El [Hl Hl0]]]]]].
  exists st. split; [exact E|]. rewrite El.
  split; [|split; [|exact Hl0]].
  - destruct Hl as [[st2 [_ Hpre]] | ->]; [exact Hpre|].
    exists []. symmetry. apply app_nil_r.
  - intro Hn. destruct Hl as [[st2 [Hc _]] | ->]; [|reflexivity].
    unfold cancelled in Hc. rewrite Hn in Hc. discriminate Hc.
Qed.

End ScanOrder.

Lemma scan_updates_in_order_witness :
  exists (st : FSRSScan2.St unit),
    FSRSScan2.run (fun _ => 0%Q) (fun _ _ => tt) (fun _ => 1%nat) (fun _ => 1%Q)
      (Some 11%nat) 0 2 [0%Q; 10%Q] 2
      (Some {| FSRSScan2.wait := Some (PyStr "1") |})
      (S (Z.to_nat 2 + List.length [0%Q; 10%Q]) + 0) FSRSScan2.st0
    = FSRSScan2.Fin tt st
    /\ ScanUpdates.prefix (ScanUpdates.updates (FSRSScan2.trace st))
         (ScanUpdates.full_scan 0 [0%Q; 10%Q] 0 (Z.to_nat 2))
    /\ (Some 11%nat = None ->
        ScanUpdates.updates (FSRSScan2.trace st)
        = ScanUpdates.full_scan 0 [0%Q; 10%Q] 0 (Z.to_nat 2))
    /\ (Flag.isSet (Some 11%nat) 0 = true ->
        ScanUpdates.updates (FSRSScan2.trace st) = []).
Proof.
  apply (scan_updates_in_order (fun _ => 0%Q) (fun _ _ => tt) (fun _ => 1%nat)
           (fun _ => 1%Q) (Some 11%nat) 0 2 2 [0%Q; 10%Q]
           (Some {| FSRSScan2.wait := Some (PyStr "1") |}) 0).
  discriminate.
Defined.

(** ** Properties from dictionaries *)

Section PropertyDicts.
Import PropertiesDict.

Variable has_method : string -> bool.

Lemma setValue_reaccepts (p p' : ModProp.t) (v : PyVal) :
  ModProp.setValue p v = Ok p' ->
  ModProp.setValue p' (ModProp.value p') = Ok p'
  /\ ModProp.value p' = ModProp.stored p v
  /\ ModProp.plabel p' = ModProp.plabel p
  /\ ModProp.type p' = ModProp.type p
  /\ ModProp.choices p' = ModProp.choices p.
Proof.
  unfold ModProp.setValue, ModProp.stored.
  destruct (ModProp.type p) eqn:Et; simpl; intro H;
    repeat match type of H with
           | (if ?c then _ else _) = Ok _ =>
               let E := fresh "E" in destruct c eqn:E; [discriminate H|]
           | match ?c with Some _ => _ | None => _ end = Ok _ =>
               let E := fresh "E" in destruct c eqn:E; [|discriminate H]
           end;
    injection H as <-; simpl; rewrite Et; simpl;
    rewrite ?E; repeat split.
Qed.

Lemma type_of_string_choice (ty : string) (t : ModProp.PropType) :
  ModPropMore.type_of_string ty = Some t ->
  String.eqb ty "choice" = ModProp.PropType_eqb t ModProp.choice.
Proof.
  unfold ModPropMore.type_of_string.
  repeat match goal with
         | |- (if String.eqb ty ?s then _ else _) = Some _ -> _ =>
             let E := fresh "E" in
             destruct (String.eqb ty s) eqn:E;
             [apply String.eqb_eq in E; subst ty; intro H; injection H as <-;
              reflexivity|]
         end.
  discriminate.
Qed.

Lemma after_info {A} (r : Res A) (p0 p : ModProp.t) (v : PyVal) :
  bind r (fun _ => ModProp.setValue p0 v) = Ok p ->
  ModProp.setValue p0 v = Ok p.
Proof. destruct r; [intro H; exact H | discriminate]. Qed.

Lemma build_valid (d : Dict) (p : ModProp.t) :
  build d = Ok p ->
  d_label d = Some (ModProp.plabel p)
  /\ (exists ty, d_type d = Some ty
                 /\ ModPropMore.type_of_string ty = Some (ModProp.type p))
  /\ (exists v, d_value d = Some v /\ ModProp.value p = ModProp.stored p v)
  /\ ModProp.setValue p (ModProp.value p) = Ok p
  /\ match ModProp.type p with
     | ModProp.choice => d_choices d = Some (ModProp.choices p)
     | _ => ModProp.choices p = []
     end.
Proof.
  unfold build, require.
  destruct (d_label d) as [lab|]; [|discriminate].
  destruct (d_type d) as [ty|]; [|discriminate].
  destruct (d_value d) as [v|]; [|discriminate].
  simpl bind. unfold ModPropMore.setType.
  destruct (ModPropMore.type_of_string ty) as [t|] eqn:Et; [|discriminate].
  simpl bind. rewrite (type_of_string_choice ty t Et).
  assert (Hfin : forall p0,
             ModProp.plabel p0 = lab -> ModProp.type p0 = t ->
             match t with
             | ModProp.choice => d_choices d = Some (ModProp.choices p0)
             | _ => ModProp.choices p0 = []
             end ->
             ModProp.setValue p0 v = Ok p ->
             Some lab = Some (ModProp.plabel p)
             /\ (exists ty0, Some ty = Some ty0
                   /\ ModPropMore.type_of_string ty0 = Some (ModProp.type p))
             /\ (exists v0, Some v = Some v0
                   /\ ModProp.value p = ModProp.stored p v0)
             /\ ModProp.setValue p (ModProp.value p) = Ok p
             /\ match ModProp.type p with
                | ModProp.choice => d_choices d = Some (ModProp.choices p)
                | _ => ModProp.choices p = []
                end).
  { intros p0 Hl Ht Hc H.
    destruct (setValue_reaccepts p0 p v H) as [Hre [Hv [Hl' [Ht' Hc']]]].
    split; [congruence|].
    split; [exists ty; split; [reflexivity | congruence]|].
    split.
    { exists v. split; [reflexivity|]. rewrite Hv. unfold ModProp.stored.
      rewrite Ht'. reflexivity. }
    split; [exact Hre|].
    rewrite Ht', Ht, Hc'. exact Hc. }
  destruct (ModProp.PropType_eqb t ModProp.choice) eqn:Ec.
  - assert (t = ModProp.choice) by (destruct t; try discriminate Ec; reflexivity).
    subst t.
    destruct (d_choices d) as [ch|]; [|discriminate].
    simpl bind. intro H. apply after_info in H.
    refine (Hfin _ _ _ _ H); reflexivity.
  - simpl bind. intro H. apply after_info in H.
    refine (Hfin _ _ _ _ H); try reflexivity.
    destruct t; try reflexivity. discriminate Ec.
Qed.

(** X23: a property that [parsePropertiesDict] appends carries the
    label and the type of its dictionary, the value [setValue] stores
    for the value of the dictionary, and the choices of the dictionary
    when it is a choice (none otherwise); its value is one [setValue]
    accepts again, and the event handler it names exists. *)
Theorem parse_one_valid (d : Dict) (p : ModProp.t) :
  parse_one has_method d = Built p ->
  d_label d = Some (ModProp.plabel p)
  /\ (exists ty, d_type d = Some ty
                 /\ ModPropMore.type_of_string ty = Some (ModProp.type p))
  /\ (exists v, d_value d = Some v /\ ModProp.value p = ModProp.stored p v)
  /\ ModProp.setValue p (ModProp.value p) = Ok p
  /\ match ModProp.type p with
     | ModProp.choice => d_choices d = Some (ModProp.choices p)
     | _ => ModProp.choices p = []
     end
  /\ (forall name, d_event d = Some name -> has_method name = true).
Proof.
  unfold parse_one. destruct (build d) as [p0|e] eqn:Eb; [|discriminate].
  intro H.
  assert (Hp : p0 = p /\ forall name, d_event d = Some name -> has_method name = true).
  { destruct (d_event d) as [name|].
    - destruct (has_method name) eqn:Eh; [|discriminate H].
      injection H as <-. split; [reflexivity|].
      intros n Hn. injection Hn as <-. exact Eh.
    - injection H as <-. split; [reflexivity | discriminate]. }
  destruct Hp as [<- Hev].
  destruct (build_valid d p0 Eb) as [H1 [H2 [H3 [H4 H5]]]].
  repeat (split; [assumption|]). exact Hev.
Qed.

(** X24: [parsePropertiesDict] appends the properties in the order of
    the dictionaries and leaves the properties it found and the index
    of labels.  When a dictionary fails, the exception is that of its
    parsing and the properties of the dictionaries before it stay
    appended; otherwise there is one property for each dictionary. *)
Theorem parsePropertiesDict_appends (dct : list Dict) :
  forall m : Registry.t,
    let m' := fst (parsePropertiesDict has_method m dct) in
    let r := snd (parsePropertiesDict has_method m dct) in
    exists ps,
      Registry.properties m' = Registry.properties m ++ ps
      /\ Registry.propindex m' = Registry.propindex m
      /\ Forall2 (fun d p => parse_one has_method d = Built p)
           (firstn (List.length ps) dct) ps
      /\ match r with
         | None => List.length ps = List.length dct
         | Some e =>
             exists d, nth_error dct (List.length ps) = Some d
                       /\ parse_one has_method d = Failed e
         end.
Proof.
  induction dct as [|d rest IH]; intro m; simpl.
  - exists []. rewrite app_nil_r. repeat split. constructor.
  - destruct (parse_one has_method d) as [p|e] eqn:Ep.
    + destruct (IH (Registry.with_properties m (Registry.properties m ++ [p])))
        as [ps [Hps [Hidx [Hall Hr]]]].
      simpl in Hps, Hidx. exists (p :: ps).
      split; [rewrite Hps, <- app_assoc; reflexivity|].
      split; [exact Hidx|].
      split; [simpl; constructor; assumption|].
      simpl. destruct (snd _) as [e|]; [exact Hr | f_equal; exact Hr].
    + exists []. simpl. rewrite app_nil_r.
      split; [reflexivity|]. split; [reflexivity|].
      split; [constructor|]. exists d. split; [reflexivity | exact Ep].
Qed.

End PropertyDicts.

Section ScanProperties.
Import Registry ScanModule.

Variable neg_log : Q -> Q.
Variable neg_log10 : Q -> Q.

Lemma first_match_labels (key : string) (ps : list ModProp.t) :
  forall i : nat,
    first_match key ps i
    = match first_label key (map ModProp.plabel ps) with
      | Some k => option_map (fun p => ((i + k)%nat, p)) (nth_error ps k)
      | None => None
      end.
Proof.
  induction ps as [|p ps IH]; intro i; simpl; [reflexivity|].
  change (matches key p) with (label_matches key (ModProp.plabel p)).
  destruct (label_matches key (ModProp.plabel p)).
  - simpl. rewrite Nat.add_0_r. reflexivity.
  - rewrite IH. destruct (first_label key (map ModProp.plabel ps)) as [k|];
      simpl; [|reflexivity].
    rewrite Nat.add_succ_r. reflexivity.
Qed.

Lemma lookup_by_labels (m : Registry.t) (key : string) (k : nat) (p : ModProp.t) :
  first_label key (map ModProp.plabel (properties m)) = Some k ->
  nth_error (properties m) k = Some p ->
  (forall i, memo (propindex m) key = Some i -> i = k) ->
  fst (getPropertyByLabel m key) = Ok p.
Proof.
  intros Hf Hn Hmemo. unfold getPropertyByLabel.
  destruct (memo (propindex m) key) as [i|] eqn:Em.
  - rewrite (Hmemo i eq_refl). simpl.
    rewrite py_nth_nonneg by lia. rewrite Nat2Z.id, Hn. reflexivity.
  - rewrite first_match_labels, Hf, Hn. reflexivity.
Qed.

Lemma eq_int_int (z n : Z) : eq_int (PyInt z) n = (z =? n).
Proof.
  unfold eq_int. simpl. unfold Qeq_bool. simpl. rewrite !Z.mul_1_r.
  reflexivity.
Qed.

Lemma mode_code_int (z : Z) (basename : string) (step : Q) (set grexc : Z)
    (val : list Q * list Q * list Q) :
  FSRSutils.formatFSRSFilename (mode_code (PyInt z)) basename step set grexc
  = FSRSutils.formatFSRSFilename z basename step set grexc
  /\ FSRSAcquire.result_of neg_log neg_log10 (mode_code (PyInt z)) val
     = FSRSAcquire.result_of neg_log neg_log10 z val.
Proof.
  unfold mode_code. rewrite !eq_int_int.
  unfold FSRSutils.formatFSRSFilename, FSRSAcquire.result_of,
    FSRSAcquire.transform.
  destruct val as [[A B] C].
  destruct (Z.eqb_spec z 0) as [->|H0]; [split; reflexivity|].
  destruct (Z.eqb_spec z 1) as [->|H1]; [split; reflexivity|].
  replace (2 =? 1) with false by reflexivity.
  replace (2 =? 0) with false by reflexivity.
  split; reflexivity.
Qed.

(** X25: in a module with the properties of [FSRSScan2], the key
    ["mode"] of [onUpdate] finds the stepping mode of the stage
    (position 7, between linear, logarithmic and from file) and the
    key ["type"] the kind of measurement (position 1).  The name of
    the file and the transform of the first column in [onUpdate]
    follow the stepping mode, whatever the kind of measurement.  The
    code of a mode is its value as [formatFSRSFilename] and the
    transform see it ([mode_code_int]). *)
Theorem scan_onUpdate_uses_stepping_mode
    (m : Registry.t) (step_label : string) (pmode : ModProp.t)
    (basename : string) (val : list Q * list Q * list Q)
    (grexc : Z) (step : Q) (set : Z) :
  step_label = "Step Size (fs)"%string \/ step_label = "# of Steps"%string ->
  map ModProp.plabel (properties m) = labels step_label ->
  (forall i, memo (propindex m) "mode" = Some i -> i = 7%nat) ->
  nth_error (properties m) 7 = Some pmode ->
  fst (onUpdate_saved neg_log neg_log10 m basename val grexc step set)
  = Ok (FSRSutils.formatFSRSFilename (mode_code (ModProp.value pmode))
          basename step set grexc,
        FSRSAcquire.result_of neg_log neg_log10
          (mode_code (ModProp.value pmode)) val)
  /\ ModProp.plabel pmode = "Mode"%string
  /\ forall ptype,
       nth_error (properties m) 1 = Some ptype ->
       memo (propindex m) "type" = None ->
       fst (getPropertyByLabel m "type") = Ok ptype
       /\ ModProp.plabel ptype = "Type"%string.
Proof.
  intros Hstep Hlabels Hmemo Hn.
  assert (Hmode : first_label "mode" (map ModProp.plabel (properties m))
                  = Some 7%nat)
    by (rewrite Hlabels; destruct Hstep as [-> | ->]; reflexivity).
  assert (Htype : first_label "type" (map ModProp.plabel (properties m))
                  = Some 1%nat)
    by (rewrite Hlabels; reflexivity).
  assert (Hnth : forall k p, nth_error (properties m) k = Some p ->
                   nth_error (labels step_label) k = Some (ModProp.plabel p)).
  { intros k p Hk. rewrite <- Hlabels. rewrite nth_error_map, Hk. reflexivity. }
  split; [|split].
  - pose proof (lookup_by_labels m "mode" 7 pmode Hmode Hn Hmemo) as Hl.
    unfold onUpdate_saved.
    destruct (getPropertyByLabel m "mode") as [r m'].
    simpl in Hl. subst r. reflexivity.
  - specialize (Hnth _ _ Hn). simpl in Hnth. congruence.
  - intros ptype Hp Hm. split.
    + apply (lookup_by_labels m "type" 1 ptype Htype Hp).
      intros i Hi. congruence.
    + specialize (Hnth _ _ Hp). simpl in Hnth. congruence.
Qed.

End ScanProperties.

Lemma parse_one_valid_witness :
  let d := ScanModule.with_event
             (ScanModule.with_choices
                (ScanModule.entry "Mode" "choice" (PyInt 0))
                ["linear"; "logarithmic"; "from file"]%string)
             "onAxisRangeChange" in
  let p := {| ModProp.plabel := "Mode"; ModProp.type := ModProp.choice;
              ModProp.value := PyInt 0;
              ModProp.choices := ["linear"; "logarithmic"; "from file"]%string |} in
  PropertiesDict.d_label d = Some (ModProp.plabel p)
  /\ (exists ty, PropertiesDict.d_type d = Some ty
                 /\ ModPropMore.type_of_string ty = Some (ModProp.type p))
  /\ (exists v, PropertiesDict.d_value d = Some v
                /\ ModProp.value p = ModProp.stored p v)
  /\ ModProp.setValue p (ModProp.value p) = Ok p
  /\ match ModProp.type p with
     | ModProp.choice => PropertiesDict.d_choices d = Some (ModProp.choices p)
     | _ => ModProp.choices p = []
     end
  /\ (forall name, PropertiesDict.d_event d = Some name ->
                   ScanModule.has_method name = true).
Proof.
  intros d p. apply (parse_one_valid ScanModule.has_method d p). reflexivity.
Defined.

Lemma scan_onUpdate_uses_stepping_mode_witness :
  let m := fst (ScanModule.init "C:") in
  let pmode := {| ModProp.plabel := "Mode"; ModProp.type := ModProp.choice;
                  ModProp.value := PyInt 0;
                  ModProp.choices := ["linear"; "logarithmic"; "from file"]%string |} in
  let val := ([1%Q], [2%Q], [3%Q]) in
  fst (ScanModule.onUpdate_saved Qopp Qopp m "run" val 1 150 2)
  = Ok (FSRSutils.formatFSRSFilename (ScanModule.mode_code (ModProp.value pmode))
          "run" 150 2 1,
        FSRSAcquire.result_of Qopp Qopp
          (ScanModule.mode_code (ModProp.value pmode)) val)
  /\ ModProp.plabel pmode = "Mode"%string
  /\ forall ptype,
       nth_error (Registry.properties m) 1 = Some ptype ->
       Registry.memo (Registry.propindex m) "type" = None ->
       fst (Registry.getPropertyByLabel m "type") = Ok ptype
       /\ ModProp.plabel ptype = "Type"%string.
Proof.
  intros m pmode val.
  apply (scan_onUpdate_uses_stepping_mode Qopp Qopp m "Step Size (fs)" pmode
           "run" val 1 150 2).
  - left. reflexivity.
  - reflexivity.
  - intros i H. discriminate H.
  - reflexivity.
Defined.

(** ** The thread of a DAQ scan *)

Section DAQScan.
Import DAQScanThread.

Context {Val : Type}.
Variable axis_is_moving : list (Event Val) -> bool.
Variable daq_read : list (Event Val) -> Val.
Variable canQuit : Flag.t.
Variable points : list Q.

Implicit Types (st : St Val) (tr : list (Event Val)).

Lemma gotos_app tr1 tr2 : gotos (tr1 ++ tr2) = gotos tr1 ++ gotos tr2.
Proof. apply flat_map_app. Qed.

Lemma count_app (f : Event Val -> bool) tr1 tr2 :
  count f (tr1 ++ tr2) = (count f tr1 + count f tr2)%nat.
Proof. unfold count. rewrite filter_app, length_app. reflexivity. Qed.

Ltac quiet :=
  simpl trace; simpl polls;
  rewrite ?gotos_app, ?count_app; simpl;
  rewrite ?app_nil_r, ?Nat.add_0_r;
  try reflexivity; try lia.

(** A wait ends when the flag is set at some poll or the axis has
    arrived at once, and it sends the axis nowhere and posts nothing. *)
Lemma wait_ends :
  forall (fuel : nat) st,
    (exists c, canQuit = Some c /\ (c - polls st < fuel)%nat)
    \/ ((forall tr, axis_is_moving tr = false) /\ (0 < fuel)%nat) ->
    exists st',
      wait axis_is_moving canQuit fuel st = Some st'
      /\ gotos (trace st') = gotos (trace st)
      /\ count is_update (trace st') = count is_update (trace st)
      /\ count is_finished (trace st') = count is_finished (trace st)
      /\ (polls st <= polls st')%nat.
Proof.
  induction fuel as [|fuel IH]; intros st H.
  { destruct H as [[c [_ H]] | [_ H]]; lia. }
  simpl wait. destruct (axis_is_moving (trace st)) eqn:Em.
  - destruct H as [[c [Hc Hf]] | [Hstill _]];
      [|rewrite Hstill in Em; discriminate Em].
    simpl polls. destruct (Flag.isSet canQuit (polls st)) eqn:Eq.
    + eexists. split; [reflexivity|]. repeat split; quiet.
    + assert (Hlt : (polls st < c)%nat).
      { rewrite Hc in Eq. simpl in Eq. apply Nat.leb_gt in Eq. exact Eq. }
      destruct (IH (push (EvSleep 0.01) (polled (push EvIsMoving st))))
        as [st' [E [Hg [Hu [Hfin Hp]]]]].
      { left. exists c. split; [exact Hc|]. simpl. lia. }
      exists st'. split; [exact E|].
      rewrite Hg, Hu, Hfin. simpl in Hp. repeat split; quiet.
  - eexists. split; [reflexivity|]. repeat split; quiet.
Qed.

Lemma points_loop_ends (fuel : nat) :
  (forall st, exists st',
      wait axis_is_moving canQuit fuel st = Some st'
      /\ gotos (trace st') = gotos (trace st)
      /\ count is_update (trace st') = count is_update (trace st)
      /\ count is_finished (trace st') = count is_finished (trace st)
      /\ (polls st <= polls st')%nat) ->
  forall (left cpoint : nat) st,
    (List.length points - cpoint < left)%nat ->
    exists st' (k : nat),
      points_loop axis_is_moving daq_read canQuit points fuel left cpoint st
      = Fin st'
      /\ visited points cpoint k st st'
      /\ (cpoint + k <= Nat.max cpoint (List.length points))%nat
      /\ (canQuit = None -> k = (List.length points - cpoint)%nat).
Proof.
  intro Hwait. induction left as [|left IH]; intros cpoint st Hleft; [lia|].
  simpl points_loop.
  destruct (Flag.isSet canQuit (polls st)) eqn:Eq; simpl negb; cbn [andb].
  { exists (polled st), O. split; [reflexivity|].
    split; [unfold visited; repeat split; quiet|]. split; [lia|].
    intro Hn. rewrite Hn in Eq. discriminate Eq. }
  destruct (cpoint <? List.length points)%nat eqn:Ec.
  2:{ apply Nat.ltb_ge in Ec. exists (polled st), O. split; [reflexivity|].
      split; [unfold visited; repeat split; quiet|]. split; lia. }
  apply Nat.ltb_lt in Ec.
  destruct (nth_error points cpoint) as [p|] eqn:En;
    [|apply nth_error_None in En; lia].
  rewrite py_nth_nonneg by lia. rewrite Nat2Z.id, En.
  destruct (Hwait (push (EvAxisGoto p) (polled st)))
    as [st1 [E1 [Hg1 [Hu1 [Hf1 Hp1]]]]].
  rewrite E1.
  destruct (IH (S cpoint)
              (push (EvUpdate (daq_read (trace st1))) (push EvDaqRead st1)))
    as [st' [k [E [[Hg [Hu [Hf Hp]]] [Hk Hnone]]]]]; [lia|].
  exists st', (S k). split; [exact E|].
  split.
  - unfold visited. rewrite Hg, Hu, Hf.
    rewrite (skipn_nth_error points cpoint p En).
    simpl in Hp, Hp1. simpl trace. rewrite !gotos_app, !count_app, Hg1, Hu1, Hf1.
    simpl trace. rewrite !gotos_app, !count_app. simpl.
    rewrite !app_nil_r, !Nat.add_0_r, <- app_assoc. simpl.
    repeat split; try reflexivity; unfold count; simpl; lia.
  - split; [lia|]. intro Hn. rewrite (Hnone Hn). lia.
Qed.

(** X26: a DAQ scan over a non-empty list of points ends as soon as a
    stop is requested at some time, however long the axis keeps
    moving, and it ends without a stop request when the axis reports
    at once that it has arrived.  It has then visited the first [k]
    points in their order with one update for each, gone back to the
    first point and posted [onFinished], once and last; without a stop
    request [k] is the number of points. *)
Theorem daq_scan_ends (extra : nat) :
  points <> [] ->
  (exists c, canQuit = Some c) \/ (forall tr, axis_is_moving tr = false) ->
  exists (st : St Val) (k : nat),
    run axis_is_moving daq_read canQuit points
      (S (patience canQuit + List.length points) + extra)
    = Fin st
    /\ gotos (trace st) = firstn k points ++ [hd 0%Q points]
    /\ count is_update (trace st) = k
    /\ (k <= List.length points)%nat
    /\ count is_finished (trace st) = 1%nat
    /\ (exists before,
           trace st = before ++ [EvAxisGoto (hd 0%Q points); EvFinished])
    /\ (canQuit = None -> k = List.length points).
Proof.
  intros Hne Hends. unfold run.
  set (fuel := (S (patience canQuit + List.length points) + extra)%nat).
  assert (Hwait : forall st, exists st',
             wait axis_is_moving canQuit fuel st = Some st'
             /\ gotos (trace st') = gotos (trace st)
             /\ count is_update (trace st') = count is_update (trace st)
             /\ count is_finished (trace st') = count is_finished (trace st)
             /\ (polls st <= polls st')%nat).
  { intro st. apply wait_ends. destruct Hends as [[c Hc] | Hstill].
    - left. exists c. split; [exact Hc|]. unfold fuel, patience.
      rewrite Hc. lia.
    - right. split; [exact Hstill | unfold fuel; lia]. }
  destruct (points_loop_ends fuel Hwait fuel O
              {| trace := [EvStarted; EvSleep 0.1]; polls := 0 |})
    as [st [k [E [[Hg [Hu [Hf _]]] [Hk Hnone]]]]]; [unfold fuel; lia|].
  rewrite E. destruct points as [|p0 rest] eqn:Epts; [contradiction|].
  simpl FSRSScan2.py_nth. cbv iota.
  exists (push EvFinished (push (EvAxisGoto p0) st)), k.
  split; [reflexivity|]. simpl trace.
  rewrite !gotos_app, !count_app, Hg, Hu, Hf. unfold count. simpl.
  rewrite app_nil_r. simpl in Hk.
  split; [reflexivity|]. split; [lia|]. split; [lia|]. split; [reflexivity|].
  split.
  - exists (trace st). rewrite <- app_assoc. reflexivity.
  - intro Hn. rewrite (Hnone Hn). simpl. lia.
Qed.

Lemma wait_stuck :
  (forall tr, axis_is_moving tr = true) -> canQuit = None ->
  forall (fuel : nat) st, wait axis_is_moving canQuit fuel st = None.
Proof.
  intros Hmov Hn. induction fuel as [|fuel IH]; intro st; [reflexivity|].
  simpl. rewrite Hmov, Hn. simpl. rewrite <- Hn. apply IH.
Qed.

(** X27: with an axis that never reports its arrival and no stop
    request, a DAQ scan over a non-empty list of points does not end:
    whatever the fuel, the thread is still waiting for the axis at the
    first point. *)
Theorem stuck_axis_never_ends (fuel : nat) :
  (forall tr, axis_is_moving tr = true) -> canQuit = None ->
  points <> [] ->
  run axis_is_moving daq_read canQuit points fuel = NoFuel.
Proof.
  intros Hmov Hn Hne. unfold run. destruct fuel as [|fuel]; [reflexivity|].
  destruct points as [|p0 rest]; [contradiction|].
  cbn [points_loop].
  replace (Flag.isSet canQuit _) with false by (rewrite Hn; reflexivity).
  change (FSRSScan2.py_nth (p0 :: rest) (Z.of_nat 0)) with (Ok p0).
  cbn [negb andb Nat.ltb Nat.leb List.length].
  rewrite (wait_stuck Hmov Hn). reflexivity.
Qed.

End DAQScan.

Lemma daq_scan_ends_witness :
  exists (st : DAQScanThread.St unit) (k : nat),
    DAQScanThread.run (fun _ => true) (fun _ => tt) (Some 3%nat) [0%Q; 10%Q]
      (S (DAQScanThread.patience (Some 3%nat) + List.length [0%Q; 10%Q]) + 0)
    = DAQScanThread.Fin st
    /\ DAQScanThread.gotos (DAQScanThread.trace st)
       = firstn k [0%Q; 10%Q] ++ [hd 0%Q [0%Q; 10%Q]]
    /\ DAQScanThread.count DAQScanThread.is_update (DAQScanThread.trace st) = k
    /\ (k <= List.length [0%Q; 10%Q])%nat
    /\ DAQScanThread.count DAQScanThread.is_finished (DAQScanThread.trace st)
       = 1%nat
    /\ (exists before,
           DAQScanThread.trace st
           = before ++ [DAQScanThread.EvAxisGoto (hd 0%Q [0%Q; 10%Q]);
                        DAQScanThread.EvFinished])
    /\ (Some 3%nat = None -> k = List.length [0%Q; 10%Q]).
Proof.
  apply (daq_scan_ends (fun _ => true) (fun _ => tt) (Some 3%nat)
           [0%Q; 10%Q] 0).
  - discriminate.
  - left. exists 3%nat. reflexivity.
Defined.

Lemma stuck_axis_never_ends_witness :
  DAQScanThread.run (Val := unit) (fun _ => true) (fun _ => tt) None
    [0%Q; 10%Q] 50
  = DAQScanThread.NoFuel.
Proof.
  apply (stuck_axis_never_ends (fun _ => true) (fun _ => tt) None
           [0%Q; 10%Q] 50).
  - reflexivity.
  - reflexivity.
  - discriminate.
Defined.
